(** * ScanMTG: the capture-identify-translate pipeline

    A shallow embedding of the decision logic of the ScanMTG screen
    (React/TypeScript).  The repository holds several iterations of the
    same [App] component; each iteration that a property talks about is
    embedded in a module of its own, named after the source file it comes
    from:

    - [Part000]  two-zone scanner, pattern of three letters, [searchByInfo]
    - [Part002]  full-frame scanner, ranked lines, [searchMultipleFuzzy]
    - [Part003]  first iteration, inline threshold loop
    - [Part004a] title-only scanner (first component of part_004)
    - [Part004b] two-zone scanner with [processZone] (second component)
    - [Part001]  photo upload, [processPhoto]
    - [Part006]  two-zone scanner with [searchBySet] and its name fallback

    JavaScript strings are sequences of UTF-16 code units, pixel buffers
    are byte arrays, numbers are IEEE-754 doubles; the embedding keeps all
    three. *)

From Stdlib.Strings Require Import String Ascii Byte.
From Stdlib Require Import List NArith ZArith Bool Lia Floats Uint63.
From Stdlib Require Import Permutation Sorted.
Import ListNotations.

Set Implicit Arguments.
#[local] Set Warnings "-inexact-float".

(* ===================================================================== *)
(** ** JavaScript strings *)
(* ===================================================================== *)

Module JsString.

(** A string is the list of its UTF-16 code units. *)
Definition code_unit := N.
Definition jsstring := list code_unit.

(** Source literals are UTF-8 in the repository; [js] decodes the one-
    and two-byte sequences that occur in them (ASCII and Latin-1
    letters such as U+00E7) into code units. *)
Fixpoint utf16_of_utf8 (bs : list N) : jsstring :=
  match bs with
  | [] => []
  | b1 :: rest =>
      if (b1 <? 192)%N then b1 :: utf16_of_utf8 rest
      else match rest with
           | [] => [b1]
           | b2 :: rest' =>
               ((b1 mod 32) * 64 + b2 mod 64)%N :: utf16_of_utf8 rest'
           end
  end.

Definition js (s : string) : jsstring :=
  utf16_of_utf8 (map N_of_ascii (list_ascii_of_string s)).

Definition in_range (lo hi c : N) : bool := ((lo <=? c) && (c <=? hi))%N.

(** [a-z], [A-Z], [0-9]. *)
Definition is_lower (c : code_unit) : bool := in_range 97 122 c.
Definition is_upper (c : code_unit) : bool := in_range 65 90 c.
Definition is_letter (c : code_unit) : bool := is_lower c || is_upper c.
Definition is_digit (c : code_unit) : bool := in_range 48 57 c.
Definition is_alnum (c : code_unit) : bool := is_letter c || is_digit c.

(** The class [\s] of ECMAScript, which is also what [trim] strips:
    WhiteSpace (TAB, VT, FF, SP, NBSP, ZWNBSP and the space separators)
    and LineTerminator (LF, CR, LS, PS). *)
Definition is_white (c : code_unit) : bool :=
  in_range 9 13 c
  || (c =? 32)%N
  || (c =? 160)%N
  || (c =? 5760)%N
  || in_range 8192 8202 c
  || (c =? 8232)%N || (c =? 8233)%N
  || (c =? 8239)%N
  || (c =? 8287)%N
  || (c =? 12288)%N
  || (c =? 65279)%N.

Fixpoint dropWhile (p : code_unit -> bool) (s : jsstring) : jsstring :=
  match s with
  | [] => []
  | c :: s' => if p c then dropWhile p s' else s
  end.

(** [String.prototype.trim]. *)
Definition trimStart (s : jsstring) : jsstring := dropWhile is_white s.
Definition trimEnd (s : jsstring) : jsstring := rev (dropWhile is_white (rev s)).
Definition trim (s : jsstring) : jsstring := trimEnd (trimStart s).

(** [s.replace(/[^a-zA-Z\s]/g, by)]: the pattern matches one code unit
    at a time, so every code unit that is neither a letter nor white
    space is replaced by [by]. *)
Definition replace_non_name (by_ : jsstring) (s : jsstring) : jsstring :=
  flat_map (fun c => if is_letter c || is_white c then [c] else by_) s.

(** [s.replace(/[^a-zA-Z\s,]/g, by)]: as above, commas are kept too. *)
Definition replace_non_name_comma (by_ : jsstring) (s : jsstring) : jsstring :=
  flat_map (fun c => if is_letter c || is_white c || (c =? 44)%N then [c] else by_) s.

(** [s.replace(/\s+/g, ' ')]: every maximal run of white space becomes
    one space. *)
Fixpoint collapse_white (s : jsstring) : jsstring :=
  match s with
  | [] => []
  | c :: s' =>
      if is_white c
      then match s' with
           | [] => [32%N]
           | d :: _ => if is_white d then collapse_white s'
                       else 32%N :: collapse_white s'
           end
      else c :: collapse_white s'
  end.

(** [toUpperCase] and [toLowerCase] on the code units the pipeline
    applies them to: the capture groups of the collector-info patterns,
    which hold ASCII letters and digits only.  Other code units are
    left alone. *)
Definition upper_unit (c : code_unit) : code_unit :=
  if is_lower c then (c - 32)%N else c.
Definition lower_unit (c : code_unit) : code_unit :=
  if is_upper c then (c + 32)%N else c.
Definition toUpperCase (s : jsstring) : jsstring := map upper_unit s.
Definition toLowerCase (s : jsstring) : jsstring := map lower_unit s.

(** [s.substring(0, n)]. *)
Definition substring0 (n : nat) (s : jsstring) : jsstring := firstn n s.

(** [s.split('\n')]. *)
Fixpoint split_lines_aux (cur : jsstring) (s : jsstring) : list jsstring :=
  match s with
  | [] => [rev cur]
  | c :: s' => if (c =? 10)%N then rev cur :: split_lines_aux [] s'
               else split_lines_aux (c :: cur) s'
  end.
Definition split_lines (s : jsstring) : list jsstring := split_lines_aux [] s.

Definition jsstring_eqb (a b : jsstring) : bool :=
  if list_eq_dec N.eq_dec a b then true else false.

(** A string is falsy exactly when it is empty. *)
Definition truthy (s : jsstring) : bool :=
  match s with [] => false | _ => true end.

(** Whether the first code unit of [s] exists and is in the class. *)
Definition head_is (p : code_unit -> bool) (s : jsstring) : bool :=
  match s with [] => false | c :: _ => p c end.

Definition starts_white (s : jsstring) : bool :=
  match s with [] => false | c :: _ => is_white c end.
Definition ends_white (s : jsstring) : bool := starts_white (rev s).

(** Surrogate code units, and [String.prototype.isWellFormed]: no
    leading surrogate without a trailing one after it, no trailing
    surrogate on its own. *)
Definition is_high_surrogate (c : code_unit) : bool := in_range 55296 56319 c.
Definition is_low_surrogate (c : code_unit) : bool := in_range 56320 57343 c.
Fixpoint isWellFormed (s : jsstring) : bool :=
  match s with
  | [] => true
  | c :: rest =>
      if is_high_surrogate c then
        match rest with
        | d :: rest' => is_low_surrogate d && isWellFormed rest'
        | [] => false
        end
      else if is_low_surrogate c then false
      else isWellFormed rest
  end.

End JsString.
Import JsString.

(* ===================================================================== *)
(** ** Regular expressions of the collector-info channel *)
(* ===================================================================== *)

Module Regex.

(** A greedy quantifier over a character class, in continuation-passing
    style as in the ECMAScript matcher: it consumes as many code units
    as the class allows and hands what it took ([taken]) and what is
    left to the continuation [k]; when [k] fails it gives one code unit
    back and tries again. *)
Fixpoint greedy {A : Type} (p : code_unit -> bool) (s taken : jsstring)
    (k : jsstring -> jsstring -> option A) : option A :=
  match s with
  | c :: s' =>
      if p c
      then match greedy p s' (taken ++ [c]) k with
           | Some r => Some r
           | None => k taken s
           end
      else k taken s
  | [] => k taken s
  end.

(** [class{n,}]: the continuation only sees repetitions of at least
    [n] code units. *)
Definition at_least {A : Type} (n : nat) (p : code_unit -> bool) (s : jsstring)
    (k : jsstring -> jsstring -> option A) : option A :=
  greedy p s [] (fun g rest => if (n <=? length g)%nat then k g rest else None).

(** [class{n}]: exactly [n] code units of the class. *)
Fixpoint exactly (n : nat) (p : code_unit -> bool) (s : jsstring)
    : option (jsstring * jsstring) :=
  match n with
  | O => Some ([], s)
  | S n' =>
      match s with
      | c :: s' =>
          if p c
          then match exactly n' p s' with
               | Some (g, rest) => Some (c :: g, rest)
               | None => None
               end
          else None
      | [] => None
      end
  end.

(** The common tail [\s*(\d+)] of both patterns; the result is the
    digit group. *)
Definition white_then_digits (s : jsstring) : option jsstring :=
  greedy is_white s []
    (fun _ rest => at_least 1 is_digit rest (fun g2 _ => Some g2)).

(** [String.prototype.match] with a pattern that has no [g] flag: the
    match that starts leftmost. *)
Fixpoint search {A : Type} (m : jsstring -> option A) (s : jsstring) : option A :=
  match m s with
  | Some r => Some r
  | None => match s with
            | [] => None
            | _ :: s' => search m s'
            end
  end.

(** Under the [i] flag (without [u]) a code unit matches [[A-Z]]
    exactly when it is an ASCII letter of either case, so [[A-Z]] is
    [is_letter] and [[A-Z0-9]] is [is_alnum]. *)

(** [/([A-Z]{3})\s*(\d+)/i] anchored at the head of [s]. *)
Definition three_letters_here (s : jsstring) : option (jsstring * jsstring) :=
  match exactly 3 is_letter s with
  | Some (g1, rest) =>
      match white_then_digits rest with
      | Some g2 => Some (g1, g2)
      | None => None
      end
  | None => None
  end.

(** [/([A-Z0-9]{3,})\s*(\d+)/i] anchored at the head of [s]. *)
Definition alnum_run_here (s : jsstring) : option (jsstring * jsstring) :=
  at_least 3 is_alnum s
    (fun g1 rest =>
       match white_then_digits rest with
       | Some g2 => Some (g1, g2)
       | None => None
       end).

(** The capture groups 1 and 2 of [text.match(...)], [None] for [null]. *)
Definition match_three_letters (text : jsstring) : option (jsstring * jsstring) :=
  search three_letters_here text.
Definition match_alnum_run (text : jsstring) : option (jsstring * jsstring) :=
  search alnum_run_here text.

End Regex.

(* ===================================================================== *)
(** ** Canvas pixel data *)
(* ===================================================================== *)

Module Canvas.

(** [ImageData.data]: a [Uint8ClampedArray], four bytes (R, G, B, A)
    per pixel. *)
Definition PixelArray := list byte.

(** Reading an element yields a JavaScript number, that is a double. *)
Definition number_of_byte (b : byte) : float :=
  PrimFloat.of_uint63 (Uint63.of_Z (Z.of_N (Byte.to_N b))).

(** [const v = <bright r g b> ? 255 : 0]. *)
Definition black_or_white (c : bool) : byte := if c then xff else x00.

(** The loop shared by every iteration of the screen:
<<
    for (let i = 0; i < data.length; i += 4) {
      const v = <bright data[i] data[i+1] data[i+2]> ? 255 : 0;
      data[i] = data[i + 1] = data[i + 2] = v;
    }
>>
    The last three equations are what the loop does on a buffer whose
    length is not a multiple of four (a missing element reads as
    [undefined], the weighted sum is then NaN and the comparison false;
    a write past the end is dropped); [getImageData] never returns
    such a buffer. *)
Fixpoint threshold_loop (bright : float -> float -> float -> bool)
    (data : PixelArray) : PixelArray :=
  match data with
  | r :: g :: b :: a :: rest =>
      let v := black_or_white
                 (bright (number_of_byte r) (number_of_byte g) (number_of_byte b)) in
      v :: v :: v :: a :: threshold_loop bright rest
  | [r; g; b] =>
      let v := black_or_white
                 (bright (number_of_byte r) (number_of_byte g) (number_of_byte b)) in
      [v; v; v]
  | [_; _] => [x00; x00]
  | [_] => [x00]
  | [] => []
  end.

End Canvas.

(* ===================================================================== *)
(** ** Card records, the session state and the remote services *)
(* ===================================================================== *)

Module Card.

(** [interface CardData]; [set] and [collector_number] are declared by
    the later iterations only, the catalog sends them always. *)
Record CardData := mkCard {
  name : jsstring;
  printed_name : option jsstring;
  type_line : jsstring;
  printed_type_line : option jsstring;
  oracle_text : option jsstring;
  printed_text : option jsstring;
  translated_text : option jsstring;
  image_uris : option jsstring;
  lang : jsstring;
  set : jsstring;
  collector_number : jsstring
}.

(** [{ ...card, translated_text: t }] *)
Definition with_translated_text (card : CardData) (t : option jsstring) : CardData :=
  {| name := name card;
     printed_name := printed_name card;
     type_line := type_line card;
     printed_type_line := printed_type_line card;
     oracle_text := oracle_text card;
     printed_text := printed_text card;
     translated_text := t;
     image_uris := image_uris card;
     lang := lang card;
     set := set card;
     collector_number := collector_number card |}.

(** Truthiness of an optional string field: present and not empty. *)
Definition present (field : option jsstring) : bool :=
  match field with
  | Some s => truthy s
  | None => false
  end.

(** [a || b] on optional strings read as text, with [""] when neither
    is truthy ([a || b || ""]). *)
Definition or_text (a : option jsstring) (b : jsstring) : jsstring :=
  match a with
  | Some s => if truthy s then s else b
  | None => b
  end.

End Card.
Import Card.

Module Remote.

(** The requests the screen sends.  Each constructor stands for one URL
    template of the source. *)
Inductive Request :=
| GetCardByNumber (set_code num : jsstring)
    (* https://api.scryfall.com/cards/<set>/<num> *)
| GetAutocomplete (q : jsstring)
    (* https://api.scryfall.com/cards/autocomplete?q=<q> *)
| GetNamedFuzzy (q : jsstring)
    (* https://api.scryfall.com/cards/named?fuzzy=<q> *)
| GetSearchPT (card_name : jsstring)
    (* https://api.scryfall.com/cards/search?q=!"<name>"+lang:pt *)
| GetTranslation (q : jsstring).
    (* https://translate.googleapis.com/translate_a/single?...&q=<q> *)

(** What [await fetch(url)] does: the promise is rejected (no network),
    or it resolves to a response with its [ok] flag and a body; the body
    is [None] when [response.json()] rejects. *)
Inductive Reply (A : Type) :=
| Rejected
| Answered (ok : bool) (json : option A).
Arguments Rejected {A}.

(** A stable backend: the same question always gets the same reply.
    The optional lists are the [data] member of a list body, [None]
    when the member is missing; for the translation service it is the
    first element of the top-level array, each item giving the first
    field of one segment ([None] for [null]). *)
Record Backend := mkBackend {
  card_by_number : jsstring -> jsstring -> Reply CardData;
  autocomplete : jsstring -> Reply (option (list jsstring));
  named_fuzzy : jsstring -> Reply CardData;
  search_pt : jsstring -> Reply (option (list CardData));
  translation : jsstring -> Reply (option (list (option jsstring)))
}.

Record Response (A : Type) := mkResponse { ok : bool; body : option A }.

End Remote.
Import Remote.

Module Session.

(** The [useState] cells of the component. *)
Record State := mkState {
  result : option CardData;
  loading : bool;
  error : option jsstring;
  debugText : jsstring
}.

(** The state together with the log of the requests sent so far, the
    oldest first. *)
Record Env := mkEnv { state : State; sent : list Request }.

(** How an [async] body ends: it returns a value or it throws. *)
Inductive Completion (A : Type) :=
| Normal (a : A)
| Throw.
Arguments Throw {A}.

Definition Async (A : Type) := Env -> Completion A * Env.

Definition ret {A : Type} (a : A) : Async A := fun e => (Normal a, e).

Definition bind {A B : Type} (c : Async A) (k : A -> Async B) : Async B :=
  fun e =>
    match c e with
    | (Normal a, e') => k a e'
    | (Throw, e') => (Throw, e')
    end.

Definition throw {A : Type} : Async A := fun e => (Throw, e).

(** [try { c } catch { handler }] *)
Definition try_catch {A : Type} (c handler : Async A) : Async A :=
  fun e =>
    match c e with
    | (Normal a, e') => (Normal a, e')
    | (Throw, e') => handler e'
    end.

(** [try { c } finally { f }] *)
Definition try_finally {A : Type} (c : Async A) (f : Async unit) : Async A :=
  fun e =>
    match c e with
    | (r, e') =>
        match f e' with
        | (Normal _, e'') => (r, e'')
        | (Throw, e'') => (Throw, e'')
        end
    end.

Definition update (f : State -> State) : Async unit :=
  fun e => (Normal tt, {| state := f (state e); sent := sent e |}).

Definition setResult (r : option CardData) : Async unit :=
  update (fun s => {| result := r; loading := loading s;
                      error := error s; debugText := debugText s |}).
Definition setLoading (b : bool) : Async unit :=
  update (fun s => {| result := result s; loading := b;
                      error := error s; debugText := debugText s |}).
Definition setError (m : option jsstring) : Async unit :=
  update (fun s => {| result := result s; loading := loading s;
                      error := m; debugText := debugText s |}).
Definition setDebugText (t : jsstring) : Async unit :=
  update (fun s => {| result := result s; loading := loading s;
                      error := error s; debugText := t |}).

(** The [result] the handler sees when it starts. *)
Definition readResult : Async (option CardData) :=
  fun e => (Normal (result (state e)), e).

(** [await fetch(url)]: the request is logged, then the reply decides. *)
Definition fetch {A : Type} (req : Request) (reply : Reply A) : Async (Response A) :=
  fun e =>
    let e' := {| state := state e; sent := sent e ++ [req] |} in
    match reply with
    | Rejected => (Throw, e')
    | Answered ok json => (Normal {| ok := ok; body := json |}, e')
    end.

(** [await response.json()] *)
Definition json {A : Type} (r : Response A) : Async A :=
  match body r with
  | Some a => ret a
  | None => throw
  end.

(** The state a handler leaves behind. *)
Definition exec {A : Type} (c : Async A) (s : State) : State :=
  state (snd (c {| state := s; sent := [] |})).

(** The requests a handler sends from a given state. *)
Definition requests {A : Type} (c : Async A) (s : State) : list Request :=
  sent (snd (c {| state := s; sent := [] |})).

End Session.
Import Session.

Declare Scope async_scope.
Delimit Scope async_scope with async.
Notation "x <- c ;; k" := (bind c (fun x => k))
  (at level 61, c at next level, right associativity) : async_scope.
Notation "c ;; k" := (bind c (fun _ => k))
  (at level 61, right associativity) : async_scope.
Open Scope async_scope.

(** [encodeURIComponent(q)] inside a URL template: it throws a
    [URIError] when [q] holds an unpaired surrogate, before [fetch] is
    called. *)
Definition encodeURIComponent (q : jsstring) : Async unit :=
  if isWellFormed q then ret tt else throw.

Section Fetches.
Variable api : Backend.

(** The set code, the number and the card name are spliced into their
    URLs as they are; the three other queries go through
    [encodeURIComponent]. *)
Definition fetch_card_by_number (set_code num : jsstring) :=
  fetch (GetCardByNumber set_code num) (card_by_number api set_code num).
Definition fetch_autocomplete (q : jsstring) :=
  encodeURIComponent q ;;
  fetch (GetAutocomplete q) (autocomplete api q).
Definition fetch_named_fuzzy (q : jsstring) :=
  encodeURIComponent q ;;
  fetch (GetNamedFuzzy q) (named_fuzzy api q).
Definition fetch_search_pt (card_name : jsstring) :=
  fetch (GetSearchPT card_name) (search_pt api card_name).
Definition fetch_translation (q : jsstring) :=
  encodeURIComponent q ;;
  fetch (GetTranslation q) (translation api q).
End Fetches.

(** What a scan handler finds when it is called: whether the video
    element, the canvas element and the OCR worker are there
    ([videoRef.current], [canvasRef.current], [workerRef.current]), and
    whether [canvas.getContext('2d')] gives a context. *)
Record Refs := mkRefs {
  videoRef : bool;
  canvasRef : bool;
  workerRef : bool;
  context2d : bool
}.

(** [(data && data.length > 0) ? data[0] : fallback] *)
Definition first_or {A : Type} (data : option (list A)) (fallback : A) : A :=
  match data with
  | Some (x :: _) => x
  | _ => fallback
  end.

(** [items.map(item => item[0]).join('')]: [null] joins as the empty
    string. *)
Definition join_segments (items : list (option jsstring)) : jsstring :=
  flat_map (fun item => match item with Some s => s | None => [] end) items.

(* ===================================================================== *)
(** ** part_000: two-zone scanner *)
(* ===================================================================== *)

Module Part000.

(** [preprocessImage] (lines 62-71):
    [(0.2126 * r + 0.7152 * g + 0.0722 * b) > 130 ? 255 : 0] *)
Definition bright (r g b : float) : bool :=
  (130 <? 0.2126 * r + 0.7152 * g + 0.0722 * b)%float.
Definition preprocessImage (data : Canvas.PixelArray) : Canvas.PixelArray :=
  Canvas.threshold_loop bright data.

(** Line 129: [nameText.trim().replace(/[^a-zA-Z\s]/g, ' ')] *)
Definition cleanName (nameText : jsstring) : jsstring :=
  replace_non_name (js " ") (trim nameText).

(** Lines 131-133:
<<
    const infoMatch = infoText.match(/([A-Z]{3})\s*(\d+)/i);
    const setCode = infoMatch ? infoMatch[1].toUpperCase() : null;
    const collectorNum = infoMatch ? infoMatch[2] : null;
>> *)
Definition infoMatch (infoText : jsstring) : option (jsstring * jsstring) :=
  Regex.match_three_letters infoText.
Definition setCode (infoText : jsstring) : option jsstring :=
  match infoMatch infoText with
  | Some (g1, _) => Some (toUpperCase g1)
  | None => None
  end.
Definition collectorNum (infoText : jsstring) : option jsstring :=
  match infoMatch infoText with
  | Some (_, g2) => Some g2
  | None => None
  end.

Section Handlers.
Variable api : Backend.

(** [fetchPTVersion] (lines 179-197). *)
Definition fetchPTVersion (cardData : CardData) : Async unit :=
  if jsstring_eqb (lang cardData) (js "pt") then
    setResult (Some cardData)
  else
    try_catch
      (ptResponse <- fetch_search_pt api (name cardData) ;;
       if ok ptResponse then
         ptData <- json ptResponse ;;
         match ptData with
         | Some (first :: _) => setResult (Some first)
         | _ => setResult (Some cardData)
         end
       else setResult (Some cardData))
      (setResult (Some cardData)).

(** [searchByName] (lines 164-177). *)
Definition searchByName (name : jsstring) : Async unit :=
  try_catch
    (autoResponse <- fetch_autocomplete api name ;;
     autoData <- json autoResponse ;;
     let targetName := first_or autoData name in
     response <- fetch_named_fuzzy api targetName ;;
     if negb (ok response) then throw
     else
       data <- json response ;;
       fetchPTVersion data)
    (setError (Some (js "Carta não reconhecida."))).

(** [searchByInfo] (lines 152-162); the source comments its handler
    with "Fallback to name if set info fails". *)
Definition searchByInfo (set_code num : jsstring) : Async unit :=
  try_catch
    (response <- fetch_card_by_number api (toLowerCase set_code) num ;;
     if negb (ok response) then throw
     else
       data <- json response ;;
       fetchPTVersion data)
    (setError (Some (js "Informação de coleção lida, mas não encontrada. Refazendo por nome..."))).

(** [captureAndScan] (lines 73-150) from the point where the video
    and the canvas are known to exist.  [recognized] is what the two
    [worker.recognize] calls produced, the name zone first, or [None]
    when the worker could not be created or a call was rejected. *)
Definition captureAndScan (recognized : option (jsstring * jsstring)) : Async unit :=
  setLoading true ;;
  setError None ;;
  setDebugText (js "Analisando carta...") ;;
  try_catch
    (match recognized with
     | None => throw
     | Some (nameText, infoText) =>
         let cleanName := cleanName nameText in
         let setCode := setCode infoText in
         let collectorNum := collectorNum infoText in
         setDebugText (js "Nome: " ++ substring0 10 cleanName ++ js "... | Info: "
                       ++ or_text setCode (js "?") ++ js "/"
                       ++ or_text collectorNum (js "?")) ;;
         let byName :=
           if (3 <? length cleanName)%nat then searchByName cleanName
           else setError (Some (js "Não consegui identificar a carta. Tente alinhar o rodapé.")) in
         match setCode, collectorNum with
         | Some s, Some n =>
             if truthy s && truthy n then searchByInfo s n else byName
         | _, _ => byName
         end
     end)
    (setError (Some (js "Erro no scanner."))) ;;
  setLoading false.

(** [captureAndScan] whole (lines 73-150): the guard of line 74
    returns at once when the video or the canvas is not mounted; without
    a drawing context (line 84) the flags are set and released and
    nothing is read. *)
Definition captureAndScanWith (refs : Refs)
    (recognized : option (jsstring * jsstring)) : Async unit :=
  if negb (videoRef refs) || negb (canvasRef refs) then ret tt
  else if context2d refs then captureAndScan recognized
  else
    setLoading true ;;
    setError None ;;
    setDebugText (js "Analisando carta...") ;;
    setLoading false.

(** [translateText] (lines 199-212). *)
Definition translateText : Async unit :=
  result <- readResult ;;
  match result with
  | None => ret tt
  | Some card =>
      match oracle_text card with
      | None => ret tt
      | Some text =>
          if negb (truthy text) then ret tt
          else
            setLoading true ;;
            try_finally
              (try_catch
                 (response <- fetch_translation api text ;;
                  data <- json response ;;
                  match data with
                  | None => throw
                  | Some items =>
                      let translated := join_segments items in
                      setResult (Some (with_translated_text card (Some translated)))
                  end)
                 (setError (Some (js "Erro na tradução."))))
              (setLoading false)
      end
  end.

End Handlers.

(** The card panel (lines 279-311), for the card that is shown: the
    badge (line 284), the heading (line 286), the type line (line 287),
    the text (line 295) and the condition under which the button bound
    to [translateText] is rendered (line 302). *)
Definition badge (result : CardData) : jsstring :=
  if jsstring_eqb (lang result) (js "pt") then js "Tradução Oficial"
  else if present (translated_text result) then js "Traduzido por IA"
       else js "Original em Inglês".
Definition heading (result : CardData) : jsstring :=
  or_text (printed_name result) (name result).
Definition typeLine (result : CardData) : jsstring :=
  or_text (printed_type_line result) (type_line result).
Definition cardText (result : CardData) : jsstring :=
  or_text (translated_text result)
    (or_text (printed_text result)
       (or_text (oracle_text result) (js "Sem texto."))).
Definition showsTranslateButton (result : CardData) : bool :=
  negb (jsstring_eqb (lang result) (js "pt")) && negb (present (translated_text result)).

End Part000.

(* ===================================================================== *)
(** ** part_002: full-frame scanner with ranked lines *)
(* ===================================================================== *)

Module Part002.

(** [preprocessImage] (lines 75-86):
    [(0.299 * r + 0.587 * g + 0.114 * b) > 140 ? 255 : 0] *)
Definition bright (r g b : float) : bool :=
  (140 <? 0.299 * r + 0.587 * g + 0.114 * b)%float.
Definition preprocessImage (data : Canvas.PixelArray) : Canvas.PixelArray :=
  Canvas.threshold_loop bright data.

(** Line 120:
<<
    text.split('\n').map(l => l.trim().replace(/[^a-zA-Z\s,]/g, ''))
        .filter(l => l.length > 3)
>> *)
Definition candidateLines (text : jsstring) : list jsstring :=
  filter (fun l => (3 <? length l)%nat)
    (map (fun l => replace_non_name_comma [] (trim l)) (split_lines text)).

Section Handlers.
Variable api : Backend.

(** [fetchPTVersion] (lines 159-177). *)
Definition fetchPTVersion (cardData : CardData) : Async unit :=
  try_catch
    (if jsstring_eqb (lang cardData) (js "pt") then
       setResult (Some cardData)
     else
       ptRes <- fetch_search_pt api (name cardData) ;;
       if ok ptRes then
         ptData <- json ptRes ;;
         match ptData with
         | Some (first :: _) => setResult (Some first)
         | _ => setResult (Some (with_translated_text cardData None))
         end
       else setResult (Some (with_translated_text cardData None)))
    (setResult (Some (with_translated_text cardData None))).

(** The body of the [for] loop of [searchMultipleFuzzy] (lines
    140-154): [true] when the loop returns from inside it. *)
Definition tryLine (line : jsstring) : Async bool :=
  try_catch
    (autoRes <- fetch_autocomplete api line ;;
     autoData <- json autoRes ;;
     match autoData with
     | Some (guess :: _) =>
         res <- fetch_named_fuzzy api guess ;;
         if ok res then
           data <- json res ;;
           fetchPTVersion data ;;
           ret true
         else ret false
     | _ => ret false
     end)
    (ret false).

(** [searchMultipleFuzzy] (lines 138-157). *)
Fixpoint searchMultipleFuzzy (lines : list jsstring) : Async bool :=
  match lines with
  | [] => ret false
  | line :: rest =>
      found <- tryLine line ;;
      if found then ret true else searchMultipleFuzzy rest
  end.

(** [translateText] (lines 179-192). *)
Definition translateText : Async unit :=
  result <- readResult ;;
  match result with
  | None => ret tt
  | Some card =>
      match oracle_text card with
      | None => ret tt
      | Some text =>
          if negb (truthy text) then ret tt
          else
            setLoading true ;;
            try_finally
              (try_catch
                 (resp <- fetch_translation api text ;;
                  data <- json resp ;;
                  match data with
                  | None => throw
                  | Some items =>
                      let translated := join_segments items in
                      setResult (Some (with_translated_text card (Some translated)))
                  end)
                 (setError (Some (js "Erro ao traduzir."))))
              (setLoading false)
      end
  end.

(** [captureAndScan] (lines 88-136) from the point where the video, the
    canvas, the worker and the drawing context are known to exist.
    [recognized] is the text that [recognize] produced together with the
    decimal rendering of its confidence, [None] when the call was
    rejected. *)
Definition captureAndScan (recognized : option (jsstring * jsstring)) : Async unit :=
  setLoading true ;;
  setError None ;;
  setDebugText (js "Identificando...") ;;
  try_catch
    (match recognized with
     | None => throw
     | Some (text, confidence) =>
         let lines := candidateLines text in
         setDebugText (js "Confiança: " ++ confidence ++ js "% | Lendo: "
                       ++ match lines with
                          | l :: _ => or_text (Some (substring0 10 l)) (js "...")
                          | [] => js "..."
                          end) ;;
         match lines with
         | _ :: _ =>
             found <- searchMultipleFuzzy (firstn 3 lines) ;;
             if negb found
             then setError (Some (js "Não reconheci esta carta. Tente focar melhor."))
             else ret tt
         | [] => setError (Some (js "Nenhum texto legível encontrado."))
         end
     end)
    (setError (Some (js "Erro na leitura."))) ;;
  setLoading false.

(** [captureAndScan] whole (lines 88-136): the guard of lines 89-92
    returns at once when the video, the canvas or the worker is missing,
    with a message when it is the worker; without a drawing context
    (line 102) the flags are set and released and nothing is read. *)
Definition captureAndScanWith (refs : Refs)
    (recognized : option (jsstring * jsstring)) : Async unit :=
  if negb (videoRef refs) || negb (canvasRef refs) || negb (workerRef refs) then
    (if negb (workerRef refs)
     then setError (Some (js "Scanner ainda carregando..."))
     else ret tt)
  else if context2d refs then captureAndScan recognized
  else
    setLoading true ;;
    setError None ;;
    setDebugText (js "Identificando...") ;;
    setLoading false.

End Handlers.

End Part002.

(* ===================================================================== *)
(** ** part_003: first iteration *)
(* ===================================================================== *)

Module Part003.

(** The threshold loop inside [captureAndScan] (lines 80-87):
    [(data[i] + data[i + 1] + data[i + 2]) / 3 > 128 ? 255 : 0] *)
Definition bright (r g b : float) : bool :=
  (128 <? (r + g + b) / 3)%float.
Definition threshold (data : Canvas.PixelArray) : Canvas.PixelArray :=
  Canvas.threshold_loop bright data.

(** Line 94: [text.trim().replace(/[^a-zA-Z\s]/g, '')] *)
Definition cleanedText (text : jsstring) : jsstring :=
  replace_non_name [] (trim text).

Section Handlers.
Variable api : Backend.

(** [searchCard] (lines 110-132): the fuzzy lookup and the search for a
    Portuguese printing share one [try]. *)
Definition searchCard (name : jsstring) : Async unit :=
  try_catch
    (response <- fetch_named_fuzzy api name ;;
     if negb (ok response) then throw
     else
       data <- json response ;;
       if negb (jsstring_eqb (lang data) (js "pt")) then
         ptResponse <- fetch_search_pt api (Card.name data) ;;
         if ok ptResponse then
           ptData <- json ptResponse ;;
           match ptData with
           | Some (first :: _) => setResult (Some first)
           | _ => setResult (Some data)
           end
         else setResult (Some data)
       else setResult (Some data))
    (setError (Some (js "Carta não encontrada no banco de dados Scryfall."))).

(** [captureAndScan] (lines 58-108) from the point where the video, the
    canvas and the drawing context are known to exist; [recognized] is
    the text of the title zone, [None] when the worker could not be
    created or [recognize] was rejected. *)
Definition captureAndScan (recognized : option jsstring) : Async unit :=
  setLoading true ;;
  setError None ;;
  try_catch
    (match recognized with
     | None => throw
     | Some text =>
         let cleanedText := cleanedText text in
         setDebugText cleanedText ;;
         if (3 <? length cleanedText)%nat then searchCard cleanedText
         else setError (Some (js "Não foi possível ler o nome da carta. Tente focar melhor no título."))
     end)
    (setError (Some (js "Erro no processamento OCR."))) ;;
  setLoading false.

(** [translateText] (lines 134-148). *)
Definition translateText : Async unit :=
  result <- readResult ;;
  match result with
  | None => ret tt
  | Some card =>
      match oracle_text card with
      | None => ret tt
      | Some text =>
          if negb (truthy text) then ret tt
          else
            setLoading true ;;
            try_finally
              (try_catch
                 (response <- fetch_translation api text ;;
                  data <- json response ;;
                  match data with
                  | None => throw
                  | Some items =>
                      let translated := join_segments items in
                      setResult (Some (with_translated_text card (Some translated)))
                  end)
                 (setError (Some (js "Erro ao traduzir automaticamente."))))
              (setLoading false)
      end
  end.

End Handlers.

End Part003.

(* ===================================================================== *)
(** ** part_004, first component: title-only scanner *)
(* ===================================================================== *)

Module Part004a.

(** [preprocessImage] (lines 62-83):
    [v = 0.2126 * r + 0.7152 * g + 0.0722 * b; v = v > 140 ? 255 : 0] *)
Definition bright (r g b : float) : bool :=
  (140 <? 0.2126 * r + 0.7152 * g + 0.0722 * b)%float.
Definition preprocessImage (data : Canvas.PixelArray) : Canvas.PixelArray :=
  Canvas.threshold_loop bright data.

(** Line 119:
    [text.trim().replace(/[^a-zA-Z\s]/g, ' ').replace(/\s+/g, ' ')] *)
Definition cleanedText (text : jsstring) : jsstring :=
  collapse_white (replace_non_name (js " ") (trim text)).

Section Handlers.
Variable api : Backend.

(** [searchCard] (lines 135-167). *)
Definition searchCard (name : jsstring) : Async unit :=
  try_catch
    (autoResponse <- fetch_autocomplete api name ;;
     autoData <- json autoResponse ;;
     let targetName := first_or autoData name in
     response <- fetch_named_fuzzy api targetName ;;
     if negb (ok response) then throw
     else
       data <- json response ;;
       if negb (jsstring_eqb (lang data) (js "pt")) then
         ptResponse <- fetch_search_pt api (Card.name data) ;;
         if ok ptResponse then
           ptData <- json ptResponse ;;
           match ptData with
           | Some (first :: _) => setResult (Some (with_translated_text first None))
           | _ => setResult (Some (with_translated_text data None))
           end
         else setResult (Some (with_translated_text data None))
       else setResult (Some (with_translated_text data None)))
    (setError (Some (js "Carta não identificada com clareza. Tente novamente."))).

(** [translateText] (lines 169-182). *)
Definition translateText : Async unit :=
  result <- readResult ;;
  match result with
  | None => ret tt
  | Some card =>
      match oracle_text card with
      | None => ret tt
      | Some text =>
          if negb (truthy text) then ret tt
          else
            setLoading true ;;
            try_finally
              (try_catch
                 (response <- fetch_translation api text ;;
                  data <- json response ;;
                  match data with
                  | None => throw
                  | Some items =>
                      let translated := join_segments items in
                      setResult (Some (with_translated_text card (Some translated)))
                  end)
                 (setError (Some (js "Erro na tradução."))))
              (setLoading false)
      end
  end.

End Handlers.

End Part004a.

(* ===================================================================== *)
(** ** part_004, second component: two-zone scanner with [processZone] *)
(* ===================================================================== *)

Module Part004b.

(** Line 487: [text.match(/([A-Z0-9]{3,})\s*(\d+)/i)] *)
Definition infoMatch (text : jsstring) : option (jsstring * jsstring) :=
  Regex.match_alnum_run text.

(** Line 489: [titleText.trim().replace(/[^a-zA-Z\s]/g, '')] *)
Definition cleanTitle (titleText : jsstring) : jsstring :=
  replace_non_name [] (trim titleText).

(** [processZone] (lines 423-433):
    [(0.34 * data[i] + 0.5 * data[i + 1] + 0.16 * data[i + 2]) > 125 ? 255 : 0] *)
Definition bright (r g b : float) : bool :=
  (125 <? 0.34 * r + 0.5 * g + 0.16 * b)%float.
Definition processZone (data : Canvas.PixelArray) : Canvas.PixelArray :=
  Canvas.threshold_loop bright data.

Section Handlers.
Variable api : Backend.

(** [fetchPTVersion] (lines 537-555). *)
Definition fetchPTVersion (cardData : CardData) : Async unit :=
  if jsstring_eqb (lang cardData) (js "pt") then
    setResult (Some cardData)
  else
    try_catch
      (ptRes <- fetch_search_pt api (name cardData) ;;
       if ok ptRes then
         ptData <- json ptRes ;;
         match ptData with
         | Some (first :: _) => setResult (Some first)
         | _ => setResult (Some cardData)
         end
       else setResult (Some cardData))
      (setResult (Some cardData)).

(** [searchByInfo] (lines 509-519). *)
Definition searchByInfo (set_code num : jsstring) : Async unit :=
  try_catch
    (resp <- fetch_card_by_number api (toLowerCase set_code) num ;;
     if ok resp then
       data <- json resp ;;
       fetchPTVersion data
     else
       setError (Some (js "Info de rodapé não encontrada no banco. Tentando por nome...")))
    (ret tt).

(** [searchByName] (lines 521-535). *)
Definition searchByName (name : jsstring) : Async unit :=
  try_catch
    (autoRes <- fetch_autocomplete api name ;;
     autoData <- json autoRes ;;
     let targetName := first_or autoData name in
     res <- fetch_named_fuzzy api targetName ;;
     if ok res then
       data <- json res ;;
       fetchPTVersion data
     else setError (Some (js "Carta não identificada.")))
    (ret tt).

(** [captureAndScan] (lines 435-507) from the point where the video,
    the worker and the drawing context are known to exist;
    [recognized] is the text of the title zone and of the footer
    zone, [None] when a [recognize] call was rejected. *)
Definition captureAndScan (recognized : option (jsstring * jsstring)) : Async unit :=
  setLoading true ;;
  setError None ;;
  setDebugText (js "Focando...") ;;
  try_finally
    (try_catch
       (setDebugText (js "Lendo título...") ;;
        match recognized with
        | None => throw
        | Some (titleText, text) =>
            let infoMatch := infoMatch text in
            let cleanTitle := cleanTitle titleText in
            match infoMatch with
            | Some (g1, g2) =>
                setDebugText (js "ID Encontrado: " ++ g1 ++ js "/" ++ g2) ;;
                searchByInfo g1 g2
            | None =>
                if (3 <? length cleanTitle)%nat then
                  setDebugText (js "Buscando Nome: " ++ substring0 10 cleanTitle ++ js "...") ;;
                  searchByName cleanTitle
                else
                  setError (Some (js "Não consegui ler a carta. Tente focar no título ou no rodapé."))
            end
        end)
       (setError (Some (js "Erro no Scanner."))))
    (setLoading false ;; setDebugText []).

(** [translateText] (lines 557-570). *)
Definition translateText : Async unit :=
  result <- readResult ;;
  match result with
  | None => ret tt
  | Some card =>
      setLoading true ;;
      try_finally
        (try_catch
           (let text := or_text (oracle_text card) (or_text (printed_text card) []) in
            resp <- fetch_translation api text ;;
            data <- json resp ;;
            match data with
            | None => throw
            | Some items =>
                setResult (Some (with_translated_text card (Some (join_segments items))))
            end)
           (setError (Some (js "Erro na tradução."))))
        (setLoading false)
  end.

End Handlers.

End Part004b.

(* ===================================================================== *)
(** ** part_001, first component: photo upload *)
(* ===================================================================== *)

Module Part001.

(** Line 107: [infoText.match(/([A-Z0-9]{3,})\s*(\d+)/i)] *)
Definition codes (infoText : jsstring) : option (jsstring * jsstring) :=
  Regex.match_alnum_run infoText.

(** Line 111: [titleText.trim().replace(/[^a-zA-Z\s]/g, '')] *)
Definition cleanTitle (titleText : jsstring) : jsstring :=
  replace_non_name [] (trim titleText).

(** The threshold loop over the title zone in [processPhoto] (lines
    89-95): [(r + g + b) / 3 > 110 ? 255 : 0] *)
Definition bright (r g b : float) : bool :=
  (110 <? (r + g + b) / 3)%float.
Definition thresholdTitle (data : Canvas.PixelArray) : Canvas.PixelArray :=
  Canvas.threshold_loop bright data.

Section Handlers.
Variable api : Backend.

(** [fetchPTVersion] (lines 146-159). *)
Definition fetchPTVersion (card : CardData) : Async unit :=
  if jsstring_eqb (lang card) (js "pt") then
    setResult (Some card)
  else
    try_catch
      (ptRes <- fetch_search_pt api (name card) ;;
       if ok ptRes then
         ptData <- json ptRes ;;
         match ptData with
         | Some (first :: _) => setResult (Some first)
         | _ => setResult (Some card)
         end
       else setResult (Some card))
      (setResult (Some card)).

(** [searchByName] (lines 136-144). *)
Definition searchByName (name : jsstring) : Async unit :=
  try_catch
    (autoRes <- fetch_autocomplete api name ;;
     auto <- json autoRes ;;
     let target := first_or auto name in
     res <- fetch_named_fuzzy api target ;;
     if ok res then
       data <- json res ;;
       fetchPTVersion data
     else setError (Some (js "Carta não encontrada no banco de dados.")))
    (ret tt).

(** [searchBySet] (lines 123-134). *)
Definition searchBySet (set_code num : jsstring) : Async unit :=
  try_catch
    (res <- fetch_card_by_number api (toLowerCase set_code) num ;;
     if ok res then
       data <- json res ;;
       fetchPTVersion data
     else
       setDebugText (js "Código não encontrado, tentando por nome...") ;;
       searchByName (set_code ++ js " " ++ num))
    (ret tt).

(** [processPhoto] (lines 71-121) from the point where the worker
    exists and the image is decoded; [recognized] as above. *)
Definition processPhoto (recognized : option (jsstring * jsstring)) : Async unit :=
  try_finally
    (try_catch
       (setDebugText (js "Lendo título com precisão...") ;;
        match recognized with
        | None => throw
        | Some (titleText, infoText) =>
            match codes infoText with
            | Some (g1, g2) => searchBySet g1 g2
            | None =>
                let cleanTitle := cleanTitle titleText in
                if (2 <? length cleanTitle)%nat then searchByName cleanTitle
                else setError (Some (js "Não consegui ler o nome. Verifique se a foto está bem iluminada e nítida."))
            end
        end)
       (setError (Some (js "Erro ao processar a foto."))))
    (setLoading false ;; setDebugText []).

(** [translate] (lines 161-172). *)
Definition translate : Async unit :=
  result <- readResult ;;
  match result with
  | None => ret tt
  | Some card =>
      setLoading true ;;
      try_finally
        (try_catch
           (let text := or_text (oracle_text card) [] in
            r <- fetch_translation api text ;;
            d <- json r ;;
            match d with
            | None => throw
            | Some items =>
                setResult (Some (with_translated_text card (Some (join_segments items))))
            end)
           (setError (Some (js "Tradução falhou."))))
        (setLoading false)
  end.

End Handlers.

End Part001.

(* ===================================================================== *)
(** ** part_001, second component: perspective correction *)
(* ===================================================================== *)

Module Part001b.

Record Point := mkPoint { x : Z; y : Z }.

(** [pts.sort((a, b) => key(a) - key(b))].  The coordinates are 32-bit
    integers, so the difference is exact and the comparator orders by
    [key]; [Array.prototype.sort] is stable, so the result is the
    stable ordering by [key], which insertion from the right builds. *)
Fixpoint insert_by (key : Point -> Z) (p : Point) (l : list Point) : list Point :=
  match l with
  | [] => [p]
  | q :: l' => if (key p <=? key q)%Z then p :: l else q :: insert_by key p l'
  end.
Definition sort_by (key : Point -> Z) (l : list Point) : list Point :=
  fold_right (insert_by key) [] l.

(** Lines 421-424: the four corners read from [contour.data32S]; the
    caller passes a contour of four rows, that is eight integers. *)
Definition corner (data32S : list Z) (i : nat) : Point :=
  {| x := nth (i * 2) data32S 0%Z; y := nth (i * 2 + 1) data32S 0%Z |}.
Definition corners (data32S : list Z) : list Point :=
  [corner data32S 0; corner data32S 1; corner data32S 2; corner data32S 3].

(** Lines 426-430 of [warpCard]:
<<
    pts.sort((a, b) => a.y - b.y);
    const top = pts.slice(0, 2).sort((a, b) => a.x - b.x);
    const bottom = pts.slice(2, 4).sort((a, b) => a.x - b.x);
    const sortedPts = [top[0], top[1], bottom[1], bottom[0]];
>>
    The last case does not arise: both slices hold two points. *)
Definition sortedPts (data32S : list Z) : list Point :=
  let pts := sort_by y (corners data32S) in
  let top := sort_by x (firstn 2 pts) in
  let bottom := sort_by x (firstn 2 (skipn 2 pts)) in
  match top, bottom with
  | [t0; t1], [b0; b1] => [t0; t1; b1; b0]
  | _, _ => []
  end.

End Part001b.

(* ===================================================================== *)
(** ** part_006: two-zone scanner with the name fallback *)
(* ===================================================================== *)

Module Part006.

(** Line 160: [infoText.match(/([A-Z0-9]{3,})\s*(\d+)/i)] *)
Definition codes (infoText : jsstring) : option (jsstring * jsstring) :=
  Regex.match_alnum_run infoText.

(** Line 164: [titleText.trim().replace(/[^a-zA-Z\s]/g, '')] *)
Definition cleanTitle (titleText : jsstring) : jsstring :=
  replace_non_name [] (trim titleText).

(** [processImage] (lines 123-131): [(r + g + b) / 3 > 115 ? 255 : 0] *)
Definition bright (r g b : float) : bool :=
  (115 <? (r + g + b) / 3)%float.
Definition processImage (data : Canvas.PixelArray) : Canvas.PixelArray :=
  Canvas.threshold_loop bright data.

(** [switchLens] (lines 116-121), given the number of cameras and the
    index of the active one: [None] when the handler returns at once,
    otherwise the index it stores with [setActiveCameraIndex] and starts
    with [startCamera]. *)
Definition switchLens (cameras_length activeCameraIndex : nat) : option nat :=
  if (cameras_length <? 2)%nat then None
  else Some ((activeCameraIndex + 1) mod cameras_length)%nat.

Section Handlers.
Variable api : Backend.

(** [fetchPTVersion] (lines 194-207). *)
Definition fetchPTVersion (card : CardData) : Async unit :=
  if jsstring_eqb (lang card) (js "pt") then
    setResult (Some card)
  else
    try_catch
      (ptRes <- fetch_search_pt api (name card) ;;
       if ok ptRes then
         ptData <- json ptRes ;;
         match ptData with
         | Some (first :: _) => setResult (Some first)
         | _ => setResult (Some card)
         end
       else setResult (Some card))
      (setResult (Some card)).

(** [searchByName] (lines 184-192). *)
Definition searchByName (name : jsstring) : Async unit :=
  try_catch
    (autoRes <- fetch_autocomplete api name ;;
     auto <- json autoRes ;;
     let target := first_or auto name in
     res <- fetch_named_fuzzy api target ;;
     if ok res then
       data <- json res ;;
       fetchPTVersion data
     else setError (Some (js "Carta não encontrada.")))
    (ret tt).

(** [searchBySet] (lines 176-182). *)
Definition searchBySet (set_code num : jsstring) : Async unit :=
  try_catch
    (res <- fetch_card_by_number api (toLowerCase set_code) num ;;
     if ok res then
       data <- json res ;;
       fetchPTVersion data
     else searchByName (set_code ++ js " " ++ num))
    (ret tt).

(** [captureAndScan] (lines 133-174) from the point where the video
    and the worker exist; [recognized] as above. *)
Definition captureAndScan (recognized : option (jsstring * jsstring)) : Async unit :=
  setLoading true ;;
  setError None ;;
  setDebugText (js "Processando...") ;;
  try_finally
    (try_catch
       (match recognized with
        | None => throw
        | Some (titleText, infoText) =>
            match codes infoText with
            | Some (g1, g2) => searchBySet g1 g2
            | None =>
                let cleanTitle := cleanTitle titleText in
                if (3 <? length cleanTitle)%nat then searchByName cleanTitle
                else setError (Some (js "Imagem borrada. Tente afastar um pouco ou limpar a lente."))
            end
        end)
       (setError (Some (js "Falha no scanner."))))
    (setLoading false ;; setDebugText []).

(** [captureAndScan] whole (lines 133-174): the guard of line 134
    returns at once when the video or the worker is missing.  The canvas
    is created on the spot; a missing drawing context makes the first
    [drawImage] throw inside the [try], which is the [None] of
    [recognized]. *)
Definition captureAndScanWith (refs : Refs)
    (recognized : option (jsstring * jsstring)) : Async unit :=
  if negb (videoRef refs) || negb (workerRef refs) then ret tt
  else captureAndScan (if context2d refs then recognized else None).

(** [translate] (lines 209-220). *)
Definition translate : Async unit :=
  result <- readResult ;;
  match result with
  | None => ret tt
  | Some card =>
      setLoading true ;;
      try_finally
        (try_catch
           (let text := or_text (oracle_text card) [] in
            r <- fetch_translation api text ;;
            d <- json r ;;
            match d with
            | None => throw
            | Some items =>
                setResult (Some (with_translated_text card (Some (join_segments items))))
            end)
           (setError (Some (js "Tradução falhou."))))
        (setLoading false)
  end.

End Handlers.

End Part006.

(* ===================================================================== *)
(** ** What the specification says about the collector-info pattern *)
(* ===================================================================== *)

Module Pattern.

(** The specification words the pattern as "three-or-more alphanumeric
    characters, optional white space, one-or-more digits".  An
    occurrence of such a pattern in [text] splits it as
    [pre ++ g1 ++ ws ++ g2 ++ post]; the class of the first group and
    the lengths it may have are parameters, so that the pattern of
    part_000 (exactly three letters) is an instance too. *)
Definition occurs_at (cls : code_unit -> bool) (len_ok : nat -> bool)
    (text pre g1 ws g2 post : jsstring) : Prop :=
  text = pre ++ g1 ++ ws ++ g2 ++ post
  /\ forallb cls g1 = true /\ len_ok (length g1) = true
  /\ forallb is_white ws = true
  /\ forallb is_digit g2 = true /\ (1 <= length g2)%nat.

Definition contains (cls : code_unit -> bool) (len_ok : nat -> bool)
    (text : jsstring) : Prop :=
  exists pre g1 ws g2 post, occurs_at cls len_ok text pre g1 ws g2 post.

(** The first match: an occurrence such that none starts earlier, none
    that starts at the same place has a longer first group, and the
    digit group is not followed by one more digit. *)
Definition first_match (cls : code_unit -> bool) (len_ok : nat -> bool)
    (text g1 g2 : jsstring) : Prop :=
  exists pre ws post,
    occurs_at cls len_ok text pre g1 ws g2 post
    /\ head_is is_digit post = false
    /\ forall pre' g1' ws' g2' post',
         occurs_at cls len_ok text pre' g1' ws' g2' post' ->
         (length pre < length pre')%nat
         \/ (length pre = length pre' /\ length g1' <= length g1)%nat.

Definition three_or_more (n : nat) : bool := (3 <=? n)%nat.
Definition exactly_three (n : nat) : bool := (n =? 3)%nat.

End Pattern.

(** What it takes for a matcher anchored at the head of a string to
    implement an occurrence of the pattern: it answers with an occurrence
    whose first group is the longest possible, and it fails only when
    there is none. *)
Definition anchored_ok (cls : code_unit -> bool) (len_ok : nat -> bool)
    (m : jsstring -> option (jsstring * jsstring)) : Prop :=
  (forall s g1 g2, m s = Some (g1, g2) ->
     exists ws post,
       Pattern.occurs_at cls len_ok s [] g1 ws g2 post
       /\ head_is is_digit post = false
       /\ forall g1' ws' g2' post',
            Pattern.occurs_at cls len_ok s [] g1' ws' g2' post' ->
            (length g1' <= length g1)%nat)
  /\ (forall s, m s = None ->
        forall g1 ws g2 post, ~ Pattern.occurs_at cls len_ok s [] g1 ws g2 post).

(* ===================================================================== *)
(** ** Outcomes of the secondary search, and a sample session *)
(* ===================================================================== *)

(** The search for a Portuguese printing of [card] has a hit when it
    answers with a success status and a list that is not empty; every
    other reply (rejected, error status, unreadable body, no list, empty
    list) is a miss. *)
Definition pt_hit (api : Backend) (card first : CardData) : Prop :=
  exists rest, search_pt api (name card) = Answered true (Some (Some (first :: rest))).
Definition pt_miss (api : Backend) (card : CardData) : Prop :=
  forall first rest,
    search_pt api (name card) <> Answered true (Some (Some (first :: rest))).

(** The autocomplete service has a top suggestion when its body can be
    read and lists at least one name; it has none when the body can be
    read and the list is missing or empty; otherwise the call failed. *)
Definition top_suggestion (api : Backend) (q top : jsstring) : Prop :=
  exists ok rest, autocomplete api q = Answered ok (Some (Some (top :: rest))).
Definition no_suggestion (api : Backend) (q : jsstring) : Prop :=
  exists ok, autocomplete api q = Answered ok (Some None)
             \/ autocomplete api q = Answered ok (Some (Some [])).
Definition autocomplete_failed (api : Backend) (q : jsstring) : Prop :=
  autocomplete api q = Rejected \/ exists ok, autocomplete api q = Answered ok None.

(** The translation call fails when the request is rejected, the body
    cannot be read, or its first element is not a list of segments. *)
Definition translation_failed (api : Backend) (q : jsstring) : Prop :=
  translation api q = Rejected
  \/ (exists ok, translation api q = Answered ok None)
  \/ (exists ok, translation api q = Answered ok (Some None)).

(** The exact lookup by set and number fails when the request is
    rejected, the status is an error, or the body cannot be read. *)
Definition number_lookup_failed (api : Backend) (set_code num : jsstring) : Prop :=
  card_by_number api set_code num = Rejected
  \/ (exists b, card_by_number api set_code num = Answered false b)
  \/ card_by_number api set_code num = Answered true None.

(** [shown] is [card] with the translation [t] in [translated_text] and
    every other field as it was. *)
Definition translated_as (card shown : CardData) (t : jsstring) : Prop :=
  translated_text shown = Some t
  /\ name shown = name card
  /\ printed_name shown = printed_name card
  /\ type_line shown = type_line card
  /\ printed_type_line shown = printed_type_line card
  /\ oracle_text shown = oracle_text card
  /\ printed_text shown = printed_text card
  /\ image_uris shown = image_uris card
  /\ lang shown = lang card
  /\ set shown = set card
  /\ collector_number shown = collector_number card.

(** What a translate handler does to the state when it sends the text
    [text] of the card that is shown: a text that cannot be URI-encoded
    and a failing service end in the handler's message, segments end in
    the record with the translation. *)
Definition translate_outcome (failure : jsstring) (api : Backend)
    (card : CardData) (text : jsstring) (s : State) : State :=
  let failed := {| result := Some card; loading := false;
                   error := Some failure; debugText := debugText s |} in
  if isWellFormed text then
    match translation api text with
    | Answered _ (Some (Some items)) =>
        {| result := Some (with_translated_text card (Some (join_segments items)));
           loading := false; error := error s; debugText := debugText s |}
    | _ => failed
    end
  else failed.

(** How a lookup handler can leave the state: a card is shown and
    nothing else changes, or a message is written and nothing else
    changes. *)
Definition shows_card (before after : State) (shown : CardData) : Prop :=
  after = {| result := Some shown; loading := loading before;
             error := error before; debugText := debugText before |}.
Definition reports_error (before after : State) : Prop :=
  exists m, after = {| result := result before; loading := loading before;
                       error := Some m; debugText := debugText before |}.

(** A backend that rejects no request of the catalog, whose bodies can
    be read wherever a handler reads them (the autocomplete body always,
    the two card bodies under a success status), and whose suggestions
    can be URI-encoded. *)
Definition responsive (api : Backend) : Prop :=
  (forall s n, card_by_number api s n <> Rejected
               /\ card_by_number api s n <> Answered true None)
  /\ (forall q, autocomplete api q <> Rejected
                /\ forall okf, autocomplete api q <> Answered okf None)
  /\ (forall q, named_fuzzy api q <> Rejected
                /\ named_fuzzy api q <> Answered true None)
  /\ (forall q okf top rest,
        autocomplete api q = Answered okf (Some (Some (top :: rest))) ->
        isWellFormed top = true).

(** The seven binarization loops of the screens. *)
Definition binarizations : list (Canvas.PixelArray -> Canvas.PixelArray) :=
  [Part000.preprocessImage; Part002.preprocessImage; Part003.threshold;
   Part004a.preprocessImage; Part004b.processZone; Part001.thresholdTitle;
   Part006.processImage].

(** A colour byte as an integer, and the double of a small integer. *)
Definition channel (b : byte) : Z := Z.of_N (Byte.to_N b).
Definition double_of (z : Z) : float := PrimFloat.of_uint63 (Uint63.of_Z z).

Module Demo.

Definition bolt_en : CardData :=
  {| name := js "Lightning Bolt";
     printed_name := None;
     type_line := js "Instant";
     printed_type_line := None;
     oracle_text := Some (js "Lightning Bolt deals 3 damage to any target.");
     printed_text := None;
     translated_text := None;
     image_uris := None;
     lang := js "en";
     set := js "clu";
     collector_number := js "141" |}.

Definition bolt_pt : CardData :=
  {| name := js "Lightning Bolt";
     printed_name := Some (js "Raio");
     type_line := js "Instant";
     printed_type_line := Some (js "Mágica Instantânea");
     oracle_text := Some (js "Lightning Bolt deals 3 damage to any target.");
     printed_text := Some (js "Raio causa 3 pontos de dano a qualquer alvo.");
     translated_text := None;
     image_uris := None;
     lang := js "pt";
     set := js "m11";
     collector_number := js "149" |}.

(** A card the catalog has in English only. *)
Definition shock_en : CardData :=
  {| name := js "Shock";
     printed_name := None;
     type_line := js "Instant";
     printed_type_line := None;
     oracle_text := Some (js "Shock deals 2 damage to any target.");
     printed_text := None;
     translated_text := None;
     image_uris := None;
     lang := js "en";
     set := js "m21";
     collector_number := js "159" |}.

(** The same card with a translation from an earlier session. *)
Definition shock_stale : CardData :=
  {| name := js "Shock";
     printed_name := None;
     type_line := js "Instant";
     printed_type_line := None;
     oracle_text := Some (js "Shock deals 2 damage to any target.");
     printed_text := None;
     translated_text := Some (js "antiga");
     image_uris := None;
     lang := js "en";
     set := js "m21";
     collector_number := js "159" |}.

(** A card without rules text. *)
Definition bears_en : CardData :=
  {| name := js "Grizzly Bears";
     printed_name := None;
     type_line := js "Creature";
     printed_type_line := None;
     oracle_text := Some [];
     printed_text := None;
     translated_text := None;
     image_uris := None;
     lang := js "en";
     set := js "10e";
     collector_number := js "268" |}.

(** A catalog that knows the two cards by name but has no printing
    under any (set, number) pair, and a translation service that
    answers in two segments. *)
Definition api : Backend :=
  {| card_by_number := fun _ _ => Answered false None;
     autocomplete := fun q =>
       if jsstring_eqb q (js "Lightning Bolt")
       then Answered true (Some (Some [js "Lightning Bolt"; js "Lightning Bolt Token"]))
       else Answered true (Some (Some []));
     named_fuzzy := fun q =>
       if jsstring_eqb q (js "Lightning Bolt") || jsstring_eqb q (js "Lightnin Bolt")
       then Answered true (Some bolt_en)
       else if jsstring_eqb q (js "Shock") then Answered true (Some shock_en)
       else Answered false None;
     search_pt := fun n =>
       if jsstring_eqb n (js "Lightning Bolt")
       then Answered true (Some (Some [bolt_pt]))
       else Answered true (Some (Some []));
     translation := fun _ =>
       Answered true (Some (Some [Some (js "Choque causa 2 pontos de dano ");
                                  Some (js "a qualquer alvo.")])) |}.

(** The same catalog behind a network that is down. *)
Definition offline : Backend :=
  {| card_by_number := fun _ _ => Rejected;
     autocomplete := fun _ => Rejected;
     named_fuzzy := fun _ => Rejected;
     search_pt := fun _ => Rejected;
     translation := fun _ => Rejected |}.

Definition idle : State :=
  {| result := None; loading := false; error := None; debugText := [] |}.

Definition showing (card : CardData) : State :=
  {| result := Some card; loading := false; error := None; debugText := [] |}.

End Demo.

(* ===================================================================== *)
(** ** Proof automation for handlers *)
(* ===================================================================== *)

(** Unfolds the combinators of an [Async] computation. *)
Ltac async_unfold :=
  unfold fetch_card_by_number, fetch_autocomplete, fetch_named_fuzzy,
    fetch_search_pt, fetch_translation in *;
  unfold encodeURIComponent in *;
  unfold bind, ret, throw, try_catch, try_finally, json, fetch,
    setResult, setLoading, setError, setDebugText, readResult, update,
    exec, requests in *.

(** Splits on the next value the computation branches on. *)
Ltac async_case :=
  match goal with
  | |- context [match ?x with _ => _ end] =>
      lazymatch x with
      | context [match _ with _ => _ end] => fail
      | _ => lazymatch type of x with
             | prod _ _ => fail
             | _ => destruct x eqn:?
             end
      end
  end.

Ltac async_crush := async_unfold; cbn; repeat (async_case; cbn); auto.

(** Brings a request log to the form [old ++ r1 :: r2 :: ...]. *)
Ltac log_norm := repeat rewrite <- app_assoc; cbn [app].

(** Closes [handler e = (Normal tt, {| state := ?after; sent := sent e ++ ?more |})]
    under two existentials, also when nothing was sent. *)
Ltac show_run :=
  first [ do 2 eexists; split; [reflexivity|]
        | eexists; exists nil; split; [rewrite app_nil_r; reflexivity|] ].

Ltac reply_facts :=
  repeat match goal with
         | H : exists _, _ |- _ => destruct H
         | H : _ \/ _ |- _ => destruct H
         | H : _ /\ _ |- _ => destruct H
         end;
  try congruence.

(* ===================================================================== *)
(** * Properties *)
(* ===================================================================== *)

(* --------------------------------------------------------------------- *)
(** ** Strings *)
(* --------------------------------------------------------------------- *)

Example ex_js_ascii : js "MID 245" = [77; 73; 68; 32; 50; 52; 53]%N.
Proof. reflexivity. Qed.

Example ex_js_latin1 : js "ção" = [231; 227; 111]%N.
Proof. reflexivity. Qed.

Example ex_trim : trim (js "  Lightning Bolt ") = js "Lightning Bolt".
Proof. reflexivity. Qed.

Example ex_collapse_white : collapse_white (js "a  b   c ") = js "a b c ".
Proof. reflexivity. Qed.

Example ex_split_lines : split_lines (js "ab
cd") = [js "ab"; js "cd"].
Proof. reflexivity. Qed.

Lemma dropWhile_head_false (s : jsstring) :
  starts_white (dropWhile is_white s) = false.
Proof.
  induction s as [|c s IH]; simpl; [reflexivity|].
  destruct (is_white c) eqn:E; [exact IH|]. simpl. exact E.
Qed.

Lemma dropWhile_suffix (p : code_unit -> bool) (s : jsstring) :
  exists t, s = t ++ dropWhile p s.
Proof.
  induction s as [|c s [t IH]]; simpl.
  - exists []. reflexivity.
  - destruct (p c).
    + exists (c :: t). simpl. f_equal. exact IH.
    + exists []. reflexivity.
Qed.

Lemma starts_white_prefix (a t : jsstring) :
  starts_white (a ++ t) = false -> starts_white a = false.
Proof. destruct a; simpl; auto. Qed.

(** What [trim] does achieve: its result neither starts nor ends with
    white space. *)
Lemma trim_no_edge_white (s : jsstring) :
  starts_white (trim s) = false /\ ends_white (trim s) = false.
Proof.
  unfold trim, trimEnd, trimStart, ends_white. split.
  - pose proof (dropWhile_head_false s) as Hs.
    remember (dropWhile is_white s) as u eqn:Hu. clear Hu s.
    destruct (dropWhile_suffix is_white (rev u)) as [t Ht].
    apply (f_equal (@rev _)) in Ht.
    rewrite rev_involutive, rev_app_distr in Ht.
    rewrite Ht in Hs. exact (starts_white_prefix _ _ Hs).
  - rewrite rev_involutive. apply dropWhile_head_false.
Qed.

Lemma replace_non_name_chars (by_ s : jsstring) :
  forallb (fun c => is_letter c || is_white c) by_ = true ->
  forallb (fun c => is_letter c || is_white c) (replace_non_name by_ s) = true.
Proof.
  intros Hby. unfold replace_non_name.
  induction s as [|c s IH]; simpl; [reflexivity|].
  rewrite forallb_app, IH, andb_true_r.
  destruct (is_letter c || is_white c) eqn:E; simpl.
  - rewrite E. reflexivity.
  - exact Hby.
Qed.

Lemma collapse_white_chars (s : jsstring) :
  forallb (fun c => is_letter c || is_white c) s = true ->
  forallb (fun c => is_letter c || is_white c) (collapse_white s) = true.
Proof.
  induction s as [|c s IH]; [reflexivity|].
  cbn [forallb collapse_white].
  intros H. apply andb_true_iff in H as [Hc Hs]. specialize (IH Hs).
  destruct (is_white c) eqn:Ew.
  - destruct s as [|d s']; [reflexivity|].
    destruct (is_white d); [exact IH|].
    cbn [forallb]. exact IH.
  - cbn [forallb]. rewrite Ew, Hc. exact IH.
Qed.

(** Strings without surrogate code units can always be URI-encoded;
    such are the strings the cleaning steps and the collector-info
    patterns produce. *)
Lemma plain_units_wellformed (s : jsstring) :
  forallb (fun c => negb (is_high_surrogate c || is_low_surrogate c)) s = true ->
  isWellFormed s = true.
Proof.
  induction s as [|c s IH]; [reflexivity|].
  cbn [forallb isWellFormed]. intros H. apply andb_true_iff in H as [Hc Hs].
  apply negb_true_iff, orb_false_iff in Hc as [-> ->]. exact (IH Hs).
Qed.

Lemma name_unit_plain (c : code_unit) :
  is_alnum c || is_white c || (c =? 44)%N = true ->
  negb (is_high_surrogate c || is_low_surrogate c) = true.
Proof.
  unfold is_alnum, is_letter, is_lower, is_upper, is_digit, is_white,
    is_high_surrogate, is_low_surrogate, in_range.
  intros H. apply negb_true_iff, orb_false_iff.
  repeat rewrite ?orb_true_iff, ?andb_true_iff, ?N.leb_le, ?N.eqb_eq in H.
  split; apply andb_false_iff; rewrite !N.leb_gt; lia.
Qed.

Lemma name_units_wellformed (s : jsstring) :
  forallb (fun c => is_alnum c || is_white c || (c =? 44)%N) s = true ->
  isWellFormed s = true.
Proof.
  intros H. apply plain_units_wellformed.
  rewrite forallb_forall in *. intros c Hc. apply name_unit_plain, H, Hc.
Qed.

Lemma letters_white_wellformed (s : jsstring) :
  forallb (fun c => is_letter c || is_white c) s = true -> isWellFormed s = true.
Proof.
  intros H. apply name_units_wellformed.
  rewrite forallb_forall in *. intros c Hc. specialize (H c Hc). unfold is_alnum.
  destruct (is_letter c); [reflexivity|]. cbn in *. rewrite H, orb_true_r. reflexivity.
Qed.

(** The half of the cleaning contract the code keeps: in every variant
    the cleaned name holds Latin letters and white space only. *)
Lemma cleaning_keeps_only_letters_and_white (text : jsstring) :
  forallb (fun c => is_letter c || is_white c) (Part000.cleanName text) = true
  /\ forallb (fun c => is_letter c || is_white c) (Part004a.cleanedText text) = true
  /\ forallb (fun c => is_letter c || is_white c) (Part006.cleanTitle text) = true.
Proof.
  unfold Part000.cleanName, Part004a.cleanedText, Part006.cleanTitle.
  repeat split.
  - apply replace_non_name_chars. reflexivity.
  - apply collapse_white_chars, replace_non_name_chars. reflexivity.
  - apply replace_non_name_chars. reflexivity.
Qed.

Example ex_cleanName_plain :
  Part000.cleanName (js "  Lightning Bolt ") = js "Lightning Bolt".
Proof. reflexivity. Qed.

(** C3 (fails on the code).  Cleaning is [trim] first and the replacement
    of the foreign characters second, so white space that the
    replacement uncovers or writes at either end stays: the recognized
    name ["7 Bolt"] is cleaned to ["  Bolt"] by part_000, ["7 Bolt!"] to
    [" Bolt "] by part_004 (even after collapsing), and ["7 Bolt"] to
    [" Bolt"] by the variants that delete instead of replacing. *)
Theorem C3_cleaning_leaves_edge_white :
  Part000.cleanName (js "7 Bolt") = js "  Bolt"
  /\ starts_white (Part000.cleanName (js "7 Bolt")) = true
  /\ Part004a.cleanedText (js "7 Bolt!") = js " Bolt "
  /\ starts_white (Part004a.cleanedText (js "7 Bolt!")) = true
  /\ ends_white (Part004a.cleanedText (js "7 Bolt!")) = true
  /\ Part006.cleanTitle (js "7 Bolt") = js " Bolt"
  /\ starts_white (Part006.cleanTitle (js "7 Bolt")) = true.
Proof. repeat split; reflexivity. Qed.

(** A consequence: a title read as digits only is cleaned to a string of
    spaces that is long enough for the length gate of the scan, and the
    catalog is asked for a blank name. *)
Example ex_blank_name_is_searched :
  Part000.cleanName (js "12345") = js "     "
  /\ requests (Part000.captureAndScan Demo.api (Some (js "12345", js ""))) Demo.idle
     = [GetAutocomplete (js "     "); GetNamedFuzzy (js "     ")].
Proof. split; reflexivity. Qed.

(* --------------------------------------------------------------------- *)
(** ** Collector-info extraction *)
(* --------------------------------------------------------------------- *)

Example ex_info_mid : Part000.infoMatch (js "MID 245") = Some (js "MID", js "245").
Proof. reflexivity. Qed.

Example ex_info_setcode_upper :
  Part000.setCode (js "x mid245/280") = Some (js "MID")
  /\ Part000.collectorNum (js "x mid245/280") = Some (js "245").
Proof. split; reflexivity. Qed.

Example ex_info_slides : Part000.infoMatch (js "ABCD 12") = Some (js "BCD", js "12").
Proof. reflexivity. Qed.

Example ex_info_digit_in_code : Part000.infoMatch (js "M21 245") = None.
Proof. reflexivity. Qed.

Example ex_alnum_mid : Part004b.infoMatch (js "mid 245") = Some (js "mid", js "245").
Proof. reflexivity. Qed.

Example ex_alnum_digit_in_code : Part004b.infoMatch (js "M21 245") = Some (js "M21", js "245").
Proof. reflexivity. Qed.

(** Without white space between the groups the greedy first group keeps
    all but the last digit. *)
Example ex_alnum_backtracks : Part004b.infoMatch (js "MID245") = Some (js "MID24", js "5").
Proof. reflexivity. Qed.

Example ex_alnum_none : Part004b.infoMatch (js "ab 12 - c") = None.
Proof. reflexivity. Qed.

Section GreedyFacts.
Context {A : Type}.
Variable p : code_unit -> bool.
Variable k : jsstring -> jsstring -> option A.

(** A failed greedy quantifier has tried every repetition. *)
Lemma greedy_none (s taken : jsstring) :
  Regex.greedy p s taken k = None ->
  forall g rest, s = g ++ rest -> forallb p g = true -> k (taken ++ g) rest = None.
Proof.
  revert taken. induction s as [|c s IH]; intros taken H g rest Hs Hg.
  - symmetry in Hs. apply app_eq_nil in Hs as [-> ->].
    rewrite app_nil_r. exact H.
  - simpl in H. destruct g as [|d g].
    + simpl in Hs. subst rest. rewrite app_nil_r.
      destruct (p c); [|exact H].
      destruct (Regex.greedy p s (taken ++ [c]) k); [discriminate|exact H].
    + simpl in Hs. injection Hs as -> Hs. simpl in Hg.
      apply andb_true_iff in Hg as [Hd Hg]. rewrite Hd in H.
      destruct (Regex.greedy p s (taken ++ [d]) k) eqn:E; [discriminate|].
      specialize (IH _ E g rest Hs Hg).
      rewrite <- app_assoc in IH. exact IH.
Qed.

(** A successful one stopped at the longest repetition that lets the
    continuation succeed. *)
Lemma greedy_some (s taken : jsstring) (r : A) :
  Regex.greedy p s taken k = Some r ->
  exists g rest,
    s = g ++ rest /\ forallb p g = true /\ k (taken ++ g) rest = Some r
    /\ forall g' rest', s = g' ++ rest' -> forallb p g' = true ->
                        (length g < length g')%nat -> k (taken ++ g') rest' = None.
Proof.
  revert taken. induction s as [|c s IH]; intros taken H.
  - simpl in H. exists [], []. rewrite (app_nil_r taken). repeat split; auto.
    intros g' rest' Hs _ Hl. symmetry in Hs. apply app_eq_nil in Hs as [-> _].
    simpl in Hl. lia.
  - simpl in H. destruct (p c) eqn:Hc.
    + destruct (Regex.greedy p s (taken ++ [c]) k) as [r'|] eqn:E.
      * injection H as ->.
        destruct (IH _ E) as (g & rest & Hs & Hg & Hk & Hmax).
        exists (c :: g), rest. subst s. repeat split.
        -- simpl. rewrite Hc. exact Hg.
        -- rewrite <- app_assoc in Hk. exact Hk.
        -- intros g' rest' Hs' Hg' Hl. destruct g' as [|d g']; [simpl in Hl; lia|].
           simpl in Hs'. injection Hs' as <- Hs'. simpl in Hg'.
           apply andb_true_iff in Hg' as [_ Hg'].
           specialize (Hmax g' rest' Hs' Hg'). simpl in Hl.
           rewrite <- app_assoc in Hmax. apply Hmax. lia.
      * exists [], (c :: s). rewrite (app_nil_r taken). repeat split; auto.
        intros g' rest' Hs' Hg' Hl. destruct g' as [|d g']; [simpl in Hl; lia|].
        simpl in Hs'. injection Hs' as <- Hs'. simpl in Hg'.
        apply andb_true_iff in Hg' as [_ Hg'].
        pose proof (@greedy_none _ _ E _ _ Hs' Hg') as Hn.
        rewrite <- app_assoc in Hn. exact Hn.
    + exists [], (c :: s). rewrite (app_nil_r taken). repeat split; auto.
      intros g' rest' Hs' Hg' Hl. destruct g' as [|d g']; [simpl in Hl; lia|].
      simpl in Hs'. injection Hs' as Hcd Hs'. simpl in Hg'.
      apply andb_true_iff in Hg' as [Hd _]. congruence.
Qed.

End GreedyFacts.

Section SearchFacts.
Context {A : Type}.
Variable m : jsstring -> option A.

Lemma search_none (s : jsstring) :
  Regex.search m s = None -> forall pre suf, s = pre ++ suf -> m suf = None.
Proof.
  induction s as [|c s IH]; intros H pre suf Hs.
  - symmetry in Hs. apply app_eq_nil in Hs as [_ ->].
    simpl in H. destruct (m []); [discriminate|reflexivity].
  - simpl in H. destruct (m (c :: s)) eqn:E; [discriminate|].
    destruct pre as [|d pre]; simpl in Hs.
    + subst suf. exact E.
    + injection Hs as _ Hs. exact (IH H _ _ Hs).
Qed.

Lemma search_some (s : jsstring) (r : A) :
  Regex.search m s = Some r ->
  exists pre suf,
    s = pre ++ suf /\ m suf = Some r
    /\ forall pre' suf', s = pre' ++ suf' ->
                         (length pre' < length pre)%nat -> m suf' = None.
Proof.
  induction s as [|c s IH]; intros H.
  - simpl in H. destruct (m []) eqn:E; [|discriminate]. injection H as ->.
    exists [], []. repeat split; auto. intros ? ? _ Hl. simpl in Hl. lia.
  - simpl in H. destruct (m (c :: s)) eqn:E.
    + injection H as ->. exists [], (c :: s). repeat split; auto.
      intros ? ? _ Hl. simpl in Hl. lia.
    + destruct (IH H) as (pre & suf & Hs & Hm & Hmin).
      exists (c :: pre), suf. subst s. repeat split; auto.
      intros pre' suf' Hs' Hl. destruct pre' as [|d pre']; simpl in Hs'.
      * subst suf'. exact E.
      * injection Hs' as _ Hs'. apply (Hmin _ _ Hs'). simpl in Hl. lia.
Qed.

End SearchFacts.

Lemma exactly_some (n : nat) (p : code_unit -> bool) (s g rest : jsstring) :
  Regex.exactly n p s = Some (g, rest) ->
  s = g ++ rest /\ length g = n /\ forallb p g = true.
Proof.
  revert s g rest. induction n as [|n IH]; intros s g rest H; simpl in H.
  - injection H as <- <-. auto.
  - destruct s as [|c s]; [discriminate|].
    destruct (p c) eqn:Hc; [|discriminate].
    destruct (Regex.exactly n p s) as [[g' rest']|] eqn:E; [|discriminate].
    injection H as <- <-. destruct (IH _ _ _ E) as (-> & <- & Hg).
    simpl. rewrite Hc. auto.
Qed.

Lemma exactly_none (n : nat) (p : code_unit -> bool) (s : jsstring) :
  Regex.exactly n p s = None ->
  forall g rest, s = g ++ rest -> length g = n -> forallb p g = true -> False.
Proof.
  revert s. induction n as [|n IH]; intros s H g rest Hs Hl Hg; simpl in H.
  - discriminate.
  - destruct g as [|c g]; [discriminate|]. simpl in *. subst s.
    apply andb_true_iff in Hg as [Hc Hg]. rewrite Hc in H.
    destruct (Regex.exactly n p (g ++ rest)) as [[g' rest']|] eqn:E; [discriminate|].
    apply (IH _ E g rest); auto.
Qed.

Lemma white_then_digits_some (s g2 : jsstring) :
  Regex.white_then_digits s = Some g2 ->
  exists ws post,
    s = ws ++ g2 ++ post /\ forallb is_white ws = true
    /\ forallb is_digit g2 = true /\ (1 <= length g2)%nat
    /\ head_is is_digit post = false.
Proof.
  unfold Regex.white_then_digits, Regex.at_least. intros H.
  apply greedy_some in H as (ws & rest & -> & Hws & H & _).
  apply greedy_some in H as (g & post & -> & Hg & H & Hmax).
  cbn beta in H. rewrite app_nil_l in H.
  destruct (1 <=? length g)%nat eqn:Hl; [|discriminate].
  injection H as <-. apply Nat.leb_le in Hl.
  exists ws, post. repeat split; auto.
  destruct post as [|d post]; [reflexivity|]. simpl.
  destruct (is_digit d) eqn:Hd; [|reflexivity]. exfalso.
  specialize (Hmax (g ++ [d]) post). cbn beta in Hmax.
  rewrite <- app_assoc, app_nil_l, forallb_app, Hg, length_app in Hmax.
  simpl in Hmax. rewrite Hd in Hmax.
  specialize (Hmax eq_refl eq_refl ltac:(lia)).
  destruct (length g + 1)%nat eqn:E; [lia|discriminate].
Qed.

Lemma white_then_digits_none (s : jsstring) :
  Regex.white_then_digits s = None ->
  forall ws g2 post,
    s = ws ++ g2 ++ post -> forallb is_white ws = true ->
    forallb is_digit g2 = true -> (1 <= length g2)%nat -> False.
Proof.
  unfold Regex.white_then_digits, Regex.at_least. intros H ws g2 post Hs Hws Hg Hl.
  pose proof (@greedy_none _ _ _ _ _ H _ _ Hs Hws) as H1. cbn beta in H1.
  pose proof (@greedy_none _ _ _ _ _ H1 _ _ eq_refl Hg) as H2. cbn beta in H2.
  rewrite app_nil_l in H2.
  apply Nat.leb_le in Hl. rewrite Hl in H2. discriminate.
Qed.

(** Two splits of one string at the same place are the same split. *)
Lemma app_same_length {T : Type} (a a' b b' : list T) :
  a ++ b = a' ++ b' -> length a = length a' -> a = a' /\ b = b'.
Proof.
  revert a'. induction a as [|x a IH]; intros [|y a'] H Hl; simpl in *; try discriminate.
  - auto.
  - injection H as -> H. injection Hl as Hl. destruct (IH _ H Hl) as [-> ->]. auto.
Qed.

Lemma three_letters_here_ok :
  anchored_ok is_letter Pattern.exactly_three Regex.three_letters_here.
Proof.
  unfold anchored_ok, Regex.three_letters_here, Pattern.occurs_at, Pattern.exactly_three. split.
  - intros s g1 g2 H.
    destruct (Regex.exactly 3 is_letter s) as [[g rest]|] eqn:E; [|discriminate].
    destruct (Regex.white_then_digits rest) as [d|] eqn:Ed; [|discriminate].
    injection H as <- <-.
    apply exactly_some in E as (-> & Hl & Hg).
    apply white_then_digits_some in Ed as (ws & post & -> & Hws & Hd & Hdl & Hpost).
    exists ws, post. split; [|split; [exact Hpost|]].
    + simpl. rewrite Hl. auto 10.
    + intros g1' ws' g2' post' (_ & _ & Hl' & _). apply Nat.eqb_eq in Hl'. lia.
  - intros s H g1 ws g2 post (Hs & Hg & Hl & Hws & Hd & Hdl). simpl in Hs.
    apply Nat.eqb_eq in Hl.
    destruct (Regex.exactly 3 is_letter s) as [[g rest]|] eqn:E.
    + destruct (Regex.white_then_digits rest) as [d|] eqn:Ed; [discriminate|].
      apply exactly_some in E as (E & Hgl & _).
      rewrite Hs in E.
      destruct (@app_same_length _ _ _ _ _ E) as [_ <-]; [lia|].
      exact (@white_then_digits_none _ Ed _ _ _ eq_refl Hws Hd Hdl).
    + exact (@exactly_none _ _ _ E _ _ Hs Hl Hg).
Qed.

Lemma alnum_run_here_ok :
  anchored_ok is_alnum Pattern.three_or_more Regex.alnum_run_here.
Proof.
  unfold anchored_ok, Regex.alnum_run_here, Regex.at_least, Pattern.occurs_at,
    Pattern.three_or_more. split.
  - intros s g1 g2 H.
    apply greedy_some in H as (g & rest & -> & Hg & H & Hmax).
    cbn beta in H. rewrite app_nil_l in H.
    destruct (3 <=? length g)%nat eqn:Hl; [|discriminate].
    destruct (Regex.white_then_digits rest) as [d|] eqn:Ed; [|discriminate].
    injection H as <- <-.
    apply white_then_digits_some in Ed as (ws & post & -> & Hws & Hd & Hdl & Hpost).
    exists ws, post. split; [simpl; auto 10|]. split; [exact Hpost|].
    intros g1' ws' g2' post' (Hs' & Hg' & Hl' & Hws' & Hd' & Hdl'). simpl in Hs'.
    destruct (Nat.le_gt_cases (length g1') (length g)) as [|Hlt]; [assumption|].
    exfalso. specialize (Hmax _ _ Hs' Hg' Hlt).
    cbn beta in Hmax. rewrite app_nil_l, Hl' in Hmax.
    destruct (Regex.white_then_digits (ws' ++ g2' ++ post')) eqn:E; [discriminate|].
    exact (@white_then_digits_none _ E _ _ _ eq_refl Hws' Hd' Hdl').
  - intros s H g1 ws g2 post (Hs & Hg & Hl & Hws & Hd & Hdl). simpl in Hs.
    pose proof (@greedy_none _ _ _ _ _ H _ _ Hs Hg) as H1.
    cbn beta in H1. rewrite app_nil_l, Hl in H1.
    destruct (Regex.white_then_digits (ws ++ g2 ++ post)) eqn:E; [discriminate|].
    exact (@white_then_digits_none _ E _ _ _ eq_refl Hws Hd Hdl).
Qed.

(** The leftmost search over an anchored matcher returns the first match
    of the pattern, and nothing exactly when the text has no occurrence. *)
Lemma search_first_match (cls : code_unit -> bool) (len_ok : nat -> bool)
    (m : jsstring -> option (jsstring * jsstring)) (text : jsstring) :
  anchored_ok cls len_ok m ->
  match Regex.search m text with
  | Some (g1, g2) => Pattern.first_match cls len_ok text g1 g2
  | None => ~ Pattern.contains cls len_ok text
  end.
Proof.
  intros [Hsome Hnone].
  destruct (Regex.search m text) as [[g1 g2]|] eqn:E.
  - apply search_some in E as (pre & suf & -> & Hm & Hfirst).
    destruct (Hsome _ _ _ Hm) as (ws & post & Hocc & Hpost & Hlong).
    exists pre, ws, post. split; [|split; [exact Hpost|]].
    + destruct Hocc as (Hs & Hrest). simpl in Hs. subst suf. split; [reflexivity|exact Hrest].
    + intros pre' g1' ws' g2' post' (Hs' & Hrest').
      destruct (Nat.lt_trichotomy (length pre) (length pre')) as [Hlt|[Heq|Hgt]].
      * left. exact Hlt.
      * right. split; [exact Heq|].
        destruct (@app_same_length _ _ _ _ _ Hs' Heq) as [_ Hsuf].
        apply (Hlong g1' ws' g2' post'). split; [exact Hsuf|exact Hrest'].
      * exfalso. specialize (Hfirst _ _ Hs' Hgt).
        apply (Hnone _ Hfirst g1' ws' g2' post'). split; [reflexivity|exact Hrest'].
  - intros (pre & g1 & ws & g2 & post & Hs & Hrest).
    pose proof (@search_none _ _ _ E _ _ Hs) as Hn.
    apply (Hnone _ Hn g1 ws g2 post). split; [reflexivity|exact Hrest].
Qed.

Lemma toUpperCase_letters (g : jsstring) :
  forallb is_letter g = true -> forallb is_upper (toUpperCase g) = true.
Proof.
  induction g as [|c g IH]; simpl; [reflexivity|].
  intros H. apply andb_true_iff in H as [Hc Hg]. rewrite (IH Hg), andb_true_r.
  unfold upper_unit, is_letter, is_lower, is_upper, in_range in *.
  destruct ((97 <=? c)%N && (c <=? 122)%N) eqn:El.
  - apply andb_true_iff in El as [H1 H2].
    apply N.leb_le in H1. apply N.leb_le in H2.
    apply andb_true_iff. split; apply N.leb_le; lia.
  - simpl in Hc. exact Hc.
Qed.

(* --------------------------------------------------------------------- *)
(** ** Localization *)
(* --------------------------------------------------------------------- *)

Example ex_localized_hit :
  result (exec (Part000.fetchPTVersion Demo.api Demo.bolt_en) Demo.idle) = Some Demo.bolt_pt.
Proof. reflexivity. Qed.

Example ex_localized_miss :
  exec (Part000.fetchPTVersion Demo.api Demo.shock_en) Demo.idle = Demo.showing Demo.shock_en.
Proof. reflexivity. Qed.

Example ex_localized_already_pt :
  requests (Part000.fetchPTVersion Demo.api Demo.bolt_pt) Demo.idle = []
  /\ exec (Part000.fetchPTVersion Demo.api Demo.bolt_pt) Demo.idle = Demo.showing Demo.bolt_pt.
Proof. split; reflexivity. Qed.

Example ex_localized_offline :
  exec (Part000.fetchPTVersion Demo.offline Demo.bolt_en) Demo.idle = Demo.showing Demo.bolt_en.
Proof. reflexivity. Qed.

Lemma jsstring_eqb_eq (a b : jsstring) : jsstring_eqb a b = true <-> a = b.
Proof.
  unfold jsstring_eqb. destruct (list_eq_dec N.eq_dec a b); split; auto; discriminate.
Qed.

Lemma jsstring_eqb_neq (a b : jsstring) : jsstring_eqb a b = false <-> a <> b.
Proof.
  unfold jsstring_eqb. destruct (list_eq_dec N.eq_dec a b); split; auto;
    try discriminate; contradiction.
Qed.

(** The two copies of [fetchPTVersion] are the same function. *)
Lemma fetchPTVersion_same (api : Backend) (card : CardData) (e : Env) :
  Part004b.fetchPTVersion api card e = Part000.fetchPTVersion api card e
  /\ Part001.fetchPTVersion api card e = Part000.fetchPTVersion api card e
  /\ Part006.fetchPTVersion api card e = Part000.fetchPTVersion api card e.
Proof. repeat split; reflexivity. Qed.

(** [fetchPTVersion] always returns normally, shows a card, and touches
    neither the error message nor the busy flag. *)
Lemma fetchPTVersion_frame (api : Backend) (card : CardData) (e : Env) :
  exists shown more,
    Part000.fetchPTVersion api card e =
      (Normal tt,
       {| state := {| result := Some shown; loading := loading (state e);
                      error := error (state e); debugText := debugText (state e) |};
          sent := sent e ++ more |}).
Proof.
  unfold Part000.fetchPTVersion.
  destruct (jsstring_eqb (lang card) (js "pt")).
  - exists card, []. rewrite app_nil_r. reflexivity.
  - async_crush; eexists _, [_]; reflexivity.
Qed.

(** C2.  Localization state, [fetchPTVersion] of part_000 and of
    part_004: a card whose language is already ["pt"] is shown as it is
    and no request is sent; otherwise one search for a Portuguese
    printing of the same name is sent, on a hit the first hit is shown in
    place of the resolved card (the whole record, nothing merged), on a
    miss the resolved card is shown as it is.  In every case the handler
    returns normally and leaves the error message, the busy flag and the
    debug text alone. *)
Theorem C2_localization (api : Backend) (card : CardData) (e : Env) :
  let after := snd (Part000.fetchPTVersion api card e) in
  Part004b.fetchPTVersion api card e = Part000.fetchPTVersion api card e
  /\ fst (Part000.fetchPTVersion api card e) = Normal tt
  /\ error (state after) = error (state e)
  /\ loading (state after) = loading (state e)
  /\ debugText (state after) = debugText (state e)
  /\ (lang card = js "pt" ->
        result (state after) = Some card /\ sent after = sent e)
  /\ (lang card <> js "pt" ->
        sent after = sent e ++ [GetSearchPT (name card)]
        /\ (forall first, pt_hit api card first -> result (state after) = Some first)
        /\ (pt_miss api card -> result (state after) = Some card)).
Proof.
  cbv zeta. split; [reflexivity|].
  unfold Part000.fetchPTVersion.
  destruct (jsstring_eqb (lang card) (js "pt")) eqn:Elang.
  - apply jsstring_eqb_eq in Elang. cbn. repeat split; auto; contradiction.
  - apply jsstring_eqb_neq in Elang. unfold pt_hit, pt_miss.
    async_unfold. cbn.
    destruct (search_pt api (name card)) as [|[|] [[[|first rest]|]|]] eqn:Ept; cbn;
      repeat split; auto; try contradiction;
      try (intros first' [rest' Hhit]; congruence);
      try (intros Hmiss; exfalso; eapply Hmiss; reflexivity).
Qed.

Lemma C2_localization_witness :
  lang Demo.bolt_en <> js "pt"
  /\ pt_hit Demo.api Demo.bolt_en Demo.bolt_pt
  /\ result (state (snd (Part000.fetchPTVersion Demo.api Demo.bolt_en
                           {| state := Demo.idle; sent := [] |})))
     = Some Demo.bolt_pt.
Proof.
  assert (Hl : lang Demo.bolt_en <> js "pt") by discriminate.
  assert (Hh : pt_hit Demo.api Demo.bolt_en Demo.bolt_pt) by (exists nil; reflexivity).
  split; [exact Hl|]. split; [exact Hh|].
  pose proof (C2_localization Demo.api Demo.bolt_en {| state := Demo.idle; sent := [] |})
    as (_ & _ & _ & _ & _ & _ & Hother).
  destruct (Hother Hl) as (_ & Hhit & _).
  exact (Hhit Demo.bolt_pt Hh).
Defined.

(* --------------------------------------------------------------------- *)
(** ** Name state *)
(* --------------------------------------------------------------------- *)

Example ex_searchByName_refines :
  requests (Part000.searchByName Demo.api (js "Lightning Bolt")) Demo.idle
  = [GetAutocomplete (js "Lightning Bolt"); GetNamedFuzzy (js "Lightning Bolt");
     GetSearchPT (js "Lightning Bolt")]
  /\ result (exec (Part000.searchByName Demo.api (js "Lightning Bolt")) Demo.idle)
     = Some Demo.bolt_pt.
Proof. split; reflexivity. Qed.

Example ex_searchByName_raw_candidate :
  requests (Part000.searchByName Demo.api (js "Lightnin Bolt")) Demo.idle
  = [GetAutocomplete (js "Lightnin Bolt"); GetNamedFuzzy (js "Lightnin Bolt");
     GetSearchPT (js "Lightning Bolt")].
Proof. reflexivity. Qed.

Example ex_searchMultipleFuzzy_skips :
  requests (Part002.searchMultipleFuzzy Demo.api [js "Lightnin Bolt"; js "Lightning Bolt"]) Demo.idle
  = [GetAutocomplete (js "Lightnin Bolt");
     GetAutocomplete (js "Lightning Bolt"); GetNamedFuzzy (js "Lightning Bolt");
     GetSearchPT (js "Lightning Bolt")].
Proof. reflexivity. Qed.

(** [searchByName] asks for suggestions first and then looks up the top
    suggestion, or the name itself when there is none; a query that
    cannot be URI-encoded is not sent. *)
Lemma Part000_searchByName_queries (api : Backend) (name : jsstring) (e : Env) :
  isWellFormed name = true ->
  exists more,
    sent (snd (Part000.searchByName api name e)) = sent e ++ GetAutocomplete name :: more
    /\ (forall top, top_suggestion api name top ->
          (isWellFormed top = true -> head more = Some (GetNamedFuzzy top))
          /\ (isWellFormed top = false -> more = []))
    /\ (no_suggestion api name -> head more = Some (GetNamedFuzzy name))
    /\ (autocomplete_failed api name -> more = []).
Proof.
  intros Hw.
  unfold Part000.searchByName, Part000.fetchPTVersion,
    top_suggestion, no_suggestion, autocomplete_failed.
  async_unfold. rewrite Hw. cbn.
  destruct (autocomplete api name) as [|okf [[[|top rest]|]|]] eqn:Eauto; cbn;
    rewrite ?Hw; cbn;
    try (destruct (isWellFormed top) eqn:Etop; cbn);
    repeat (async_case; cbn); log_norm;
    (eexists; split; [reflexivity|]); cbn;
    repeat split; intros; reply_facts.
Qed.







Lemma Part002_searchMultipleFuzzy_cons (api : Backend) (line : jsstring)
    (rest : list jsstring) (e : Env) :
  Part002.searchMultipleFuzzy api (line :: rest) e
  = match Part002.tryLine api line e with
    | (Normal true, e1) => (Normal true, e1)
    | (Normal false, e1) => Part002.searchMultipleFuzzy api rest e1
    | (Throw, e1) => (Throw, e1)
    end.
Proof.
  cbn [Part002.searchMultipleFuzzy]. unfold bind at 1.
  destruct (Part002.tryLine api line e) as [[[|]|] e1]; reflexivity.
Qed.





(* --------------------------------------------------------------------- *)
(** ** Set+Number state and its fallback *)
(* --------------------------------------------------------------------- *)

(** In part_000 a failed lookup by set and number ends the scan: the
    handler writes its message and sends nothing else. *)
Lemma Part000_searchByInfo_failure (api : Backend) (set_code num : jsstring) (e : Env) :
  number_lookup_failed api (toLowerCase set_code) num ->
  Part000.searchByInfo api set_code num e
  = (Normal tt,
     {| state := {| result := result (state e); loading := loading (state e);
                    error := Some (js "Informação de coleção lida, mas não encontrada. Refazendo por nome...");
                    debugText := debugText (state e) |};
        sent := sent e ++ [GetCardByNumber (toLowerCase set_code) num] |}).
Proof.
  unfold number_lookup_failed, Part000.searchByInfo. intros H.
  async_unfold. cbn.
  destruct (card_by_number api (toLowerCase set_code) num) as [|[|] [card|]] eqn:E;
    cbn; reply_facts.
Qed.

(** [searchByName] never throws. *)
Lemma Part006_searchByName_returns (api : Backend) (name : jsstring) (e : Env) :
  fst (Part006.searchByName api name e) = Normal tt.
Proof.
  unfold Part006.searchByName, Part006.fetchPTVersion. async_crush.
  all: repeat match goal with u : unit |- _ => destruct u end; reflexivity.
Qed.

(** In part_006 a lookup by set and number that is answered with an
    error status hands over to [searchByName], with the two capture
    groups joined by a space as the name. *)
Lemma Part006_searchBySet_not_found (api : Backend) (set_code num : jsstring)
    (e : Env) (b : option CardData) :
  card_by_number api (toLowerCase set_code) num = Answered false b ->
  Part006.searchBySet api set_code num e
  = Part006.searchByName api (set_code ++ js " " ++ num)
      {| state := state e; sent := sent e ++ [GetCardByNumber (toLowerCase set_code) num] |}.
Proof.
  intros H. unfold Part006.searchBySet.
  unfold try_catch at 1. unfold bind at 1. unfold fetch_card_by_number, fetch.
  rewrite H. cbn.
  match goal with
  | |- context [Part006.searchByName ?a ?n ?x] =>
      pose proof (Part006_searchByName_returns a n x) as Hret;
      destruct (Part006.searchByName a n x) as [[[]|] e1]
  end; cbn in Hret; [reflexivity|discriminate].
Qed.

(** A rejected request is swallowed there: nothing is shown, nothing is
    reported, nothing else is sent. *)
Lemma Part006_searchBySet_rejected (api : Backend) (set_code num : jsstring) (e : Env) :
  card_by_number api (toLowerCase set_code) num = Rejected ->
  Part006.searchBySet api set_code num e
  = (Normal tt,
     {| state := state e; sent := sent e ++ [GetCardByNumber (toLowerCase set_code) num] |}).
Proof.
  intros H. unfold Part006.searchBySet. async_unfold. rewrite H. reflexivity.
Qed.

(** When the fuzzy lookup that [searchByName] sends succeeds, a card is
    shown. *)
Lemma Part006_searchByName_success (api : Backend) (name : jsstring) (e : Env)
    (okf : bool) (suggestions : option (list jsstring)) (card : CardData) :
  isWellFormed name = true ->
  isWellFormed (first_or suggestions name) = true ->
  autocomplete api name = Answered okf (Some suggestions) ->
  named_fuzzy api (first_or suggestions name) = Answered true (Some card) ->
  exists shown, result (state (snd (Part006.searchByName api name e))) = Some shown.
Proof.
  intros Hw Hw' Ha Hn. unfold Part006.searchByName, Part006.fetchPTVersion.
  async_unfold. rewrite Hw, Ha. cbn -[first_or js]. rewrite Hw', Hn. cbn -[first_or js].
  repeat (async_case; cbn -[first_or js]); eexists; reflexivity.
Qed.

Example ex_scan_by_name :
  result (exec (Part000.captureAndScan Demo.api (Some (js "Lightning Bolt", js "~~"))) Demo.idle)
  = Some Demo.bolt_pt.
Proof. reflexivity. Qed.

(** C1 (fails on the code).  A scan by part_000 that read the title
    ["Lightning Bolt"] and the footer ["MID 245"]: the set code and the
    number are extracted, the exact lookup fails (the catalog answers
    with an error status), and the scan ends there.  The only request
    sent is the lookup by number, the message that announces a retry by
    name is written, and no card is shown, although a search by the
    name that was read finds the card. *)
Theorem C1_part000_failed_number_lookup_ends_scan :
  let scan := Part000.captureAndScan Demo.api (Some (js "Lightning Bolt", js "MID 245")) in
  Part000.setCode (js "MID 245") = Some (js "MID")
  /\ Part000.collectorNum (js "MID 245") = Some (js "245")
  /\ number_lookup_failed Demo.api (js "mid") (js "245")
  /\ requests scan Demo.idle = [GetCardByNumber (js "mid") (js "245")]
  /\ result (exec scan Demo.idle) = None
  /\ error (exec scan Demo.idle)
     = Some (js "Informação de coleção lida, mas não encontrada. Refazendo por nome...")
  /\ result (exec (Part000.searchByName Demo.api (Part000.cleanName (js "Lightning Bolt")))
               Demo.idle) = Some Demo.bolt_pt.
Proof.
  cbv zeta. split; [reflexivity|]. split; [reflexivity|].
  split; [right; left; eexists; reflexivity|].
  repeat split; reflexivity.
Qed.

(* --------------------------------------------------------------------- *)
(** ** Translation *)
(* --------------------------------------------------------------------- *)

Example ex_translate :
  exec (Part000.translateText Demo.api) (Demo.showing Demo.shock_en)
  = Demo.showing (with_translated_text Demo.shock_en
                    (Some (js "Choque causa 2 pontos de dano a qualquer alvo."))).
Proof. reflexivity. Qed.

Example ex_translate_offline :
  exec (Part000.translateText Demo.offline) (Demo.showing Demo.shock_en)
  = {| result := Some Demo.shock_en; loading := false;
       error := Some (js "Erro na tradução."); debugText := [] |}.
Proof. reflexivity. Qed.

Lemma truthy_nonempty (s : jsstring) : truthy s = true <-> s <> [].
Proof. destruct s; cbn; split; congruence. Qed.

(** The record update stores the translation and touches nothing else. *)
Lemma with_translated_text_as (card : CardData) (t : jsstring) :
  translated_as card (with_translated_text card (Some t)) t.
Proof. unfold translated_as. cbn. repeat split. Qed.

Lemma Part000_translateText_run (api : Backend) (e : Env) (card : CardData) (text : jsstring) :
  result (state e) = Some card -> oracle_text card = Some text -> text <> [] ->
  Part000.translateText api e
  = (Normal tt,
     {| state := translate_outcome (js "Erro na tradução.") api card text (state e);
        sent := sent e ++ (if isWellFormed text then [GetTranslation text] else []) |}).
Proof.
  intros Hr Ho Ht. apply truthy_nonempty in Ht.
  unfold Part000.translateText, translate_outcome. async_unfold.
  rewrite Hr, Ho, Ht. cbn.
  destruct (isWellFormed text); cbn; [|rewrite ?Hr, app_nil_r; reflexivity].
  destruct (translation api text) as [|okf [[items|]|]]; cbn; rewrite ?Hr; reflexivity.
Qed.

Lemma Part002_translateText_run (api : Backend) (e : Env) (card : CardData) (text : jsstring) :
  result (state e) = Some card -> oracle_text card = Some text -> text <> [] ->
  Part002.translateText api e
  = (Normal tt,
     {| state := translate_outcome (js "Erro ao traduzir.") api card text (state e);
        sent := sent e ++ (if isWellFormed text then [GetTranslation text] else []) |}).
Proof.
  intros Hr Ho Ht. apply truthy_nonempty in Ht.
  unfold Part002.translateText, translate_outcome. async_unfold.
  rewrite Hr, Ho, Ht. cbn.
  destruct (isWellFormed text); cbn; [|rewrite ?Hr, app_nil_r; reflexivity].
  destruct (translation api text) as [|okf [[items|]|]]; cbn; rewrite ?Hr; reflexivity.
Qed.

Lemma translateText_noop (api : Backend) (e : Env) :
  result (state e) = None
  \/ (exists card, result (state e) = Some card /\ present (oracle_text card) = false) ->
  Part000.translateText api e = (Normal tt, e)
  /\ Part002.translateText api e = (Normal tt, e).
Proof.
  intros H. unfold Part000.translateText, Part002.translateText, present in *.
  async_unfold.
  destruct H as [H|(card & H & Hp)]; rewrite H; [split; reflexivity|].
  destruct (oracle_text card) as [text|]; [|split; reflexivity].
  rewrite Hp. split; reflexivity.
Qed.

(** C10.  [translateText] of part_000 and of part_002 when no card is
    shown, or the card that is shown has no rules text (the field is
    missing or empty): the handler returns at once; no request is sent
    and the state (the record, the error message, the busy flag, the
    debug text) is what it was. *)
Theorem C10_translate_without_text_is_noop (api : Backend) (e : Env) :
  result (state e) = None
  \/ (exists card, result (state e) = Some card /\ present (oracle_text card) = false) ->
  Part000.translateText api e = (Normal tt, e)
  /\ Part002.translateText api e = (Normal tt, e).
Proof. exact (@translateText_noop api e). Qed.

Lemma C10_translate_without_text_witness :
  (result (state {| state := Demo.idle; sent := [] |}) = None
   \/ (exists card, result (state {| state := Demo.idle; sent := [] |}) = Some card
                    /\ present (oracle_text card) = false))
  /\ Part000.translateText Demo.api {| state := Demo.idle; sent := [] |}
     = (Normal tt, {| state := Demo.idle; sent := [] |})
  /\ Part002.translateText Demo.api {| state := Demo.idle; sent := [] |}
     = (Normal tt, {| state := Demo.idle; sent := [] |}).
Proof.
  assert (H : result (state {| state := Demo.idle; sent := [] |}) = None
              \/ (exists card, result (state {| state := Demo.idle; sent := [] |}) = Some card
                               /\ present (oracle_text card) = false))
    by (left; reflexivity).
  split; [exact H|].
  exact (C10_translate_without_text_is_noop Demo.api {| state := Demo.idle; sent := [] |} H).
Defined.

(** C8.  [translateText] of part_000 and of part_002 when the
    translation call fails (the request is rejected, or the body cannot
    be read as a list of segments): the card that is shown stays as it
    was, in every field, the handler's own error message is written, and
    the handler returns normally with the busy flag released, so that
    the action can be taken again. *)
Theorem C8_translation_failure (api : Backend) (e : Env) (card : CardData) (text : jsstring) :
  result (state e) = Some card -> oracle_text card = Some text -> text <> [] ->
  translation_failed api text ->
  (fst (Part000.translateText api e) = Normal tt
   /\ result (state (snd (Part000.translateText api e))) = Some card
   /\ error (state (snd (Part000.translateText api e))) = Some (js "Erro na tradução.")
   /\ loading (state (snd (Part000.translateText api e))) = false)
  /\ (fst (Part002.translateText api e) = Normal tt
      /\ result (state (snd (Part002.translateText api e))) = Some card
      /\ error (state (snd (Part002.translateText api e))) = Some (js "Erro ao traduzir.")
      /\ loading (state (snd (Part002.translateText api e))) = false).
Proof.
  intros Hr Ho Ht Hf.
  rewrite (Part000_translateText_run api e Hr Ho Ht), (Part002_translateText_run api e Hr Ho Ht).
  unfold translate_outcome, translation_failed in *. cbn.
  destruct (isWellFormed text); cbn; auto 10.
  destruct (translation api text) as [|okf [[items|]|]]; cbn; auto 10; exfalso; reply_facts.
Qed.

Lemma C8_translation_failure_witness :
  let e := {| state := Demo.showing Demo.shock_en; sent := [] |} in
  translation_failed Demo.offline (js "Shock deals 2 damage to any target.")
  /\ result (state (snd (Part000.translateText Demo.offline e))) = Some Demo.shock_en
  /\ error (state (snd (Part000.translateText Demo.offline e))) = Some (js "Erro na tradução.").
Proof.
  cbv zeta.
  assert (Hf : translation_failed Demo.offline (js "Shock deals 2 damage to any target."))
    by (left; reflexivity).
  split; [exact Hf|].
  pose proof (@C8_translation_failure Demo.offline
                {| state := Demo.showing Demo.shock_en; sent := [] |}
                Demo.shock_en (js "Shock deals 2 damage to any target.")
                eq_refl eq_refl ltac:(discriminate) Hf) as H.
  split; [exact (proj1 (proj2 (proj1 H)))|exact (proj1 (proj2 (proj2 (proj1 H))))].
Defined.

Lemma translateText_twice (failure : jsstring) (api : Backend) (card : CardData)
    (text : jsstring) (s : State) :
  oracle_text card = Some text ->
  match result (translate_outcome failure api card text s) with
  | Some card' =>
      oracle_text card' = Some text
      /\ translate_outcome failure api card' text (translate_outcome failure api card text s)
         = translate_outcome failure api card text s
  | None => False
  end.
Proof.
  intros Ho. unfold translate_outcome.
  destruct (isWellFormed text); cbn; auto.
  destruct (translation api text) as [|okf [[items|]|]]; cbn; auto.
Qed.

(** C7.  [translateText] of part_000 and of part_002, against one and
    the same backend: taking the action a second time right after the
    first leaves the state (the record with its translation, the error
    message, the busy flag) exactly as the first left it; and when the
    rules text can be URI-encoded and the service answers with
    segments, the record shown afterwards carries the segments joined
    in order in [translated_text], whatever translation it carried
    before, and has every other field of the record shown before. *)
Theorem C7_translate_idempotent (api : Backend) (s : State) :
  exec (Part000.translateText api) (exec (Part000.translateText api) s)
  = exec (Part000.translateText api) s
  /\ exec (Part002.translateText api) (exec (Part002.translateText api) s)
     = exec (Part002.translateText api) s
  /\ (forall card text okf items,
        result s = Some card -> oracle_text card = Some text -> text <> [] ->
        isWellFormed text = true ->
        translation api text = Answered okf (Some (Some items)) ->
        exists shown,
          result (exec (Part000.translateText api) s) = Some shown
          /\ result (exec (Part002.translateText api) s) = Some shown
          /\ translated_as card shown (join_segments items)).
Proof.
  assert (Hnoop : forall s',
            result s' = None
            \/ (exists card, result s' = Some card /\ present (oracle_text card) = false) ->
            exec (Part000.translateText api) s' = s'
            /\ exec (Part002.translateText api) s' = s').
  { intros s' H. unfold exec.
    destruct (@translateText_noop api {| state := s'; sent := [] |} H) as [-> ->].
    split; reflexivity. }
  assert (Hcases :
            (result s = None
             \/ (exists card, result s = Some card /\ present (oracle_text card) = false))
            \/ (exists card text,
                  result s = Some card /\ oracle_text card = Some text /\ text <> [])).
  { destruct (result s) as [card|]; [|left; left; reflexivity].
    destruct (oracle_text card) as [text|] eqn:Ho.
    - destruct text as [|c text].
      + left. right. exists card. rewrite Ho. split; reflexivity.
      + right. exists card, (c :: text). repeat split; auto. discriminate.
    - left. right. exists card. rewrite Ho. split; reflexivity. }
  split; [|split].
  - destruct Hcases as [H|(card & text & Hr & Ho & Ht)].
    + destruct (Hnoop s H) as [-> _]. apply (Hnoop s H).
    + unfold exec.
      rewrite (@Part000_translateText_run api {| state := s; sent := [] |} card text Hr Ho Ht).
      cbn [snd state].
      pose proof (@translateText_twice (js "Erro na tradução.") api card text s Ho) as H2.
      destruct (result (translate_outcome (js "Erro na tradução.") api card text s))
        as [card'|] eqn:Hr'; [|contradiction].
      destruct H2 as [Ho' Hsame].
      rewrite (@Part000_translateText_run api
                 {| state := translate_outcome (js "Erro na tradução.") api card text s;
                    sent := [] |} card' text Hr' Ho' Ht).
      cbn [snd state]. exact Hsame.
  - destruct Hcases as [H|(card & text & Hr & Ho & Ht)].
    + destruct (Hnoop s H) as [_ ->]. apply (Hnoop s H).
    + unfold exec.
      rewrite (@Part002_translateText_run api {| state := s; sent := [] |} card text Hr Ho Ht).
      cbn [snd state].
      pose proof (@translateText_twice (js "Erro ao traduzir.") api card text s Ho) as H2.
      destruct (result (translate_outcome (js "Erro ao traduzir.") api card text s))
        as [card'|] eqn:Hr'; [|contradiction].
      destruct H2 as [Ho' Hsame].
      rewrite (@Part002_translateText_run api
                 {| state := translate_outcome (js "Erro ao traduzir.") api card text s;
                    sent := [] |} card' text Hr' Ho' Ht).
      cbn [snd state]. exact Hsame.
  - intros card text okf items Hr Ho Ht Hw Hreply. unfold exec.
    rewrite (@Part000_translateText_run api {| state := s; sent := [] |} card text Hr Ho Ht).
    rewrite (@Part002_translateText_run api {| state := s; sent := [] |} card text Hr Ho Ht).
    cbn [snd state]. unfold translate_outcome. rewrite Hw, Hreply.
    eexists. split; [reflexivity|]. split; [reflexivity|].
    apply with_translated_text_as.
Qed.

Lemma C7_translate_idempotent_witness :
  translated_text Demo.shock_stale = Some (js "antiga")
  /\ isWellFormed (js "Shock deals 2 damage to any target.") = true
  /\ translation Demo.api (js "Shock deals 2 damage to any target.")
     = Answered true (Some (Some [Some (js "Choque causa 2 pontos de dano ");
                                  Some (js "a qualquer alvo.")]))
  /\ exists shown,
       result (exec (Part000.translateText Demo.api) (Demo.showing Demo.shock_stale))
       = Some shown
       /\ translated_text shown
          = Some (js "Choque causa 2 pontos de dano " ++ js "a qualquer alvo." ++ []).
Proof.
  split; [reflexivity|]. split; [reflexivity|]. split; [reflexivity|].
  destruct (proj2 (proj2 (C7_translate_idempotent Demo.api (Demo.showing Demo.shock_stale)))
              Demo.shock_stale (js "Shock deals 2 damage to any target.") true
              [Some (js "Choque causa 2 pontos de dano "); Some (js "a qualquer alvo.")]
              eq_refl eq_refl ltac:(discriminate) eq_refl eq_refl)
    as (shown & Hshown & _ & Ht & _).
  exists shown. split; [exact Hshown|exact Ht].
Defined.

(* --------------------------------------------------------------------- *)
(** ** Binarization *)
(* --------------------------------------------------------------------- *)

Example ex_number_of_byte :
  Canvas.number_of_byte x00 = 0%float /\ Canvas.number_of_byte xff = 255%float.
Proof. split; reflexivity. Qed.

(** In double arithmetic the weights of part_000 take pure white to
    254.99999999999997, which is still above the cutoff. *)
Example ex_white_luminance :
  (0.2126 * 255 + 0.7152 * 255 + 0.0722 * 255 <? 255)%float = true
  /\ Part000.bright 255 255 255 = true.
Proof. split; reflexivity. Qed.

Example ex_preprocess_gray :
  Part000.preprocessImage [x80; x80; x80; xff; x90; x90; x90; x7f]
  = [x00; x00; x00; xff; xff; xff; xff; x7f].
Proof. reflexivity. Qed.

Example ex_threshold_edge :
  Part003.threshold [x80; x80; x80; xff; x80; x80; x81; x00]
  = [x00; x00; x00; xff; xff; xff; xff; x00].
Proof. reflexivity. Qed.

(** Induction over a buffer four bytes at a time. *)
Lemma pixel_ind (P : list byte -> Prop) :
  P [] -> (forall r, P [r]) -> (forall r g, P [r; g]) -> (forall r g b, P [r; g; b]) ->
  (forall r g b a rest, P rest -> P (r :: g :: b :: a :: rest)) ->
  forall data, P data.
Proof.
  intros H0 H1 H2 H3 H4 data.
  assert (H : P data /\ (forall a, P (a :: data)) /\ (forall a b, P (a :: b :: data))
              /\ (forall a b c, P (a :: b :: c :: data))).
  { induction data as [|x data (IH0 & IH1 & IH2 & IH3)]; auto 10. }
  exact (proj1 H).
Qed.

Section ThresholdFacts.
Variable bright : float -> float -> float -> bool.

Lemma threshold_loop_length (data : Canvas.PixelArray) :
  length (Canvas.threshold_loop bright data) = length data.
Proof.
  induction data as [|r|r g|r g b|r g b a rest IH] using pixel_ind; try reflexivity.
  cbn [Canvas.threshold_loop length]. rewrite IH. reflexivity.
Qed.

(** Every complete pixel of the output has three equal colour
    channels, black or white, and the alpha channel of the input. *)
Lemma threshold_loop_pixels (data : Canvas.PixelArray) (i : nat) :
  (4 * i + 3 < length data)%nat ->
  let out := Canvas.threshold_loop bright data in
  nth (4 * i + 1) out x00 = nth (4 * i) out x00
  /\ nth (4 * i + 2) out x00 = nth (4 * i) out x00
  /\ (nth (4 * i) out x00 = x00 \/ nth (4 * i) out x00 = xff)
  /\ nth (4 * i + 3) out x00 = nth (4 * i + 3) data x00.
Proof.
  revert i.
  induction data as [|r|r g|r g b|r g b a rest IH] using pixel_ind; intros i Hi;
    try (cbn in Hi; lia).
  destruct i as [|i].
  - cbn. repeat split; auto.
    destruct (bright _ _ _); cbn; auto.
  - cbn [length] in Hi. specialize (IH i ltac:(lia)). cbv zeta in *.
    replace (4 * S i)%nat with (S (S (S (S (4 * i))))) by lia.
    cbn [Canvas.threshold_loop Nat.add nth]. exact IH.
Qed.

Hypothesis black_stays : bright 0 0 0 = false.
Hypothesis white_stays : bright 255 255 255 = true.

Lemma black_or_white_fixed (c : bool) :
  let v := Canvas.number_of_byte (Canvas.black_or_white c) in
  bright v v v = c.
Proof. destruct c; cbn; assumption. Qed.

(** A second pass changes nothing. *)
Lemma threshold_loop_idempotent (data : Canvas.PixelArray) :
  Canvas.threshold_loop bright (Canvas.threshold_loop bright data)
  = Canvas.threshold_loop bright data.
Proof.
  induction data as [|r|r g|r g b|r g b a rest IH] using pixel_ind; try reflexivity.
  - cbn [Canvas.threshold_loop]. cbv zeta.
    rewrite black_or_white_fixed. reflexivity.
  - cbn [Canvas.threshold_loop]. cbv zeta.
    rewrite black_or_white_fixed, IH. reflexivity.
Qed.

End ThresholdFacts.

(** C5.  The binarization of part_000 ([preprocessImage], weights
    0.2126/0.7152/0.0722, cutoff 130), of part_002 ([preprocessImage],
    weights 0.299/0.587/0.114, cutoff 140) and of part_003 (the loop in
    [captureAndScan], mean of the channels, cutoff 128) is a function of
    the pixel data alone, and applying it to its own output gives that
    output again. *)
Theorem C5_binarization_idempotent (data : Canvas.PixelArray) :
  Part000.preprocessImage (Part000.preprocessImage data) = Part000.preprocessImage data
  /\ Part002.preprocessImage (Part002.preprocessImage data) = Part002.preprocessImage data
  /\ Part003.threshold (Part003.threshold data) = Part003.threshold data.
Proof.
  repeat split; apply threshold_loop_idempotent; reflexivity.
Qed.

(** C9.  [preprocessImage] of part_000 and of part_002 on a buffer of
    RGBA pixels: the output has the length of the input, and in every
    pixel the red, green and blue bytes are equal, each 0 or 255, while
    the alpha byte is the one of the input. *)
Theorem C9_binarization_channels (data : Canvas.PixelArray) (i : nat) :
  (4 * i + 3 < length data)%nat ->
  (length (Part000.preprocessImage data) = length data
   /\ nth (4 * i + 1) (Part000.preprocessImage data) x00
      = nth (4 * i) (Part000.preprocessImage data) x00
   /\ nth (4 * i + 2) (Part000.preprocessImage data) x00
      = nth (4 * i) (Part000.preprocessImage data) x00
   /\ (nth (4 * i) (Part000.preprocessImage data) x00 = x00
       \/ nth (4 * i) (Part000.preprocessImage data) x00 = xff)
   /\ nth (4 * i + 3) (Part000.preprocessImage data) x00 = nth (4 * i + 3) data x00)
  /\ (length (Part002.preprocessImage data) = length data
      /\ nth (4 * i + 1) (Part002.preprocessImage data) x00
         = nth (4 * i) (Part002.preprocessImage data) x00
      /\ nth (4 * i + 2) (Part002.preprocessImage data) x00
         = nth (4 * i) (Part002.preprocessImage data) x00
      /\ (nth (4 * i) (Part002.preprocessImage data) x00 = x00
          \/ nth (4 * i) (Part002.preprocessImage data) x00 = xff)
      /\ nth (4 * i + 3) (Part002.preprocessImage data) x00 = nth (4 * i + 3) data x00).
Proof.
  intros Hi. split; (split; [apply threshold_loop_length|]);
    apply threshold_loop_pixels; exact Hi.
Qed.

Lemma C9_binarization_channels_witness :
  (4 * 1 + 3 < length [x10; x20; x30; x40; xf0; xe0; xd0; x7f])%nat
  /\ nth (4 * 1) (Part000.preprocessImage [x10; x20; x30; x40; xf0; xe0; xd0; x7f]) x00 = xff
  /\ nth (4 * 1 + 3) (Part000.preprocessImage [x10; x20; x30; x40; xf0; xe0; xd0; x7f]) x00
     = x7f.
Proof.
  assert (Hi : (4 * 1 + 3 < length [x10; x20; x30; x40; xf0; xe0; xd0; x7f])%nat)
    by (cbn; lia).
  split; [exact Hi|]. split; [reflexivity|].
  exact (proj2 (proj2 (proj2 (proj2 (proj1
           (C9_binarization_channels [x10; x20; x30; x40; xf0; xe0; xd0; x7f] 1 Hi)))))).
Defined.

(* --------------------------------------------------------------------- *)
(** ** From extraction to the cascade *)
(* --------------------------------------------------------------------- *)

Lemma Part004b_searchByName_first (api : Backend) (name : jsstring) (e : Env) :
  isWellFormed name = true ->
  exists more,
    sent (snd (Part004b.searchByName api name e)) = sent e ++ GetAutocomplete name :: more.
Proof.
  intros Hw.
  unfold Part004b.searchByName, Part004b.fetchPTVersion. async_unfold. rewrite Hw. cbn.
  destruct (autocomplete api name) as [|okf [[[|top rest]|]|]] eqn:Eauto; cbn;
    repeat (async_case; cbn); log_norm; eexists; reflexivity.
Qed.

Lemma Part001_searchByName_first (api : Backend) (name : jsstring) (e : Env) :
  isWellFormed name = true ->
  exists more,
    sent (snd (Part001.searchByName api name e)) = sent e ++ GetAutocomplete name :: more.
Proof.
  intros Hw.
  unfold Part001.searchByName, Part001.fetchPTVersion. async_unfold. rewrite Hw. cbn.
  destruct (autocomplete api name) as [|okf [[[|top rest]|]|]] eqn:Eauto; cbn;
    repeat (async_case; cbn); log_norm; eexists; reflexivity.
Qed.

(** part_000 without collector info: the scan searches by the cleaned
    name when it has more than three code units, and reports that the
    card could not be read otherwise. *)
Lemma Part000_scan_without_info (api : Backend) (nameText infoText : jsstring) (s : State) :
  Part000.infoMatch infoText = None ->
  if (3 <? length (Part000.cleanName nameText))%nat
  then exists more,
         requests (Part000.captureAndScan api (Some (nameText, infoText))) s
         = GetAutocomplete (Part000.cleanName nameText) :: more
  else requests (Part000.captureAndScan api (Some (nameText, infoText))) s = []
       /\ error (exec (Part000.captureAndScan api (Some (nameText, infoText))) s)
          = Some (js "Não consegui identificar a carta. Tente alinhar o rodapé.").
Proof.
  intros Hnone. unfold Part000.captureAndScan, Part000.setCode, Part000.collectorNum.
  rewrite Hnone. cbv zeta.
  destruct (3 <? length (Part000.cleanName nameText))%nat.
  - async_unfold. cbn -[Part000.searchByName js].
    match goal with
    | |- context [Part000.searchByName ?a ?n ?x] =>
        destruct (@Part000_searchByName_queries a n x) as (more & Hsent & _);
        [apply letters_white_wellformed, replace_non_name_chars; reflexivity|];
        destruct (Part000.searchByName a n x) as [[[]|] e1]
    end; cbn in *; exists more; exact Hsent.
  - split; reflexivity.
Qed.

Lemma Part004b_scan_without_info (api : Backend) (titleText text : jsstring) (s : State) :
  Part004b.infoMatch text = None ->
  if (3 <? length (Part004b.cleanTitle titleText))%nat
  then exists more,
         requests (Part004b.captureAndScan api (Some (titleText, text))) s
         = GetAutocomplete (Part004b.cleanTitle titleText) :: more
  else requests (Part004b.captureAndScan api (Some (titleText, text))) s = []
       /\ error (exec (Part004b.captureAndScan api (Some (titleText, text))) s)
          = Some (js "Não consegui ler a carta. Tente focar no título ou no rodapé.").
Proof.
  intros Hnone. unfold Part004b.captureAndScan.
  rewrite Hnone. cbv zeta.
  destruct (3 <? length (Part004b.cleanTitle titleText))%nat.
  - async_unfold. cbn -[Part004b.searchByName js].
    match goal with
    | |- context [Part004b.searchByName ?a ?n ?x] =>
        destruct (@Part004b_searchByName_first a n x) as (more & Hsent);
        [apply letters_white_wellformed, replace_non_name_chars; reflexivity|];
        destruct (Part004b.searchByName a n x) as [[[]|] e1]
    end; cbn in *; exists more; exact Hsent.
  - split; reflexivity.
Qed.

Lemma Part001_scan_without_info (api : Backend) (titleText infoText : jsstring) (s : State) :
  Part001.codes infoText = None ->
  if (2 <? length (Part001.cleanTitle titleText))%nat
  then exists more,
         requests (Part001.processPhoto api (Some (titleText, infoText))) s
         = GetAutocomplete (Part001.cleanTitle titleText) :: more
  else requests (Part001.processPhoto api (Some (titleText, infoText))) s = []
       /\ error (exec (Part001.processPhoto api (Some (titleText, infoText))) s)
          = Some (js "Não consegui ler o nome. Verifique se a foto está bem iluminada e nítida.").
Proof.
  intros Hnone. unfold Part001.processPhoto.
  rewrite Hnone. cbv zeta.
  destruct (2 <? length (Part001.cleanTitle titleText))%nat.
  - async_unfold. cbn -[Part001.searchByName js].
    match goal with
    | |- context [Part001.searchByName ?a ?n ?x] =>
        destruct (@Part001_searchByName_first a n x) as (more & Hsent);
        [apply letters_white_wellformed, replace_non_name_chars; reflexivity|];
        destruct (Part001.searchByName a n x) as [[[]|] e1]
    end; cbn in *; exists more; exact Hsent.
  - split; reflexivity.
Qed.

Lemma first_match_contains (cls : code_unit -> bool) (len_ok : nat -> bool)
    (text g1 g2 : jsstring) :
  Pattern.first_match cls len_ok text g1 g2 -> Pattern.contains cls len_ok text.
Proof. intros (pre & ws & post & H & _). exists pre, g1, ws, g2, post. exact H. Qed.

(** C4 (as the code has it).  Collector-info extraction on the text of
    the bottom band.

    part_000 looks for exactly three Latin letters, optional white
    space, one or more digits (case-insensitive): when the text has such
    a substring, the set code is the letter group of the first match
    upper-cased and the collector number is its digit group.

    part_001 and part_004 look for three or more alphanumeric
    characters, optional white space, one or more digits
    (case-insensitive): when the text has such a substring, the result is
    the alphanumeric group of the first match as it was recognized (not
    upper-cased) and its digit group.

    In either case, when the text has no such substring, extraction
    yields nothing and the scan turns to the title: it searches by the
    cleaned title when that has more than three code units (two for
    part_001), and reports that the card could not be read otherwise. *)
Theorem C4_collector_info_extraction (api : Backend) (titleText text : jsstring) (s : State) :
  (Pattern.contains is_letter Pattern.exactly_three text ->
     exists g1 g2,
       Pattern.first_match is_letter Pattern.exactly_three text g1 g2
       /\ Part000.setCode text = Some (toUpperCase g1)
       /\ forallb is_upper (toUpperCase g1) = true
       /\ Part000.collectorNum text = Some g2)
  /\ (~ Pattern.contains is_letter Pattern.exactly_three text ->
        Part000.setCode text = None /\ Part000.collectorNum text = None
        /\ if (3 <? length (Part000.cleanName titleText))%nat
           then exists more,
                  requests (Part000.captureAndScan api (Some (titleText, text))) s
                  = GetAutocomplete (Part000.cleanName titleText) :: more
           else requests (Part000.captureAndScan api (Some (titleText, text))) s = []
                /\ error (exec (Part000.captureAndScan api (Some (titleText, text))) s)
                   = Some (js "Não consegui identificar a carta. Tente alinhar o rodapé."))
  /\ (Pattern.contains is_alnum Pattern.three_or_more text ->
        exists g1 g2,
          Pattern.first_match is_alnum Pattern.three_or_more text g1 g2
          /\ Part004b.infoMatch text = Some (g1, g2)
          /\ Part001.codes text = Some (g1, g2))
  /\ (~ Pattern.contains is_alnum Pattern.three_or_more text ->
        Part004b.infoMatch text = None /\ Part001.codes text = None
        /\ (if (3 <? length (Part004b.cleanTitle titleText))%nat
            then exists more,
                   requests (Part004b.captureAndScan api (Some (titleText, text))) s
                   = GetAutocomplete (Part004b.cleanTitle titleText) :: more
            else requests (Part004b.captureAndScan api (Some (titleText, text))) s = []
                 /\ error (exec (Part004b.captureAndScan api (Some (titleText, text))) s)
                    = Some (js "Não consegui ler a carta. Tente focar no título ou no rodapé."))
        /\ (if (2 <? length (Part001.cleanTitle titleText))%nat
            then exists more,
                   requests (Part001.processPhoto api (Some (titleText, text))) s
                   = GetAutocomplete (Part001.cleanTitle titleText) :: more
            else requests (Part001.processPhoto api (Some (titleText, text))) s = []
                 /\ error (exec (Part001.processPhoto api (Some (titleText, text))) s)
                    = Some (js "Não consegui ler o nome. Verifique se a foto está bem iluminada e nítida."))).
Proof.
  pose proof (@search_first_match _ _ _ text three_letters_here_ok) as H3.
  pose proof (@search_first_match _ _ _ text alnum_run_here_ok) as Ha.
  fold (Regex.match_three_letters text) in H3. fold (Part000.infoMatch text) in H3.
  fold (Regex.match_alnum_run text) in Ha. fold (Part004b.infoMatch text) in Ha.
  split; [|split; [|split]].
  - intros Hc. unfold Part000.setCode, Part000.collectorNum.
    destruct (Part000.infoMatch text) as [[g1 g2]|]; [|contradiction].
    exists g1, g2. repeat split; auto.
    destruct H3 as (pre & ws & post & (_ & Hg & _) & _).
    apply toUpperCase_letters. exact Hg.
  - intros Hn. unfold Part000.setCode, Part000.collectorNum.
    destruct (Part000.infoMatch text) as [[g1 g2]|] eqn:E.
    + exfalso. exact (Hn (first_match_contains H3)).
    + repeat split; auto. apply Part000_scan_without_info. exact E.
  - intros Hc. unfold Part001.codes. fold (Part004b.infoMatch text).
    destruct (Part004b.infoMatch text) as [[g1 g2]|]; [|contradiction].
    exists g1, g2. auto.
  - intros Hn.
    destruct (Part004b.infoMatch text) as [[g1 g2]|] eqn:E.
    + exfalso. exact (Hn (first_match_contains Ha)).
    + repeat split; auto.
      * apply Part004b_scan_without_info. exact E.
      * apply Part001_scan_without_info. exact E.
Qed.

Lemma C4_collector_info_extraction_witness :
  Pattern.contains is_letter Pattern.exactly_three (js "x mid245/280")
  /\ exists g1 g2,
       Pattern.first_match is_letter Pattern.exactly_three (js "x mid245/280") g1 g2
       /\ Part000.setCode (js "x mid245/280") = Some (toUpperCase g1)
       /\ forallb is_upper (toUpperCase g1) = true
       /\ Part000.collectorNum (js "x mid245/280") = Some g2.
Proof.
  assert (Hc : Pattern.contains is_letter Pattern.exactly_three (js "x mid245/280")).
  { exists (js "x "), (js "mid"), [], (js "245"), (js "/280").
    repeat split; cbn; lia. }
  split; [exact Hc|].
  exact (proj1 (C4_collector_info_extraction Demo.api (js "Lightning Bolt")
                  (js "x mid245/280") Demo.idle) Hc).
Defined.

(** C4 (fails as stated).  The footer ["M21 245"] has three
    alphanumeric characters, a space and digits, yet part_000, whose
    pattern wants three letters, extracts nothing from it; and from
    ["mid 245"] part_001 and part_004 return the group ["mid"] as it was
    read, not upper-cased. *)
Lemma C4_counterexample_pattern_and_case :
  Pattern.contains is_alnum Pattern.three_or_more (js "M21 245")
  /\ Part000.infoMatch (js "M21 245") = None
  /\ Part000.setCode (js "M21 245") = None
  /\ Part004b.infoMatch (js "mid 245") = Some (js "mid", js "245")
  /\ Part001.codes (js "mid 245") = Some (js "mid", js "245")
  /\ toUpperCase (js "mid") = js "MID"
  /\ js "mid" <> js "MID".
Proof.
  split.
  { exists [], (js "M21"), (js " "), (js "245"), [].
    repeat split; cbn; lia. }
  repeat split; try reflexivity. discriminate.
Qed.

(* --------------------------------------------------------------------- *)
(** ** How a scan ends *)
(* --------------------------------------------------------------------- *)

Lemma Part000_fetchPTVersion_outcome (api : Backend) (card : CardData) (e : Env) :
  exists shown more,
    Part000.fetchPTVersion api card e
    = (Normal tt,
       {| state := {| result := Some shown; loading := loading (state e);
                      error := error (state e); debugText := debugText (state e) |};
          sent := sent e ++ more |})
    /\ (forall q, ~ In (GetAutocomplete q) more)
    /\ (forall q, ~ In (GetNamedFuzzy q) more)
    /\ (forall s n, ~ In (GetCardByNumber s n) more).
Proof.
  unfold Part000.fetchPTVersion.
  destruct (jsstring_eqb (lang card) (js "pt")).
  - exists card, []. rewrite app_nil_r. repeat split; auto.
  - async_crush; eexists _, [_]; (split; [reflexivity|]);
      repeat split; intros ? **; cbn in *; intuition discriminate.
Qed.

Lemma Part000_searchByName_outcome (api : Backend) (name : jsstring) (e : Env) :
  exists after more,
    Part000.searchByName api name e = (Normal tt, {| state := after; sent := sent e ++ more |})
    /\ ((exists shown, shows_card (state e) after shown) \/ reports_error (state e) after).
Proof.
  unfold Part000.searchByName, Part000.fetchPTVersion, shows_card, reports_error.
  async_crush; log_norm; show_run; eauto.
Qed.

Lemma Part000_searchByInfo_outcome (api : Backend) (set_code num : jsstring) (e : Env) :
  exists after more,
    Part000.searchByInfo api set_code num e
    = (Normal tt, {| state := after; sent := sent e ++ more |})
    /\ ((exists shown, shows_card (state e) after shown) \/ reports_error (state e) after).
Proof.
  unfold Part000.searchByInfo, Part000.fetchPTVersion, shows_card, reports_error.
  async_crush; log_norm; eexists _, _; (split; [reflexivity|]); eauto.
Qed.

(** Once the frame is drawn, a scan of part_000 returns normally with
    the busy flag released, and ends in exactly one of two ways. *)
Lemma Part000_captureAndScan_outcome (api : Backend)
    (recognized : option (jsstring * jsstring)) (s : State) :
  let run := Part000.captureAndScan api recognized in
  fst (run {| state := s; sent := [] |}) = Normal tt
  /\ loading (exec run s) = false
  /\ ((error (exec run s) = None /\ exists shown, result (exec run s) = Some shown)
      \/ ((exists m, error (exec run s) = Some m) /\ result (exec run s) = result s)).
Proof.
  cbv zeta. unfold Part000.captureAndScan, exec.
  destruct recognized as [[nameText infoText]|].
  2: { async_unfold. cbn. repeat split; auto. right. split; eauto. }
  async_unfold.
  cbn -[Part000.searchByName Part000.searchByInfo Part000.cleanName Part000.setCode
        Part000.collectorNum js Nat.ltb substring0].
  assert (Hinfo : forall sc cn e1, error (state e1) = None ->
            exists after more,
              Part000.searchByInfo api sc cn e1
              = (Normal tt, {| state := after; sent := sent e1 ++ more |})
              /\ ((error after = None /\ exists shown, result after = Some shown)
                  \/ ((exists m, error after = Some m) /\ result after = result (state e1)))).
  { intros sc cn e1 He.
    destruct (Part000_searchByInfo_outcome api sc cn e1)
      as (after & more & -> & [[shown ->]|[m ->]]);
      do 2 eexists; (split; [reflexivity|]); cbn; eauto. }
  assert (Hname : forall n e1, error (state e1) = None ->
            exists after more,
              Part000.searchByName api n e1
              = (Normal tt, {| state := after; sent := sent e1 ++ more |})
              /\ ((error after = None /\ exists shown, result after = Some shown)
                  \/ ((exists m, error after = Some m) /\ result after = result (state e1)))).
  { intros n e1 He.
    destruct (Part000_searchByName_outcome api n e1)
      as (after & more & -> & [[shown ->]|[m ->]]);
      do 2 eexists; (split; [reflexivity|]); cbn; eauto. }
  destruct (Part000.setCode infoText) as [sc|];
    [destruct (Part000.collectorNum infoText) as [cn|];
     [destruct (truthy sc && truthy cn)|]|].
  2-4: destruct (3 <? length (Part000.cleanName nameText))%nat.
  all: try match goal with
       | |- context [Part000.searchByInfo _ ?a ?b ?e1] =>
           destruct (Hinfo a b e1 eq_refl) as (after & more & -> & Hout)
       | |- context [Part000.searchByName _ ?n ?e1] =>
           destruct (Hname n e1 eq_refl) as (after & more & -> & Hout)
       end; cbn; repeat split; auto.
  all: right; split; eauto.
Qed.


(** X1.  [captureAndScan] of part_000 never throws.  When the video or
    the canvas is not mounted it returns at once: nothing is sent and
    the state is what it was.  Otherwise it ends with the busy flag
    released; without a drawing context nothing is sent, the error
    message is cleared and the record stays what it was; with one, the
    scan ends in exactly one of two ways: a card is shown and there is no
    error message, or an error message is written and the record that
    was shown before the scan (if any) is still the one shown. *)
Theorem X1_part000_scan_outcome (api : Backend) (refs : Refs)
    (recognized : option (jsstring * jsstring)) (s : State) :
  let run := Part000.captureAndScanWith api refs recognized in
  fst (run {| state := s; sent := [] |}) = Normal tt
  /\ (videoRef refs && canvasRef refs = false ->
      run {| state := s; sent := [] |} = (Normal tt, {| state := s; sent := [] |}))
  /\ (videoRef refs && canvasRef refs = true ->
      loading (exec run s) = false
      /\ (context2d refs = false ->
          requests run s = [] /\ error (exec run s) = None
          /\ result (exec run s) = result s)
      /\ (context2d refs = true ->
          (error (exec run s) = None /\ exists shown, result (exec run s) = Some shown)
          \/ ((exists m, error (exec run s) = Some m) /\ result (exec run s) = result s))).
Proof.
  cbv zeta. unfold Part000.captureAndScanWith, exec, requests.
  pose proof (Part000_captureAndScan_outcome api recognized s) as (Hret & Hload & Hout).
  unfold exec in *.
  destruct (videoRef refs), (canvasRef refs); cbn [negb orb andb];
    try (split; [reflexivity|]; split; [reflexivity|discriminate]).
  destruct (context2d refs).
  - split; [exact Hret|]. split; [discriminate|]. intros _.
    split; [exact Hload|]. split; [discriminate|]. intros _. exact Hout.
  - split; [reflexivity|]. split; [discriminate|]. intros _.
    split; [reflexivity|]. split; [intros _; repeat split|discriminate].
Qed.

(** How [searchByName] of part_006 can end in silence: its empty
    [catch] swallows a name or a suggestion that cannot be URI-encoded,
    a failed autocomplete call and a rejected or unreadable lookup. *)
Lemma Part006_searchByName_outcome (api : Backend) (name : jsstring) (e : Env) :
  exists after more,
    Part006.searchByName api name e = (Normal tt, {| state := after; sent := sent e ++ more |})
    /\ ((exists shown, shows_card (state e) after shown)
        \/ reports_error (state e) after
        \/ (after = state e
            /\ (isWellFormed name = false
                \/ autocomplete_failed api name
                \/ (exists okf top rest,
                      autocomplete api name = Answered okf (Some (Some (top :: rest)))
                      /\ isWellFormed top = false)
                \/ exists q, named_fuzzy api q = Rejected
                             \/ named_fuzzy api q = Answered true None))).
Proof.
  unfold Part006.searchByName, Part006.fetchPTVersion, shows_card, reports_error,
    autocomplete_failed.
  async_unfold. destruct e as [st log].
  destruct (isWellFormed name) eqn:Hw; cbn -[first_or].
  2:{ show_run. right. right. split; [reflexivity|]. auto. }
  destruct (autocomplete api name) as [|okf [suggestions|]] eqn:Eauto; cbn -[first_or].
  - show_run. right. right. split; [reflexivity|]. auto.
  - destruct (isWellFormed (first_or suggestions name)) eqn:Hw'; cbn -[first_or].
    + destruct (named_fuzzy api (first_or suggestions name)) as [|[|] [card|]] eqn:En;
        cbn -[first_or].
      * log_norm; show_run. right. right. split; [reflexivity|]. right. right. right. eauto.
      * repeat (async_case; cbn -[first_or]); log_norm; show_run; eauto.
      * log_norm; show_run. right. right. split; [reflexivity|]. right. right. right. eauto.
      * log_norm; show_run. right. left. eauto.
      * log_norm; show_run. right. left. eauto.
    + log_norm; show_run. right. right. split; [reflexivity|]. right. right. left.
      destruct suggestions as [[|top rest]|]; cbn in Hw'; try congruence.
      exists okf, top, rest. split; [reflexivity|exact Hw'].
  - show_run. right. right. split; [reflexivity|]. eauto.
Qed.

Lemma Part006_searchBySet_outcome (api : Backend) (set_code num : jsstring) (e : Env) :
  exists after more,
    Part006.searchBySet api set_code num e
    = (Normal tt, {| state := after; sent := sent e ++ more |})
    /\ ((exists shown, shows_card (state e) after shown)
        \/ reports_error (state e) after
        \/ (after = state e
            /\ (~ responsive api \/ isWellFormed (set_code ++ js " " ++ num) = false))).
Proof.
  assert (Hnr : forall q, (autocomplete_failed api q
                           \/ (exists okf top rest,
                                 autocomplete api q = Answered okf (Some (Some (top :: rest)))
                                 /\ isWellFormed top = false)
                           \/ exists q', named_fuzzy api q' = Rejected
                                         \/ named_fuzzy api q' = Answered true None) ->
                          ~ responsive api).
  { intros q H (_ & Ha & Hn & Hs). unfold autocomplete_failed in H.
    destruct H as [[H|[okf H]]|[(okf & top & rest & H & Hw)|[q' [H|H]]]].
    - exact (proj1 (Ha q) H).
    - exact (proj2 (Ha q) okf H).
    - rewrite (Hs _ _ _ _ H) in Hw. discriminate.
    - exact (proj1 (Hn q') H).
    - exact (proj2 (Hn q') H). }
  unfold Part006.searchBySet.
  unfold try_catch at 1. unfold bind at 1. unfold fetch_card_by_number, fetch.
  destruct (card_by_number api (toLowerCase set_code) num) as [|[|] [card|]] eqn:Ec;
    cbn -[Part006.searchByName Part006.fetchPTVersion js].
  - do 2 eexists. split; [reflexivity|]. right. right. split; [reflexivity|]. left.
    intros (Hc & _). exact (proj1 (Hc _ _) Ec).
  - rewrite (proj2 (proj2 (fetchPTVersion_same api card _))).
    destruct (Part000_fetchPTVersion_outcome api card
                {| state := state e;
                   sent := sent e ++ [GetCardByNumber (toLowerCase set_code) num] |})
      as (shown & more & -> & _).
    cbn. do 2 eexists. split; [log_norm; reflexivity|]. left. exists shown. reflexivity.
  - do 2 eexists. split; [reflexivity|]. right. right. split; [reflexivity|]. left.
    intros (Hc & _). exact (proj2 (Hc _ _) Ec).
  - match goal with
    | |- context [Part006.searchByName ?a ?n ?x] =>
        destruct (Part006_searchByName_outcome a n x) as (after & more & -> & Hout)
    end.
    cbn in *. do 2 eexists. split; [log_norm; reflexivity|].
    destruct Hout as [H|[H|[-> [H|H]]]]; eauto;
      right; right; (split; [reflexivity|]); left; eapply Hnr; exact H.
  - match goal with
    | |- context [Part006.searchByName ?a ?n ?x] =>
        destruct (Part006_searchByName_outcome a n x) as (after & more & -> & Hout)
    end.
    cbn in *. do 2 eexists. split; [log_norm; reflexivity|].
    destruct Hout as [H|[H|[-> [H|H]]]]; eauto;
      right; right; (split; [reflexivity|]); left; eapply Hnr; exact H.
Qed.

(** The groups of a footer match hold letters and digits only, so their
    join by a space can be URI-encoded. *)
Lemma alnum_match_wellformed (infoText g1 g2 : jsstring) :
  Regex.match_alnum_run infoText = Some (g1, g2) ->
  isWellFormed (g1 ++ js " " ++ g2) = true.
Proof.
  intros Hm. pose proof (@search_first_match is_alnum Pattern.three_or_more
                           Regex.alnum_run_here infoText alnum_run_here_ok) as H.
  unfold Regex.match_alnum_run in Hm. rewrite Hm in H.
  destruct H as (pre & ws & post & (_ & Hg1 & _ & _ & Hg2 & _) & _).
  apply name_units_wellformed. rewrite !forallb_app.
  rewrite forallb_forall in Hg1, Hg2.
  repeat (apply andb_true_iff; split); try reflexivity;
    apply forallb_forall; intros c Hc.
  - rewrite (Hg1 c Hc). reflexivity.
  - unfold is_alnum. rewrite (Hg2 c Hc), orb_true_r. reflexivity.
Qed.

(** After the guard, a scan of part_006 returns normally with the busy
    flag released and the debug text cleared; against a responsive
    backend it ends in exactly one of two ways. *)
Lemma Part006_captureAndScan_outcome (api : Backend)
    (recognized : option (jsstring * jsstring)) (s : State) :
  let run := Part006.captureAndScan api recognized in
  fst (run {| state := s; sent := [] |}) = Normal tt
  /\ loading (exec run s) = false
  /\ debugText (exec run s) = []
  /\ (responsive api ->
      (error (exec run s) = None /\ exists shown, result (exec run s) = Some shown)
      \/ ((exists m, error (exec run s) = Some m) /\ result (exec run s) = result s)).
Proof.
  cbv zeta. unfold Part006.captureAndScan, exec.
  destruct recognized as [[titleText infoText]|].
  2: { async_unfold. cbn. repeat split; auto. intros _. right. split; eauto. }
  async_unfold.
  cbn -[Part006.searchByName Part006.searchBySet Part006.cleanTitle Part006.codes js Nat.ltb].
  destruct (Part006.codes infoText) as [[g1 g2]|] eqn:Hcodes.
  - pose proof (alnum_match_wellformed _ Hcodes) as Hwf.
    match goal with
    | |- context [Part006.searchBySet _ ?a ?b ?e1] =>
        destruct (Part006_searchBySet_outcome api a b e1) as (after & more & Heq & Hout);
        rewrite Heq
    end.
    unfold shows_card, reports_error in Hout. cbn in Hout, Hwf.
    destruct Hout as [[shown Hs]|[[m Hm]|[Hs [Hnr|Hnw]]]]; subst after; cbn;
      repeat split; auto; intros Hr; try contradiction; try congruence; eauto;
      try (right; split; eauto).
  - destruct (3 <? length (Part006.cleanTitle titleText))%nat.
    + assert (Hwf : isWellFormed (Part006.cleanTitle titleText) = true)
        by (apply letters_white_wellformed, replace_non_name_chars; reflexivity).
      match goal with
      | |- context [Part006.searchByName _ ?n ?e1] =>
          destruct (Part006_searchByName_outcome api n e1) as (after & more & Heq & Hout);
          rewrite Heq
      end.
      unfold shows_card, reports_error in Hout. cbn in Hout.
      destruct Hout as [[shown Hs]|[[m Hm]|[Hs Hnr]]]; subst after; cbn;
        repeat split; auto; intros Hr; eauto; try solve [right; split; eauto].
      exfalso. destruct Hr as (_ & Ha & Hn & Hsug). unfold autocomplete_failed in Hnr.
      destruct Hnr as [H|[[H|[okf H]]|[(okf & top & rest & H & Hw)|[q' [H|H]]]]].
      * congruence.
      * exact (proj1 (Ha _) H).
      * exact (proj2 (Ha _) okf H).
      * rewrite (Hsug _ _ _ _ H) in Hw. discriminate.
      * exact (proj1 (Hn q') H).
      * exact (proj2 (Hn q') H).
    + cbn. repeat split; auto. intros _. right. split; eauto.
Qed.

(** X2.  [captureAndScan] of part_006 never throws.  When the video or
    the worker is missing it returns at once: nothing is sent and the
    state is what it was.  Otherwise it ends with the busy flag released
    and the debug text cleared, and against a backend that rejects no
    catalog request, whose bodies can be read and whose suggestions can
    be URI-encoded, it ends in exactly one of two ways: a card is shown
    and there is no error message, or an error message is written and the
    record shown before is still shown. *)
Theorem X2_part006_scan_outcome (api : Backend) (refs : Refs)
    (recognized : option (jsstring * jsstring)) (s : State) :
  let run := Part006.captureAndScanWith api refs recognized in
  fst (run {| state := s; sent := [] |}) = Normal tt
  /\ (videoRef refs && workerRef refs = false ->
      run {| state := s; sent := [] |} = (Normal tt, {| state := s; sent := [] |}))
  /\ (videoRef refs && workerRef refs = true ->
      loading (exec run s) = false
      /\ debugText (exec run s) = []
      /\ (responsive api ->
          (error (exec run s) = None /\ exists shown, result (exec run s) = Some shown)
          \/ ((exists m, error (exec run s) = Some m) /\ result (exec run s) = result s))).
Proof.
  cbv zeta. unfold Part006.captureAndScanWith.
  destruct (videoRef refs), (workerRef refs); cbn [negb orb andb];
    try (split; [reflexivity|]; split; [reflexivity|discriminate]).
  pose proof (Part006_captureAndScan_outcome api
                (if context2d refs then recognized else None) s) as (Hret & Hrest).
  split; [exact Hret|]. split; [discriminate|]. intros _. exact Hrest.
Qed.

Lemma X2_part006_scan_outcome_witness :
  let refs := {| videoRef := true; canvasRef := false; workerRef := true;
                 context2d := true |} in
  let run := Part006.captureAndScanWith Demo.api refs (Some (js "Shock", js "~")) in
  videoRef refs && workerRef refs = true
  /\ responsive Demo.api
  /\ ((error (exec run Demo.idle) = None
       /\ exists shown, result (exec run Demo.idle) = Some shown)
      \/ ((exists m, error (exec run Demo.idle) = Some m)
          /\ result (exec run Demo.idle) = result Demo.idle)).
Proof.
  cbv zeta.
  assert (Hr : responsive Demo.api).
  { unfold responsive, Demo.api. cbn -[isWellFormed].
    repeat split; intros;
      repeat match goal with
             | H : context [if ?b then _ else _] |- _ => destruct b
             | |- context [if ?b then _ else _] => destruct b
             end;
      try discriminate.
    all: match goal with H : Answered _ _ = Answered _ _ |- _ => injection H as _ <- _ end;
      reflexivity. }
  split; [reflexivity|]. split; [exact Hr|].
  exact (proj2 (proj2 (proj2 (proj2 (X2_part006_scan_outcome Demo.api
           {| videoRef := true; canvasRef := false; workerRef := true; context2d := true |}
           (Some (js "Shock", js "~")) Demo.idle)) eq_refl)) Hr).
Defined.

(** X3.  The later two-zone scans fail silently when the lookup by set
    and number is rejected (no network): after a footer that matched,
    part_004 (second component), part_006 and part_001 send that one
    request and end with the record that was shown before, no error
    message of their own, the busy flag released and the debug text
    cleared. *)
Theorem X3_rejected_number_lookup_is_silent (api : Backend)
    (titleText infoText g1 g2 : jsstring) (s : State) :
  Regex.match_alnum_run infoText = Some (g1, g2) ->
  card_by_number api (toLowerCase g1) g2 = Rejected ->
  (requests (Part006.captureAndScan api (Some (titleText, infoText))) s
   = [GetCardByNumber (toLowerCase g1) g2]
   /\ exec (Part006.captureAndScan api (Some (titleText, infoText))) s
      = {| result := result s; loading := false; error := None; debugText := [] |})
  /\ (requests (Part004b.captureAndScan api (Some (titleText, infoText))) s
      = [GetCardByNumber (toLowerCase g1) g2]
      /\ exec (Part004b.captureAndScan api (Some (titleText, infoText))) s
         = {| result := result s; loading := false; error := None; debugText := [] |})
  /\ (requests (Part001.processPhoto api (Some (titleText, infoText))) s
      = [GetCardByNumber (toLowerCase g1) g2]
      /\ exec (Part001.processPhoto api (Some (titleText, infoText))) s
         = {| result := result s; loading := false; error := error s; debugText := [] |}).
Proof.
  intros Hm Hr.
  unfold Part006.captureAndScan, Part004b.captureAndScan, Part001.processPhoto,
    Part006.codes, Part004b.infoMatch, Part001.codes,
    Part006.searchBySet, Part004b.searchByInfo, Part001.searchBySet.
  rewrite Hm. async_unfold. rewrite Hr. cbn. repeat split; reflexivity.
Qed.

Lemma X3_rejected_number_lookup_witness :
  Regex.match_alnum_run (js "MID 245") = Some (js "MID", js "245")
  /\ card_by_number Demo.offline (toLowerCase (js "MID")) (js "245") = Rejected
  /\ exec (Part006.captureAndScan Demo.offline (Some (js "Lightning Bolt", js "MID 245")))
       Demo.idle
     = {| result := None; loading := false; error := None; debugText := [] |}.
Proof.
  split; [reflexivity|]. split; [reflexivity|].
  exact (proj2 (proj1 (@X3_rejected_number_lookup_is_silent Demo.offline
                         (js "Lightning Bolt") (js "MID 245") (js "MID") (js "245")
                         Demo.idle eq_refl eq_refl))).
Defined.

Lemma lower_of_upper_letters (g : jsstring) :
  forallb is_letter g = true ->
  toLowerCase (toUpperCase g) = toLowerCase g
  /\ forallb is_lower (toLowerCase g) = true.
Proof.
  unfold toLowerCase, toUpperCase.
  induction g as [|c g IH]; cbn [map forallb]; [auto|].
  intros H. apply andb_true_iff in H as [Hc Hg]. destruct (IH Hg) as [IH1 IH2].
  rewrite IH1, IH2, andb_true_r.
  assert (Hcase : lower_unit (upper_unit c) = lower_unit c /\ is_lower (lower_unit c) = true).
  { unfold lower_unit, upper_unit, is_letter, is_lower, is_upper, in_range in *.
    destruct ((97 <=? c)%N && (c <=? 122)%N) eqn:El.
    - apply andb_true_iff in El as [H1 H2].
      apply N.leb_le in H1. apply N.leb_le in H2.
      replace ((65 <=? c - 32)%N && (c - 32 <=? 90)%N) with true
        by (symmetry; apply andb_true_iff; split; apply N.leb_le; lia).
      replace ((65 <=? c)%N && (c <=? 90)%N) with false
        by (symmetry; apply andb_false_iff; right; apply N.leb_gt; lia).
      split.
      + lia.
      + apply andb_true_iff; split; apply N.leb_le; lia.
    - cbn in Hc. rewrite Hc.
      apply andb_true_iff in Hc as [H1 H2].
      apply N.leb_le in H1. apply N.leb_le in H2.
      split; [reflexivity|].
      apply andb_true_iff; split; apply N.leb_le; lia. }
  destruct Hcase as [-> ->]. auto.
Qed.

(** X4.  Set and number first, in part_000: whenever the footer matches
    and the catalog has the printing, the scan sends the lookup by
    number with the set code in three lower-case letters (whatever the
    case that was read), sends no autocomplete and no fuzzy lookup, and
    ends with a card shown and no error message; the title that was
    read plays no part. *)
Theorem X4_part000_number_hit (api : Backend) (nameText infoText g1 g2 : jsstring)
    (card : CardData) (s : State) :
  Part000.infoMatch infoText = Some (g1, g2) ->
  card_by_number api (toLowerCase g1) g2 = Answered true (Some card) ->
  let run := Part000.captureAndScan api (Some (nameText, infoText)) in
  length (toLowerCase g1) = 3%nat
  /\ forallb is_lower (toLowerCase g1) = true
  /\ (exists more,
        requests run s = GetCardByNumber (toLowerCase g1) g2 :: more
        /\ (forall q, ~ In (GetAutocomplete q) more)
        /\ (forall q, ~ In (GetNamedFuzzy q) more))
  /\ error (exec run s) = None
  /\ exists shown, result (exec run s) = Some shown.
Proof.
  intros Hm Hc. cbv zeta.
  pose proof (@search_first_match _ _ _ infoText three_letters_here_ok) as H3.
  fold (Regex.match_three_letters infoText) in H3. fold (Part000.infoMatch infoText) in H3.
  rewrite Hm in H3. destruct H3 as (pre & ws & post & (_ & Hg & Hl & _ & _ & Hd) & _).
  apply Nat.eqb_eq in Hl.
  destruct (lower_of_upper_letters g1 Hg) as [Hlu Hlow].
  split; [unfold toLowerCase; rewrite length_map; exact Hl|].
  split; [exact Hlow|].
  assert (Ht : truthy (toUpperCase g1) && truthy g2 = true).
  { destruct g1; [discriminate|]. destruct g2; [cbn in Hd; lia|]. reflexivity. }
  unfold Part000.captureAndScan, Part000.setCode, Part000.collectorNum, requests, exec.
  rewrite Hm. cbv zeta. rewrite Ht.
  unfold Part000.searchByInfo. async_unfold. rewrite Hlu, Hc.
  cbn -[Part000.fetchPTVersion js substring0 Part000.cleanName].
  match goal with
  | |- context [Part000.fetchPTVersion ?a ?c ?x] =>
      destruct (Part000_fetchPTVersion_outcome a c x) as (shown & more & -> & Ha & Hn & _)
  end.
  cbn. repeat split; eauto.
Qed.

Lemma X4_part000_number_hit_witness :
  let api := {| card_by_number := fun _ _ => Answered true (Some Demo.bolt_en);
                autocomplete := autocomplete Demo.api;
                named_fuzzy := named_fuzzy Demo.api;
                search_pt := search_pt Demo.api;
                translation := translation Demo.api |} in
  Part000.infoMatch (js "mid 245") = Some (js "mid", js "245")
  /\ error (exec (Part000.captureAndScan api (Some (js "Shock", js "mid 245"))) Demo.idle) = None.
Proof.
  cbv zeta. split; [reflexivity|].
  exact (proj1 (proj2 (proj2 (proj2
           (@X4_part000_number_hit
              {| card_by_number := fun _ _ => Answered true (Some Demo.bolt_en);
                 autocomplete := autocomplete Demo.api;
                 named_fuzzy := named_fuzzy Demo.api;
                 search_pt := search_pt Demo.api;
                 translation := translation Demo.api |}
              (js "Shock") (js "mid 245") (js "mid") (js "245") Demo.bolt_en Demo.idle
              eq_refl eq_refl))))).
Defined.

(** X5.  Set and number first, in part_004 (second component) and
    part_006: whenever the footer matches and the catalog has the
    printing, the scan sends the lookup by number with the set code
    lower-cased, sends no autocomplete and no fuzzy lookup, and ends with
    a card shown and no error message. *)
Theorem X5_number_hit_skips_name_search (api : Backend)
    (titleText infoText g1 g2 : jsstring) (card : CardData) (s : State) :
  Regex.match_alnum_run infoText = Some (g1, g2) ->
  card_by_number api (toLowerCase g1) g2 = Answered true (Some card) ->
  ((exists more,
      requests (Part006.captureAndScan api (Some (titleText, infoText))) s
      = GetCardByNumber (toLowerCase g1) g2 :: more
      /\ (forall q, ~ In (GetAutocomplete q) more)
      /\ (forall q, ~ In (GetNamedFuzzy q) more))
   /\ error (exec (Part006.captureAndScan api (Some (titleText, infoText))) s) = None
   /\ exists shown,
        result (exec (Part006.captureAndScan api (Some (titleText, infoText))) s) = Some shown)
  /\ ((exists more,
         requests (Part004b.captureAndScan api (Some (titleText, infoText))) s
         = GetCardByNumber (toLowerCase g1) g2 :: more
         /\ (forall q, ~ In (GetAutocomplete q) more)
         /\ (forall q, ~ In (GetNamedFuzzy q) more))
      /\ error (exec (Part004b.captureAndScan api (Some (titleText, infoText))) s) = None
      /\ exists shown,
           result (exec (Part004b.captureAndScan api (Some (titleText, infoText))) s)
           = Some shown).
Proof.
  intros Hm Hc.
  unfold Part006.captureAndScan, Part004b.captureAndScan, Part006.codes, Part004b.infoMatch,
    Part006.searchBySet, Part004b.searchByInfo, requests, exec.
  rewrite Hm. async_unfold. rewrite Hc.
  cbn -[Part006.fetchPTVersion Part004b.fetchPTVersion js].
  split.
  - match goal with
    | |- context [Part006.fetchPTVersion ?a ?c ?x] =>
        destruct (Part000_fetchPTVersion_outcome a c x) as (shown & more & Heq & Ha & Hn & _);
        change (Part006.fetchPTVersion a c x) with (Part000.fetchPTVersion a c x);
        rewrite Heq
    end.
    cbn. repeat split; eauto.
  - match goal with
    | |- context [Part004b.fetchPTVersion ?a ?c ?x] =>
        destruct (Part000_fetchPTVersion_outcome a c x) as (shown & more & Heq & Ha & Hn & _);
        change (Part004b.fetchPTVersion a c x) with (Part000.fetchPTVersion a c x);
        rewrite Heq
    end.
    cbn. log_norm. repeat split; eauto.
Qed.

Lemma X5_number_hit_witness :
  let api := {| card_by_number := fun _ _ => Answered true (Some Demo.bolt_en);
                autocomplete := autocomplete Demo.api;
                named_fuzzy := named_fuzzy Demo.api;
                search_pt := search_pt Demo.api;
                translation := translation Demo.api |} in
  Regex.match_alnum_run (js "M21 245") = Some (js "M21", js "245")
  /\ error (exec (Part006.captureAndScan api (Some (js "Shock", js "M21 245"))) Demo.idle)
     = None.
Proof.
  cbv zeta. split; [reflexivity|].
  exact (proj1 (proj2 (proj1
           (@X5_number_hit_skips_name_search
              {| card_by_number := fun _ _ => Answered true (Some Demo.bolt_en);
                 autocomplete := autocomplete Demo.api;
                 named_fuzzy := named_fuzzy Demo.api;
                 search_pt := search_pt Demo.api;
                 translation := translation Demo.api |}
              (js "Shock") (js "M21 245") (js "M21") (js "245") Demo.bolt_en Demo.idle
              eq_refl eq_refl)))).
Defined.

(** X6.  The name fallback of part_006: when the footer matches and
    the lookup by number is answered with an error status, the scan asks
    for suggestions for the two groups joined by a space.  When the
    query of the fuzzy lookup (the top suggestion, or the joined groups)
    can be URI-encoded and the lookup succeeds, the scan has sent the
    lookup by number, the autocomplete query and the fuzzy lookup in
    that order, and ends with a card shown and no error message.  When
    that query cannot be URI-encoded, the empty [catch] swallows the
    error: no lookup is sent, the record stays what it was and no
    message is written. *)
Theorem X6_part006_fallback_shows_card (api : Backend)
    (titleText infoText g1 g2 : jsstring) (b : option CardData) (okf : bool)
    (suggestions : option (list jsstring)) (s : State) :
  Regex.match_alnum_run infoText = Some (g1, g2) ->
  card_by_number api (toLowerCase g1) g2 = Answered false b ->
  autocomplete api (g1 ++ js " " ++ g2) = Answered okf (Some suggestions) ->
  let run := Part006.captureAndScan api (Some (titleText, infoText)) in
  let target := first_or suggestions (g1 ++ js " " ++ g2) in
  (isWellFormed target = true ->
   forall card, named_fuzzy api target = Answered true (Some card) ->
   (exists more,
      requests run s
      = GetCardByNumber (toLowerCase g1) g2
        :: GetAutocomplete (g1 ++ js " " ++ g2)
        :: GetNamedFuzzy target :: more)
   /\ error (exec run s) = None
   /\ exists shown, result (exec run s) = Some shown)
  /\ (isWellFormed target = false ->
      requests run s
      = [GetCardByNumber (toLowerCase g1) g2; GetAutocomplete (g1 ++ js " " ++ g2)]
      /\ error (exec run s) = None
      /\ result (exec run s) = result s).
Proof.
  intros Hm Hc Ha. cbv zeta.
  pose proof (alnum_match_wellformed _ Hm) as Hwf.
  unfold Part006.captureAndScan, Part006.codes, Part006.searchBySet, Part006.searchByName,
    requests, exec.
  rewrite Hm. async_unfold. rewrite Hc. cbn -[Part006.fetchPTVersion js app first_or].
  rewrite Hwf. cbn -[Part006.fetchPTVersion js app first_or]. rewrite Ha.
  cbn -[Part006.fetchPTVersion js app first_or].
  split; intros Hw.
  - intros card Hn. rewrite Hw. cbn -[Part006.fetchPTVersion js app first_or].
    rewrite Hn. cbn -[Part006.fetchPTVersion js app first_or].
    match goal with
    | |- context [Part006.fetchPTVersion ?a ?c ?x] =>
        destruct (Part000_fetchPTVersion_outcome a c x) as (shown & more & Heq & _);
        change (Part006.fetchPTVersion a c x) with (Part000.fetchPTVersion a c x);
        rewrite Heq
    end.
    cbn -[js app first_or]. log_norm. repeat split; eauto.
  - rewrite Hw. cbn -[js app first_or]. repeat split.
Qed.

Lemma X6_part006_fallback_witness :
  let api := {| card_by_number := card_by_number Demo.api;
                autocomplete := autocomplete Demo.api;
                named_fuzzy := fun _ => Answered true (Some Demo.shock_en);
                search_pt := search_pt Demo.api;
                translation := translation Demo.api |} in
  Regex.match_alnum_run (js "M21 159") = Some (js "M21", js "159")
  /\ card_by_number api (toLowerCase (js "M21")) (js "159") = Answered false None
  /\ autocomplete api (js "M21" ++ js " " ++ js "159") = Answered true (Some (Some []))
  /\ exists shown,
       result (exec (Part006.captureAndScan api (Some (js "", js "M21 159"))) Demo.idle)
       = Some shown.
Proof.
  cbv zeta. split; [reflexivity|]. split; [reflexivity|]. split; [reflexivity|].
  exact (proj2 (proj2
           (proj1 (@X6_part006_fallback_shows_card
                     {| card_by_number := card_by_number Demo.api;
                        autocomplete := autocomplete Demo.api;
                        named_fuzzy := fun _ => Answered true (Some Demo.shock_en);
                        search_pt := search_pt Demo.api;
                        translation := translation Demo.api |}
                     (js "") (js "M21 159") (js "M21") (js "159") None true (Some [])
                     Demo.idle eq_refl eq_refl eq_refl)
              eq_refl Demo.shock_en eq_refl))).
Defined.

(* --------------------------------------------------------------------- *)
(** ** Ranked candidate lines (part_002) *)
(* --------------------------------------------------------------------- *)

Example ex_candidateLines :
  Part002.candidateLines (js "Lightning Bolt 1
R
Instant, {R}
3 dmg")
  = [js "Lightning Bolt "; js "Instant, R"; js " dmg"].
Proof. reflexivity. Qed.

Lemma Part002_fetchPTVersion_outcome (api : Backend) (card : CardData) (e : Env) :
  exists shown more,
    Part002.fetchPTVersion api card e
    = (Normal tt,
       {| state := {| result := Some shown; loading := loading (state e);
                      error := error (state e); debugText := debugText (state e) |};
          sent := sent e ++ more |})
    /\ (length more <= 1)%nat
    /\ (forall q, ~ In (GetAutocomplete q) more).
Proof.
  unfold Part002.fetchPTVersion.
  destruct (jsstring_eqb (lang card) (js "pt")).
  - exists card, []. async_unfold. cbn. rewrite app_nil_r. repeat split; auto.
  - async_crush; eexists _, [_]; (split; [reflexivity|]);
      (split; [cbn; lia|intros q [H|[]]; discriminate]).
Qed.

Lemma Part002_tryLine_outcome (api : Backend) (line : jsstring) (e : Env) :
  exists found after more,
    Part002.tryLine api line e
    = (Normal found, {| state := after; sent := sent e ++ more |})
    /\ (length more <= 3)%nat
    /\ (forall q, In (GetAutocomplete q) more -> q = line)
    /\ ((found = true /\ exists shown, shows_card (state e) after shown)
        \/ (found = false /\ after = state e)).
Proof.
  assert (Hone : forall q r, In (GetAutocomplete q) [GetAutocomplete line; GetNamedFuzzy r] ->
                             q = line).
  { intros q r [H|[H|[]]]; [injection H as <-; reflexivity|discriminate]. }
  unfold Part002.tryLine, shows_card. destruct e as [st log]. async_unfold.
  destruct (isWellFormed line) eqn:Hw; cbn -[Part002.fetchPTVersion].
  2:{ exists false, st, []. rewrite app_nil_r. repeat split; auto; intros q []. }
  destruct (autocomplete api line) as [|okf [[[|top rest]|]|]] eqn:Eauto;
    cbn -[Part002.fetchPTVersion];
    try (exists false, st, [GetAutocomplete line]; cbn; repeat split; auto; try lia;
         intros q [H|[]]; injection H as <-; reflexivity).
  destruct (isWellFormed top) eqn:Hw'; cbn -[Part002.fetchPTVersion].
  2:{ exists false, st, [GetAutocomplete line]; cbn; repeat split; auto; try lia.
      intros q [H|[]]; injection H as <-; reflexivity. }
  destruct (named_fuzzy api top) as [|[|] [card|]] eqn:En; cbn -[Part002.fetchPTVersion];
    try (exists false, st, [GetAutocomplete line; GetNamedFuzzy top];
         cbn; rewrite <- app_assoc; cbn; repeat split; auto; try lia;
         intros q H; exact (Hone q top H)).
  destruct (Part002_fetchPTVersion_outcome api card
              {| state := st;
                 sent := (log ++ [GetAutocomplete line]) ++ [GetNamedFuzzy top] |})
    as (shown & more & Heq & Hlen & Hno).
  rewrite Heq. cbn.
  eexists true, _, (GetAutocomplete line :: GetNamedFuzzy top :: more).
  split; [log_norm; reflexivity|].
  repeat split.
  - cbn. lia.
  - intros q [H|[H|H]]; [injection H as <-; reflexivity|discriminate|].
    exfalso. exact (Hno q H).
  - left. split; [reflexivity|]. exists shown. reflexivity.
Qed.

Lemma Part002_searchMultipleFuzzy_outcome (api : Backend) (lines : list jsstring) (e : Env) :
  exists found after more,
    Part002.searchMultipleFuzzy api lines e
    = (Normal found, {| state := after; sent := sent e ++ more |})
    /\ (length more <= 3 * length lines)%nat
    /\ (forall q, In (GetAutocomplete q) more -> In q lines)
    /\ ((found = true /\ exists shown, shows_card (state e) after shown)
        \/ (found = false /\ after = state e)).
Proof.
  revert e. induction lines as [|line rest IH]; intros e.
  - exists false, (state e), []. cbn. rewrite app_nil_r. destruct e.
    repeat split; auto; try (intros q []).
  - rewrite Part002_searchMultipleFuzzy_cons.
    destruct (Part002_tryLine_outcome api line e)
      as (found & after & more & Heq & Hlen & Hno & Hout).
    rewrite Heq. destruct Hout as [[-> Hshown]|[-> ->]].
    + exists true, after, more. split; [reflexivity|].
      repeat split.
      * cbn [length]. lia.
      * intros q H. left. symmetry. exact (Hno q H).
      * left. auto.
    + destruct (IH {| state := state e; sent := sent e ++ more |})
        as (found' & after' & more' & Heq' & Hlen' & Hin' & Hout').
      rewrite Heq'. cbn [sent state] in *.
      exists found', after', (more ++ more').
      split; [rewrite <- app_assoc; reflexivity|].
      repeat split.
      * cbn [length]. rewrite length_app. lia.
      * intros q H.
        apply in_app_or in H as [H|H]; [left; symmetry; exact (Hno q H)|].
        right. exact (Hin' q H).
      * exact Hout'.
Qed.

(** X7.  [searchMultipleFuzzy] of part_002 never throws.  It returns
    [true] exactly when it has shown a card, and then nothing but the
    record changed; when it returns [false] the state is what it was.
    It sends at most three requests per candidate, and every
    autocomplete query it sends is one of the candidates. *)
Theorem X7_searchMultipleFuzzy_outcome (api : Backend) (lines : list jsstring) (e : Env) :
  exists found after more,
    Part002.searchMultipleFuzzy api lines e
    = (Normal found, {| state := after; sent := sent e ++ more |})
    /\ (length more <= 3 * length lines)%nat
    /\ (forall q, In (GetAutocomplete q) more -> In q lines)
    /\ ((found = true /\ exists shown, shows_card (state e) after shown)
        \/ (found = false /\ after = state e)).
Proof. exact (Part002_searchMultipleFuzzy_outcome api lines e). Qed.

Lemma replace_non_name_comma_chars (s : jsstring) :
  forallb (fun c => is_letter c || is_white c || (c =? 44)%N)
    (replace_non_name_comma [] s) = true.
Proof.
  unfold replace_non_name_comma.
  induction s as [|c s IH]; cbn [flat_map]; [reflexivity|].
  rewrite forallb_app, IH, andb_true_r.
  destruct (is_letter c || is_white c || (c =? 44)%N) eqn:E; cbn; [rewrite E|]; reflexivity.
Qed.

Lemma candidateLines_facts (text q : jsstring) :
  In q (Part002.candidateLines text) ->
  (3 < length q)%nat
  /\ forallb (fun c => is_letter c || is_white c || (c =? 44)%N) q = true.
Proof.
  unfold Part002.candidateLines. intros H.
  apply filter_In in H as [H Hl]. apply Nat.ltb_lt in Hl.
  apply in_map_iff in H as (l & <- & _).
  split; [exact Hl|apply replace_non_name_comma_chars].
Qed.

Lemma In_firstn_In {T : Type} (n : nat) (l : list T) (a : T) :
  In a (firstn n l) -> In a l.
Proof.
  revert l. induction n as [|n IH]; intros [|b l] H; cbn in *; try contradiction.
  destruct H as [H|H]; auto.
Qed.

(** Once the frame is drawn, a scan of part_002 sends at most nine
    requests, asks only about the first three candidate lines, and ends
    in exactly one of two ways. *)
Lemma Part002_captureAndScan_outcome (api : Backend)
    (recognized : option (jsstring * jsstring)) (s : State) :
  let run := Part002.captureAndScan api recognized in
  fst (run {| state := s; sent := [] |}) = Normal tt
  /\ loading (exec run s) = false
  /\ (length (requests run s) <= 9)%nat
  /\ (forall q, In (GetAutocomplete q) (requests run s) ->
        exists text confidence,
          recognized = Some (text, confidence)
          /\ In q (firstn 3 (Part002.candidateLines text))
          /\ (3 < length q)%nat
          /\ forallb (fun c => is_letter c || is_white c || (c =? 44)%N) q = true)
  /\ ((error (exec run s) = None /\ exists shown, result (exec run s) = Some shown)
      \/ ((exists m, error (exec run s) = Some m) /\ result (exec run s) = result s)).
Proof.
  cbv zeta. unfold Part002.captureAndScan, requests, exec.
  destruct recognized as [[text confidence]|].
  2:{ async_unfold. cbn. repeat split; auto; try lia; try (intros q []).
      right. split; eauto. }
  async_unfold.
  cbn -[Part002.searchMultipleFuzzy Part002.candidateLines js substring0 firstn or_text].
  destruct (Part002.candidateLines text) as [|l0 ls] eqn:Hlines.
  - cbn. repeat split; auto; try lia; try (intros q []). right. split; eauto.
  - match goal with
    | |- context [Part002.searchMultipleFuzzy _ ?c ?e1] =>
        destruct (Part002_searchMultipleFuzzy_outcome api c e1) as (found & after & more & Heq & Hlen & Hin & Hout);
        rewrite Heq
    end.
    assert (Hlen3 : (length (firstn 3 (l0 :: ls)) <= 3)%nat) by apply firstn_le_length.
    unfold shows_card in Hout. cbn [state sent] in *.
    assert (Hq : forall q, In (GetAutocomplete q) more ->
                 exists text' confidence',
                   Some (text, confidence) = Some (text', confidence')
                   /\ In q (firstn 3 (Part002.candidateLines text')) /\ (3 < length q)%nat
                   /\ forallb (fun c => is_letter c || is_white c || (c =? 44)%N) q = true).
    { intros q H. specialize (Hin q H). exists text, confidence.
      split; [reflexivity|]. rewrite Hlines. split; [exact Hin|].
      apply (candidateLines_facts text). rewrite Hlines.
      exact (In_firstn_In _ _ _ Hin). }
    destruct Hout as [[-> [shown ->]]|[-> ->]]; cbn;
      (split; [reflexivity|]); (split; [reflexivity|]); (split; [lia|]);
      (split; [exact Hq|]); [left|right]; split; eauto.
Qed.

(** X8.  [captureAndScan] of part_002 never throws, sends at most nine
    requests, and asks the autocomplete service only about the first
    three candidate lines of the recognized text, each of which has more
    than three code units and holds only Latin letters, white space and
    commas.  When the video, the canvas or the worker is missing it
    returns at once: nothing is sent, and only the error message may
    change, to the loading message when it is the worker that is
    missing.  Otherwise it ends with the busy flag released; without a
    drawing context nothing is sent, the error message is cleared and the
    record stays what it was; with one, whether the recognition succeeds
    or not, the scan ends in exactly one of two ways: a card is shown and
    there is no error message, or an error message is written and the
    record shown before is still shown. *)
Theorem X8_part002_scan (api : Backend) (refs : Refs)
    (recognized : option (jsstring * jsstring)) (s : State) :
  let run := Part002.captureAndScanWith api refs recognized in
  fst (run {| state := s; sent := [] |}) = Normal tt
  /\ (length (requests run s) <= 9)%nat
  /\ (forall q, In (GetAutocomplete q) (requests run s) ->
        exists text confidence,
          recognized = Some (text, confidence)
          /\ In q (firstn 3 (Part002.candidateLines text))
          /\ (3 < length q)%nat
          /\ forallb (fun c => is_letter c || is_white c || (c =? 44)%N) q = true)
  /\ (videoRef refs && canvasRef refs && workerRef refs = false ->
      requests run s = []
      /\ exec run s
         = {| result := result s; loading := loading s;
              error := if workerRef refs then error s
                       else Some (js "Scanner ainda carregando...");
              debugText := debugText s |})
  /\ (videoRef refs && canvasRef refs && workerRef refs = true ->
      loading (exec run s) = false
      /\ (context2d refs = false ->
          requests run s = [] /\ error (exec run s) = None
          /\ result (exec run s) = result s)
      /\ (context2d refs = true ->
          (error (exec run s) = None /\ exists shown, result (exec run s) = Some shown)
          \/ ((exists m, error (exec run s) = Some m) /\ result (exec run s) = result s))).
Proof.
  cbv zeta. unfold Part002.captureAndScanWith.
  pose proof (Part002_captureAndScan_outcome api recognized s)
    as (Hret & Hload & Hlen & Hq & Hout).
  destruct s as [r l er d].
  destruct (videoRef refs), (canvasRef refs), (workerRef refs); cbn [negb orb andb];
    try (unfold requests, exec; async_unfold; cbn;
         repeat split; auto; try lia; try discriminate; intros q []).
  destruct (context2d refs).
  - split; [exact Hret|]. split; [exact Hlen|]. split; [exact Hq|].
    split; [discriminate|]. intros _.
    split; [exact Hload|]. split; [discriminate|]. intros _. exact Hout.
  - unfold requests, exec; async_unfold; cbn.
    repeat split; auto; try lia; try discriminate; try (intros q []).
Qed.

(* --------------------------------------------------------------------- *)
(** ** The card panel (part_000) *)
(* --------------------------------------------------------------------- *)

Example ex_panel_english :
  Part000.badge Demo.shock_en = js "Original em Inglês"
  /\ Part000.heading Demo.shock_en = js "Shock"
  /\ Part000.cardText Demo.shock_en = js "Shock deals 2 damage to any target."
  /\ Part000.showsTranslateButton Demo.shock_en = true.
Proof. vm_compute. repeat split; reflexivity. Qed.

Example ex_panel_portuguese :
  Part000.badge Demo.bolt_pt = js "Tradução Oficial"
  /\ Part000.heading Demo.bolt_pt = js "Raio"
  /\ Part000.cardText Demo.bolt_pt = js "Raio causa 3 pontos de dano a qualquer alvo."
  /\ Part000.showsTranslateButton Demo.bolt_pt = false.
Proof. vm_compute. repeat split; reflexivity. Qed.

(** X9.  In part_000, for a card that is not Portuguese and whose rules
    text can be URI-encoded, once [translateText] has received a
    translation that is not empty the panel shows that translation as
    the card text, labels the card as translated by machine, keeps its
    heading and type line, and no longer renders the translate button.
    When the rules text cannot be URI-encoded nothing is sent, the
    record stays what it was and the handler's message is written. *)
Theorem X9_translation_is_displayed (api : Backend) (s : State) (card : CardData)
    (text : jsstring) (okf : bool) (items : list (option jsstring)) :
  result s = Some card ->
  lang card <> js "pt" ->
  oracle_text card = Some text -> text <> [] ->
  translation api text = Answered okf (Some (Some items)) ->
  join_segments items <> [] ->
  (isWellFormed text = true ->
   exists card',
     result (exec (Part000.translateText api) s) = Some card'
     /\ Part000.cardText card' = join_segments items
     /\ Part000.badge card' = js "Traduzido por IA"
     /\ Part000.showsTranslateButton card' = false
     /\ Part000.heading card' = Part000.heading card
     /\ Part000.typeLine card' = Part000.typeLine card)
  /\ (isWellFormed text = false ->
      requests (Part000.translateText api) s = []
      /\ result (exec (Part000.translateText api) s) = Some card
      /\ error (exec (Part000.translateText api) s) = Some (js "Erro na tradução.")).
Proof.
  intros Hr Hl Ho Ht Hreply Hj. unfold exec, requests.
  rewrite (@Part000_translateText_run api {| state := s; sent := [] |} card text Hr Ho Ht).
  unfold translate_outcome. split; intros Hw; rewrite Hw; [|repeat split].
  exists (with_translated_text card (Some (join_segments items))).
  rewrite Hreply. cbn [snd state result].
  apply jsstring_eqb_neq in Hl. apply truthy_nonempty in Hj.
  unfold Part000.cardText, Part000.badge, Part000.showsTranslateButton,
    Part000.heading, Part000.typeLine, present, or_text.
  cbn [translated_text lang with_translated_text printed_name name
       printed_type_line type_line].
  rewrite Hl, Hj. repeat split; reflexivity.
Qed.

Lemma X9_translation_is_displayed_witness :
  lang Demo.shock_en <> js "pt"
  /\ exists card',
       result (exec (Part000.translateText Demo.api) (Demo.showing Demo.shock_en)) = Some card'
       /\ Part000.cardText card' = js "Choque causa 2 pontos de dano a qualquer alvo."
       /\ Part000.showsTranslateButton card' = false.
Proof.
  assert (Hl : lang Demo.shock_en <> js "pt") by discriminate.
  split; [exact Hl|].
  destruct (proj1 (@X9_translation_is_displayed Demo.api (Demo.showing Demo.shock_en)
                     Demo.shock_en (js "Shock deals 2 damage to any target.") true
                     [Some (js "Choque causa 2 pontos de dano "); Some (js "a qualquer alvo.")]
                     eq_refl Hl eq_refl ltac:(cbv; discriminate) eq_refl
                     ltac:(cbv; discriminate)) eq_refl)
    as (card' & Hr & Ht & _ & Hb & _).
  exists card'. repeat split; assumption.
Defined.

(** X10.  In part_000 the translate button is rendered for every card
    that is not Portuguese and carries no translation, also when the
    card has no rules text of its own (a missing or empty [oracle_text]);
    for such a card the button does nothing: [translateText] sends no
    request and leaves the state as it was. *)
Theorem X10_translate_button_without_text (api : Backend) (e : Env) (card : CardData) :
  result (state e) = Some card ->
  lang card <> js "pt" ->
  present (translated_text card) = false ->
  present (oracle_text card) = false ->
  Part000.showsTranslateButton card = true
  /\ Part000.translateText api e = (Normal tt, e).
Proof.
  intros Hr Hl Ht Ho. split.
  - unfold Part000.showsTranslateButton. apply jsstring_eqb_neq in Hl.
    rewrite Hl, Ht. reflexivity.
  - apply (@translateText_noop api e). right. exists card. auto.
Qed.

Lemma X10_translate_button_witness :
  present (oracle_text Demo.bears_en) = false
  /\ Part000.showsTranslateButton Demo.bears_en = true
  /\ Part000.translateText Demo.api {| state := Demo.showing Demo.bears_en; sent := [] |}
     = (Normal tt, {| state := Demo.showing Demo.bears_en; sent := [] |}).
Proof.
  split; [reflexivity|].
  assert (Hl : lang Demo.bears_en <> js "pt") by (cbv; discriminate).
  exact (@X10_translate_button_without_text Demo.api
           {| state := Demo.showing Demo.bears_en; sent := [] |} Demo.bears_en
           eq_refl Hl eq_refl eq_refl).
Defined.

(* --------------------------------------------------------------------- *)
(** ** Corner ordering for the perspective warp (part_001) *)
(* --------------------------------------------------------------------- *)

Example ex_sortedPts :
  Part001b.sortedPts [400; 20; 30; 10; 420; 600; 10; 580]%Z
  = [ {| Part001b.x := 30; Part001b.y := 10 |};
      {| Part001b.x := 400; Part001b.y := 20 |};
      {| Part001b.x := 420; Part001b.y := 600 |};
      {| Part001b.x := 10; Part001b.y := 580 |} ]%Z.
Proof. reflexivity. Qed.

Section SortFacts.
Variable key : Part001b.Point -> Z.

Lemma insert_by_perm (p : Part001b.Point) (l : list Part001b.Point) :
  Permutation (Part001b.insert_by key p l) (p :: l).
Proof.
  induction l as [|q l IH]; cbn; [reflexivity|].
  destruct (key p <=? key q)%Z; [reflexivity|].
  rewrite IH. apply perm_swap.
Qed.

Lemma sort_by_perm (l : list Part001b.Point) :
  Permutation (Part001b.sort_by key l) l.
Proof.
  induction l as [|p l IH]; cbn; [reflexivity|].
  rewrite insert_by_perm. apply perm_skip. exact IH.
Qed.

Lemma insert_by_sorted (p : Part001b.Point) (l : list Part001b.Point) :
  StronglySorted (fun a b => (key a <= key b)%Z) l ->
  StronglySorted (fun a b => (key a <= key b)%Z) (Part001b.insert_by key p l).
Proof.
  induction l as [|q l IH]; intros Hs; cbn.
  - constructor; constructor.
  - inversion Hs as [|? ? Hl Hq]; subst.
    destruct (key p <=? key q)%Z eqn:E.
    + apply Z.leb_le in E. constructor; [exact Hs|].
      constructor; [exact E|].
      eapply Forall_impl; [|exact Hq]. cbn. intros; lia.
    + apply Z.leb_gt in E. constructor; [exact (IH Hl)|].
      apply (Permutation_Forall (Permutation_sym (insert_by_perm p l))).
      constructor; [lia|exact Hq].
Qed.

Lemma sort_by_sorted (l : list Part001b.Point) :
  StronglySorted (fun a b => (key a <= key b)%Z) (Part001b.sort_by key l).
Proof.
  induction l as [|p l IH]; cbn; [constructor|].
  apply insert_by_sorted. exact IH.
Qed.

End SortFacts.

(** X11.  The corner ordering of [warpCard]: for a contour of four
    points the result lists the same four points, the two with the
    smaller y first and, of these, the one with the smaller x first
    (top-left, top-right), then the two with the larger y, the one with
    the larger x first (bottom-right, bottom-left). *)
Theorem X11_warpCard_corner_order (data32S : list Z) :
  length data32S = 8%nat ->
  exists tl tr br bl,
    Part001b.sortedPts data32S = [tl; tr; br; bl]
    /\ Permutation [tl; tr; br; bl] (Part001b.corners data32S)
    /\ (Part001b.x tl <= Part001b.x tr)%Z
    /\ (Part001b.x bl <= Part001b.x br)%Z
    /\ (Part001b.y tl <= Part001b.y br)%Z /\ (Part001b.y tl <= Part001b.y bl)%Z
    /\ (Part001b.y tr <= Part001b.y br)%Z /\ (Part001b.y tr <= Part001b.y bl)%Z.
Proof.
  intros _. unfold Part001b.sortedPts.
  pose proof (sort_by_perm Part001b.y (Part001b.corners data32S)) as Hperm.
  pose proof (sort_by_sorted Part001b.y (Part001b.corners data32S)) as Hsorted.
  pose proof (Permutation_length Hperm) as Hlen.
  remember (Part001b.sort_by Part001b.y (Part001b.corners data32S)) as pts eqn:Hpts.
  clear Hpts. cbn [Part001b.corners length] in Hlen.
  destruct pts as [|a [|b [|c [|d [|? ?]]]]]; try discriminate.
  inversion Hsorted as [|? ? Hs1 Ha]; subst.
  inversion Hs1 as [|? ? Hs2 Hb]; subst.
  inversion Ha as [|? ? Hab Ha']; subst. inversion Ha' as [|? ? Hac Ha'']; subst.
  inversion Ha'' as [|? ? Had _]; subst.
  inversion Hb as [|? ? Hbc Hb']; subst. inversion Hb' as [|? ? Hbd _]; subst.
  cbn [firstn skipn Part001b.sort_by fold_right Part001b.insert_by].
  destruct (Part001b.x a <=? Part001b.x b)%Z eqn:Eab;
    destruct (Part001b.x c <=? Part001b.x d)%Z eqn:Ecd;
    try apply Z.leb_le in Eab; try apply Z.leb_gt in Eab;
    try apply Z.leb_le in Ecd; try apply Z.leb_gt in Ecd;
    do 4 eexists; (split; [reflexivity|]);
    (split; [|repeat split; lia]);
    (etransitivity; [|exact Hperm]).
  - apply perm_skip, perm_skip, perm_swap.
  - reflexivity.
  - etransitivity; [apply perm_swap|]. apply perm_skip, perm_skip, perm_swap.
  - apply perm_swap.
Qed.

Lemma X11_warpCard_corner_order_witness :
  length [400; 20; 30; 10; 420; 600; 10; 580]%Z = 8%nat
  /\ exists tl tr br bl,
       Part001b.sortedPts [400; 20; 30; 10; 420; 600; 10; 580]%Z = [tl; tr; br; bl]
       /\ (Part001b.x tl <= Part001b.x tr)%Z.
Proof.
  split; [reflexivity|].
  destruct (@X11_warpCard_corner_order [400; 20; 30; 10; 420; 600; 10; 580]%Z eq_refl)
    as (tl & tr & br & bl & Hs & _ & Hx & _).
  exists tl, tr, br, bl. split; assumption.
Defined.

(* --------------------------------------------------------------------- *)
(** ** Lens switching (part_006) *)
(* --------------------------------------------------------------------- *)

(** X12.  [switchLens] of part_006 with at least two cameras and an
    active index inside the list: the next index is inside the list too
    and differs from the active one, and switching as many times as
    there are cameras comes back to the lens one started from. *)
Theorem X12_switchLens_cycles (n i : nat) :
  (2 <= n)%nat -> (i < n)%nat ->
  (exists j, Part006.switchLens n i = Some j /\ (j < n)%nat /\ j <> i)
  /\ Nat.iter n (fun k => match Part006.switchLens n k with
                          | Some j => j
                          | None => k
                          end) i = i.
Proof.
  intros Hn Hi. unfold Part006.switchLens.
  assert (Hg : (n <? 2)%nat = false) by (apply Nat.ltb_ge; lia).
  rewrite Hg. split.
  - exists ((i + 1) mod n)%nat. split; [reflexivity|]. split.
    + apply Nat.mod_upper_bound. lia.
    + destruct (Nat.eq_dec (i + 1) n) as [E|E].
      * rewrite E, Nat.Div0.mod_same. lia.
      * rewrite Nat.mod_small by lia. lia.
  - assert (Hk : forall k,
              Nat.iter k (fun k0 => (k0 + 1) mod n)%nat i = ((i + k) mod n)%nat).
    { induction k as [|k IH]; cbn [Nat.iter nat_rect].
      - rewrite Nat.add_0_r, Nat.mod_small by lia. reflexivity.
      - unfold Nat.iter in IH. rewrite IH, Nat.Div0.add_mod_idemp_l.
        f_equal. lia. }
    rewrite Hk.
    replace (i + n)%nat with (i + 1 * n)%nat by lia.
    rewrite Nat.Div0.mod_add. apply Nat.mod_small. exact Hi.
Qed.

Lemma X12_switchLens_cycles_witness :
  (2 <= 3)%nat /\ (1 < 3)%nat
  /\ Nat.iter 3 (fun k => match Part006.switchLens 3 k with
                          | Some j => j
                          | None => k
                          end) 1%nat = 1%nat.
Proof.
  assert (Hn : (2 <= 3)%nat) by lia.
  assert (Hi : (1 < 3)%nat) by lia.
  split; [exact Hn|]. split; [exact Hi|].
  exact (proj2 (X12_switchLens_cycles Hn Hi)).
Defined.

(* --------------------------------------------------------------------- *)
(** ** White space after cleaning (part_004, first component) *)
(* --------------------------------------------------------------------- *)

Lemma collapse_white_only_spaces (s : jsstring) :
  forallb (fun c => negb (is_white c) || (c =? 32)%N) (collapse_white s) = true.
Proof.
  induction s as [|c s IH]; [reflexivity|].
  cbn [collapse_white].
  destruct (is_white c) eqn:Ew.
  - destruct s as [|d s']; [reflexivity|].
    destruct (is_white d); [exact IH|].
    cbn [forallb]. rewrite IH. reflexivity.
  - cbn [forallb]. rewrite Ew, IH. reflexivity.
Qed.

Lemma collapse_white_no_run (s pre post : jsstring) (a b : code_unit) :
  collapse_white s = pre ++ a :: b :: post ->
  is_white a = true -> is_white b = false.
Proof.
  revert pre. induction s as [|c s IH]; intros pre H Ha.
  - destruct pre; discriminate.
  - cbn [collapse_white] in H. destruct (is_white c) eqn:Ew.
    + destruct s as [|d s'].
      * destruct pre as [|? [|? ?]]; discriminate.
      * destruct (is_white d) eqn:Ed.
        -- exact (IH pre H Ha).
        -- destruct pre as [|p pre].
           ++ cbn [collapse_white] in H. rewrite Ed in H.
              cbn in H. injection H as _ <- _. exact Ed.
           ++ cbn in H. injection H as _ H. exact (IH pre H Ha).
    + destruct pre as [|p pre].
      * cbn in H. injection H as <- _. congruence.
      * cbn in H. injection H as _ H. exact (IH pre H Ha).
Qed.

(** X13.  The cleaned text of the title-only scanner holds nothing but
    Latin letters and the space U+0020, and never two white-space code
    units in a row: tabs, line breaks and runs of blanks in the
    recognized text, and every run of foreign characters, come out as
    one space. *)
Theorem X13_cleanedText_single_spaces (text : jsstring) :
  forallb (fun c => is_letter c || (c =? 32)%N) (Part004a.cleanedText text) = true
  /\ forall pre a b post,
       Part004a.cleanedText text = pre ++ a :: b :: post ->
       is_white a = true -> is_white b = false.
Proof.
  split.
  - pose proof (proj1 (proj2 (cleaning_keeps_only_letters_and_white text))) as Hk.
    unfold Part004a.cleanedText in *.
    pose proof (collapse_white_only_spaces (replace_non_name (js " ") (trim text))) as Hs.
    rewrite forallb_forall in *. intros c Hc.
    specialize (Hk c Hc). specialize (Hs c Hc).
    destruct (is_letter c); [reflexivity|]. cbn in *.
    rewrite Hk in Hs. exact Hs.
  - intros pre a b post. unfold Part004a.cleanedText. apply collapse_white_no_run.
Qed.

Lemma X13_cleanedText_witness :
  Part004a.cleanedText (js "Lightning   9 Bolt") = js "Lightning" ++ 32%N :: 66%N :: js "olt"
  /\ is_white 32%N = true
  /\ is_white 66%N = false.
Proof.
  assert (H : Part004a.cleanedText (js "Lightning   9 Bolt")
              = js "Lightning" ++ 32%N :: 66%N :: js "olt") by (vm_compute; reflexivity).
  split; [exact H|]. split; [reflexivity|].
  exact (proj2 (X13_cleanedText_single_spaces (js "Lightning   9 Bolt"))
           (js "Lightning") 32%N 66%N (js "olt") H eq_refl).
Defined.

(* --------------------------------------------------------------------- *)
(** ** [searchCard] of the title-only scanners *)
(* --------------------------------------------------------------------- *)

Example ex_searchCard_part003 :
  requests (Part003.searchCard Demo.api (js "Lightning Bolt")) Demo.idle
  = [GetNamedFuzzy (js "Lightning Bolt"); GetSearchPT (js "Lightning Bolt")]
  /\ result (exec (Part003.searchCard Demo.api (js "Lightning Bolt")) Demo.idle)
     = Some Demo.bolt_pt.
Proof. vm_compute. split; reflexivity. Qed.

(** X14.  In [searchCard] of part_003 the search for a Portuguese
    printing shares the [try] of the fuzzy lookup.  For a name that can
    be URI-encoded (every cleaned text is such): when the lookup has
    found a card that is not Portuguese and the secondary search is
    rejected or its body cannot be read, the card that was found is not
    shown: the record stays what it was and the not-found message is
    written.  When the secondary search is answered with an error status
    instead, the card that was found is shown.  A name that cannot be
    URI-encoded is not sent at all, and the not-found message is
    written. *)
Theorem X14_part003_secondary_failure_drops_card (api : Backend) (name : jsstring)
    (card : CardData) (e : Env) :
  named_fuzzy api name = Answered true (Some card) ->
  lang card <> js "pt" ->
  (isWellFormed name = true ->
   (search_pt api (Card.name card) = Rejected
    \/ search_pt api (Card.name card) = Answered true None ->
    Part003.searchCard api name e
    = (Normal tt,
       {| state := {| result := result (state e); loading := loading (state e);
                      error := Some (js "Carta não encontrada no banco de dados Scryfall.");
                      debugText := debugText (state e) |};
          sent := sent e ++ [GetNamedFuzzy name; GetSearchPT (Card.name card)] |}))
   /\ (forall b, search_pt api (Card.name card) = Answered false b ->
       Part003.searchCard api name e
       = (Normal tt,
          {| state := {| result := Some card; loading := loading (state e);
                         error := error (state e); debugText := debugText (state e) |};
             sent := sent e ++ [GetNamedFuzzy name; GetSearchPT (Card.name card)] |})))
  /\ (isWellFormed name = false ->
      Part003.searchCard api name e
      = (Normal tt,
         {| state := {| result := result (state e); loading := loading (state e);
                        error := Some (js "Carta não encontrada no banco de dados Scryfall.");
                        debugText := debugText (state e) |};
            sent := sent e |})).
Proof.
  intros Hn Hl. apply jsstring_eqb_neq in Hl.
  unfold Part003.searchCard. async_unfold.
  split; intros Hw; rewrite Hw; [|reflexivity].
  rewrite Hn. cbn -[js jsstring_eqb]. rewrite Hl. cbn -[js].
  split.
  - intros [H|H]; rewrite H; cbn -[js]; log_norm; reflexivity.
  - intros b H. rewrite H. destruct b as [[|]|]; cbn -[js]; log_norm; reflexivity.
Qed.

Lemma X14_part003_secondary_failure_witness :
  let api := {| card_by_number := card_by_number Demo.api;
                autocomplete := autocomplete Demo.api;
                named_fuzzy := named_fuzzy Demo.api;
                search_pt := fun _ => Rejected;
                translation := translation Demo.api |} in
  named_fuzzy api (js "Shock") = Answered true (Some Demo.shock_en)
  /\ isWellFormed (js "Shock") = true
  /\ result (state (snd (Part003.searchCard api (js "Shock")
                           {| state := Demo.idle; sent := [] |}))) = None.
Proof.
  cbv zeta. split; [vm_compute; reflexivity|]. split; [reflexivity|].
  assert (Hl : lang Demo.shock_en <> js "pt") by (cbv; discriminate).
  rewrite (proj1 (proj1 (@X14_part003_secondary_failure_drops_card
                    {| card_by_number := card_by_number Demo.api;
                       autocomplete := autocomplete Demo.api;
                       named_fuzzy := named_fuzzy Demo.api;
                       search_pt := fun _ => Rejected;
                       translation := translation Demo.api |}
                    (js "Shock") Demo.shock_en {| state := Demo.idle; sent := [] |}
                    ltac:(vm_compute; reflexivity) Hl) eq_refl) (or_introl eq_refl)).
  reflexivity.
Defined.

(** X15.  [searchCard] of part_004 (first component) never throws and
    ends in one of two ways: a card is shown, and that card carries no
    translation whatever the catalog sent in [translated_text], or the
    handler's message is written and the record stays what it was. *)
Theorem X15_part004a_searchCard_outcome (api : Backend) (name : jsstring) (e : Env) :
  exists after more,
    Part004a.searchCard api name e
    = (Normal tt, {| state := after; sent := sent e ++ more |})
    /\ ((exists shown, shows_card (state e) after shown /\ translated_text shown = None)
        \/ reports_error (state e) after).
Proof.
  unfold Part004a.searchCard, shows_card, reports_error.
  async_crush; log_norm; show_run; eauto.
Qed.

(* --------------------------------------------------------------------- *)
(** ** The translate handlers that do not look at the rules text *)
(* --------------------------------------------------------------------- *)

Example ex_translate_without_rules_text :
  requests (Part006.translate Demo.api) (Demo.showing Demo.bears_en) = [GetTranslation []]
  /\ requests (Part000.translateText Demo.api) (Demo.showing Demo.bears_en) = [].
Proof. vm_compute. split; reflexivity. Qed.

Lemma Part006_translate_run (api : Backend) (e : Env) (card : CardData) :
  result (state e) = Some card ->
  let q := or_text (oracle_text card) [] in
  Part006.translate api e
  = (Normal tt, {| state := translate_outcome (js "Tradução falhou.") api card q (state e);
                   sent := sent e ++ (if isWellFormed q then [GetTranslation q] else []) |}).
Proof.
  intros Hr q. unfold Part006.translate, translate_outcome. async_unfold. rewrite Hr.
  cbn -[js]. fold q.
  destruct (isWellFormed q); cbn -[js]; [|rewrite ?Hr, app_nil_r; reflexivity].
  destruct (translation api q) as [|okf [[items|]|]]; cbn -[js]; rewrite ?Hr; reflexivity.
Qed.

Lemma Part004b_translateText_run (api : Backend) (e : Env) (card : CardData) :
  result (state e) = Some card ->
  let q := or_text (oracle_text card) (or_text (printed_text card) []) in
  Part004b.translateText api e
  = (Normal tt, {| state := translate_outcome (js "Erro na tradução.") api card q (state e);
                   sent := sent e ++ (if isWellFormed q then [GetTranslation q] else []) |}).
Proof.
  intros Hr q. unfold Part004b.translateText, translate_outcome. async_unfold. rewrite Hr.
  cbn -[js]. fold q.
  destruct (isWellFormed q); cbn -[js]; [|rewrite ?Hr, app_nil_r; reflexivity].
  destruct (translation api q) as [|okf [[items|]|]]; cbn -[js]; rewrite ?Hr; reflexivity.
Qed.

(** What the reply makes of the state. *)
Lemma translate_outcome_facts (failure : jsstring) (api : Backend) (card : CardData)
    (text : jsstring) (s : State) :
  let after := translate_outcome failure api card text s in
  loading after = false
  /\ debugText after = debugText s
  /\ (forall okf items,
        isWellFormed text = true ->
        translation api text = Answered okf (Some (Some items)) ->
        error after = error s
        /\ exists shown, result after = Some shown
                         /\ translated_as card shown (join_segments items))
  /\ (isWellFormed text = false \/ translation_failed api text ->
      result after = Some card /\ error after = Some failure).
Proof.
  cbv zeta. unfold translate_outcome, translation_failed.
  destruct (isWellFormed text); cbn.
  - destruct (translation api text) as [|okf [[items|]|]] eqn:Et; cbn;
      (split; [reflexivity|]); (split; [reflexivity|]); split;
      try (intros okf' items' _ Heq; discriminate);
      try (intros _; split; reflexivity).
    + intros okf' items' _ Heq. injection Heq as _ <-. split; [reflexivity|].
      eexists. split; [reflexivity|apply with_translated_text_as].
    + intros [H|H]; [discriminate|exfalso]. reply_facts.
  - repeat split; auto; discriminate.
Qed.

(** X16.  [translate] of part_006 and of part_001 (the same handler)
    and [translateText] of part_004 (second component), with a card
    shown, never throw and release the busy flag.  The query is the
    rules text, or the printed text in part_004 when there is no rules
    text, or the empty string; when it can be URI-encoded exactly one
    translation request is sent, whatever the card holds, and otherwise
    none.  When the query is sent and the service answers with segments,
    the record shown afterwards carries the segments joined in order in
    [translated_text] and every other field as before, and the error
    message is untouched; when the query cannot be URI-encoded or the
    call fails, the record stays what it was and the variant's message is
    written.  So for a card without rules text these handlers still call
    the service, with an empty query, where [translateText] of part_000
    does nothing. *)
Theorem X16_translate_variants (api : Backend) (e : Env) (card : CardData) :
  result (state e) = Some card ->
  let q := or_text (oracle_text card) [] in
  let q4 := or_text (oracle_text card) (or_text (printed_text card) []) in
  let live := Part006.translate api e in
  let zone := Part004b.translateText api e in
  Part001.translate api e = live
  /\ (fst live = Normal tt
      /\ loading (state (snd live)) = false
      /\ sent (snd live) = sent e ++ (if isWellFormed q then [GetTranslation q] else [])
      /\ (forall okf items,
            isWellFormed q = true ->
            translation api q = Answered okf (Some (Some items)) ->
            error (state (snd live)) = error (state e)
            /\ exists shown, result (state (snd live)) = Some shown
                             /\ translated_as card shown (join_segments items))
      /\ (isWellFormed q = false \/ translation_failed api q ->
          result (state (snd live)) = Some card
          /\ error (state (snd live)) = Some (js "Tradução falhou.")))
  /\ (fst zone = Normal tt
      /\ loading (state (snd zone)) = false
      /\ sent (snd zone) = sent e ++ (if isWellFormed q4 then [GetTranslation q4] else [])
      /\ (forall okf items,
            isWellFormed q4 = true ->
            translation api q4 = Answered okf (Some (Some items)) ->
            error (state (snd zone)) = error (state e)
            /\ exists shown, result (state (snd zone)) = Some shown
                             /\ translated_as card shown (join_segments items))
      /\ (isWellFormed q4 = false \/ translation_failed api q4 ->
          result (state (snd zone)) = Some card
          /\ error (state (snd zone)) = Some (js "Erro na tradução.")))
  /\ (present (oracle_text card) = false ->
      q = [] /\ sent (snd live) = sent e ++ [GetTranslation []]
      /\ Part000.translateText api e = (Normal tt, e)).
Proof.
  intros Hr q q4 live zone. subst live zone.
  split; [reflexivity|].
  rewrite (Part006_translate_run api e Hr), (Part004b_translateText_run api e Hr).
  fold q q4. cbn [fst snd state sent].
  pose proof (translate_outcome_facts (js "Tradução falhou.") api card q (state e))
    as (Hl & _ & Hok & Hko).
  pose proof (translate_outcome_facts (js "Erro na tradução.") api card q4 (state e))
    as (Hl4 & _ & Hok4 & Hko4).
  split; [split; [reflexivity|split; [exact Hl|split; [reflexivity|split;
            [exact Hok|exact Hko]]]]|].
  split; [split; [reflexivity|split; [exact Hl4|split; [reflexivity|split;
            [exact Hok4|exact Hko4]]]]|].
  intros Hp.
  assert (Hq : q = []).
  { subst q. unfold present, or_text in *.
    destruct (oracle_text card) as [t|]; [|reflexivity].
    destruct (truthy t); [discriminate|reflexivity]. }
  split; [exact Hq|]. rewrite Hq. split; [reflexivity|].
  exact (proj1 (@translateText_noop api e
                  (or_intror (ex_intro _ card (conj Hr Hp))))).
Qed.

Lemma X16_translate_variants_witness :
  result (Demo.showing Demo.bears_en) = Some Demo.bears_en
  /\ present (oracle_text Demo.bears_en) = false
  /\ sent (snd (Part006.translate Demo.api
                  {| state := Demo.showing Demo.bears_en; sent := [] |}))
     = [] ++ [GetTranslation []].
Proof.
  split; [reflexivity|]. split; [reflexivity|].
  exact (proj1 (proj2 (proj2 (proj2 (proj2
           (@X16_translate_variants Demo.api
              {| state := Demo.showing Demo.bears_en; sent := [] |}
              Demo.bears_en eq_refl))) eq_refl))).
Defined.

(* --------------------------------------------------------------------- *)
(** ** The binarization loops side by side *)
(* --------------------------------------------------------------------- *)

Lemma threshold_loop_fixed (first second : float -> float -> float -> bool)
    (data : Canvas.PixelArray) :
  second 0%float 0%float 0%float = false ->
  second 255%float 255%float 255%float = true ->
  Canvas.threshold_loop second (Canvas.threshold_loop first data)
  = Canvas.threshold_loop first data.
Proof.
  intros Hb Hw.
  induction data as [|r|r g|r g b|r g b a rest IH] using pixel_ind; try reflexivity.
  - cbn [Canvas.threshold_loop]. cbv zeta.
    rewrite (@black_or_white_fixed second Hb Hw). reflexivity.
  - cbn [Canvas.threshold_loop]. cbv zeta.
    rewrite (@black_or_white_fixed second Hb Hw), IH. reflexivity.
Qed.

Lemma binarizations_are_loops (f : Canvas.PixelArray -> Canvas.PixelArray) :
  In f binarizations ->
  exists bright, f = Canvas.threshold_loop bright
                 /\ bright 0%float 0%float 0%float = false
                 /\ bright 255%float 255%float 255%float = true.
Proof.
  unfold binarizations. cbn [In].
  intros [<-|[<-|[<-|[<-|[<-|[<-|[<-|[]]]]]]]];
    [exists Part000.bright | exists Part002.bright | exists Part003.bright
    | exists Part004a.bright | exists Part004b.bright | exists Part001.bright
    | exists Part006.bright];
    repeat split; reflexivity.
Qed.

(** X17.  The output of any of the seven binarization loops is left as
    it is by every one of them: whatever the weights and the cutoff,
    black stays black and white stays white.  In particular each loop is
    idempotent, also the four of part_004, part_001 and part_006. *)
Theorem X17_binarized_image_is_fixed (first second : Canvas.PixelArray -> Canvas.PixelArray)
    (data : Canvas.PixelArray) :
  In first binarizations -> In second binarizations ->
  second (first data) = first data.
Proof.
  intros H1 H2.
  destruct (binarizations_are_loops H1) as (b1 & -> & _ & _).
  destruct (binarizations_are_loops H2) as (b2 & -> & Hb & Hw).
  apply threshold_loop_fixed; assumption.
Qed.

Lemma X17_binarized_image_witness :
  In Part002.preprocessImage binarizations
  /\ In Part006.processImage binarizations
  /\ Part006.processImage (Part002.preprocessImage [x80; x90; x80; xff; x10; x10; x10; x7f])
     = Part002.preprocessImage [x80; x90; x80; xff; x10; x10; x10; x7f].
Proof.
  assert (H1 : In Part002.preprocessImage binarizations) by (cbn; auto).
  assert (H2 : In Part006.processImage binarizations) by (cbn; auto 10).
  split; [exact H1|]. split; [exact H2|].
  exact (@X17_binarized_image_is_fixed Part002.preprocessImage Part006.processImage
           [x80; x90; x80; xff; x10; x10; x10; x7f] H1 H2).
Defined.

(** X18.  Each of the seven binarization loops keeps the length of the
    buffer, and in every complete pixel of its output the red, green and
    blue bytes are equal, each 0 or 255, while the alpha byte is the one
    of the input. *)
Theorem X18_binarization_shape (f : Canvas.PixelArray -> Canvas.PixelArray)
    (data : Canvas.PixelArray) (i : nat) :
  In f binarizations ->
  (4 * i + 3 < length data)%nat ->
  length (f data) = length data
  /\ nth (4 * i + 1) (f data) x00 = nth (4 * i) (f data) x00
  /\ nth (4 * i + 2) (f data) x00 = nth (4 * i) (f data) x00
  /\ (nth (4 * i) (f data) x00 = x00 \/ nth (4 * i) (f data) x00 = xff)
  /\ nth (4 * i + 3) (f data) x00 = nth (4 * i + 3) data x00.
Proof.
  intros Hf Hi.
  destruct (binarizations_are_loops Hf) as (b & -> & _ & _).
  split; [apply threshold_loop_length|].
  apply threshold_loop_pixels. exact Hi.
Qed.

Lemma X18_binarization_shape_witness :
  In Part004b.processZone binarizations
  /\ (4 * 0 + 3 < length [x80; x90; x80; x33])%nat
  /\ nth (4 * 0 + 3) (Part004b.processZone [x80; x90; x80; x33]) x00 = x33.
Proof.
  assert (Hf : In Part004b.processZone binarizations) by (cbn; auto 10).
  assert (Hi : (4 * 0 + 3 < length [x80; x90; x80; x33])%nat) by (cbn; lia).
  split; [exact Hf|]. split; [exact Hi|].
  exact (proj2 (proj2 (proj2 (proj2
           (@X18_binarization_shape Part004b.processZone [x80; x90; x80; x33] 0 Hf Hi))))).
Defined.

(* --------------------------------------------------------------------- *)
(** ** The mean-of-channels cutoffs in integers *)
(* --------------------------------------------------------------------- *)

Lemma forallb_seq (f : nat -> bool) (n i : nat) :
  forallb f (seq 0 n) = true -> (i < n)%nat -> f i = true.
Proof.
  intros H Hi. rewrite forallb_forall in H. apply H, in_seq. lia.
Qed.

(** Sums of colour bytes are exact in double precision. *)
Lemma double_of_add (m n : nat) :
  (m <= 510)%nat -> (n <= 255)%nat ->
  (double_of (Z.of_nat m) + double_of (Z.of_nat n))%float = double_of (Z.of_nat (m + n)).
Proof.
  intros Hm Hn. apply FloatAxioms.Leibniz.eqb_spec.
  assert (H : forallb (fun m => forallb (fun n =>
                PrimFloat.Leibniz.eqb
                  (double_of (Z.of_nat m) + double_of (Z.of_nat n))%float
                  (double_of (Z.of_nat (m + n)))) (seq 0 256)) (seq 0 511) = true)
    by (vm_compute; reflexivity).
  apply (forallb_seq _ (n := 511) (i := m)) in H; [|lia].
  apply (forallb_seq _ (n := 256) (i := n)) in H; [|lia].
  exact H.
Qed.

Lemma channel_nat (b : byte) :
  exists n, (n <= 255)%nat /\ channel b = Z.of_nat n
            /\ Canvas.number_of_byte b = double_of (Z.of_nat n).
Proof.
  exists (N.to_nat (Byte.to_N b)). pose proof (Byte.to_N_bounded b) as Hb.
  unfold channel, Canvas.number_of_byte, double_of.
  rewrite N_nat_Z. repeat split. lia.
Qed.

(** The mean of three bytes against an integer cutoff. *)
Lemma mean_cutoff (cutoff : float) (bound : Z) :
  forallb (fun s => Bool.eqb (cutoff <? double_of (Z.of_nat s) / 3)%float
                             (bound <? Z.of_nat s)%Z) (seq 0 766) = true ->
  forall r g b : byte,
    (cutoff <? (Canvas.number_of_byte r + Canvas.number_of_byte g
                + Canvas.number_of_byte b) / 3)%float
    = (bound <? channel r + channel g + channel b)%Z.
Proof.
  intros H r g b.
  destruct (channel_nat r) as (i & Hi & -> & ->).
  destruct (channel_nat g) as (j & Hj & -> & ->).
  destruct (channel_nat b) as (k & Hk & -> & ->).
  rewrite double_of_add by lia. rewrite double_of_add by lia.
  apply (forallb_seq _ (n := 766) (i := (i + j + k)%nat)) in H; [|lia].
  apply Bool.eqb_prop in H. rewrite H. f_equal. lia.
Qed.

(** X19.  The three loops that compare the mean of the channels with a
    cutoff, computed in double precision, decide as integer arithmetic
    on the sum of the three bytes would: a pixel becomes white exactly
    when the sum exceeds 384 in part_003 (cutoff 128), 345 in part_006
    (cutoff 115) and 330 in part_001 (cutoff 110).  So what part_003
    paints white part_006 paints white, and what part_006 paints white
    part_001 paints white. *)
Theorem X19_mean_cutoffs_in_integers (r g b : byte) :
  let sum := (channel r + channel g + channel b)%Z in
  let bright3 := Part003.bright (Canvas.number_of_byte r) (Canvas.number_of_byte g)
                   (Canvas.number_of_byte b) in
  let bright6 := Part006.bright (Canvas.number_of_byte r) (Canvas.number_of_byte g)
                   (Canvas.number_of_byte b) in
  let bright1 := Part001.bright (Canvas.number_of_byte r) (Canvas.number_of_byte g)
                   (Canvas.number_of_byte b) in
  bright3 = (384 <? sum)%Z
  /\ bright6 = (345 <? sum)%Z
  /\ bright1 = (330 <? sum)%Z
  /\ (bright3 = true -> bright6 = true)
  /\ (bright6 = true -> bright1 = true).
Proof.
  cbv zeta. unfold Part003.bright, Part006.bright, Part001.bright.
  rewrite (@mean_cutoff 128%float 384%Z ltac:(vm_compute; reflexivity) r g b).
  rewrite (@mean_cutoff 115%float 345%Z ltac:(vm_compute; reflexivity) r g b).
  rewrite (@mean_cutoff 110%float 330%Z ltac:(vm_compute; reflexivity) r g b).
  repeat split; rewrite !Z.ltb_lt; lia.
Qed.

(* --------------------------------------------------------------------- *)
(** ** Scans that stop after the footer (part_004, second component) *)
(* --------------------------------------------------------------------- *)

(** X20.  In [captureAndScan] of part_004 (second component) a footer
    that matches settles the scan: the lookup by set and number is the
    first request, at most one search for a Portuguese printing follows
    it, and the name search is never made, whatever the catalog answers.
    On an error status the message announces a search by name, yet
    nothing more is sent and the record stays what it was. *)
Theorem X20_part004b_footer_settles_scan (api : Backend) (titleText text g1 g2 : jsstring)
    (e : Env) :
  Part004b.infoMatch text = Some (g1, g2) ->
  exists after more,
    Part004b.captureAndScan api (Some (titleText, text)) e
    = (Normal tt, {| state := after;
                     sent := sent e ++ GetCardByNumber (toLowerCase g1) g2 :: more |})
    /\ (more = [] \/ exists n, more = [GetSearchPT n])
    /\ loading after = false
    /\ debugText after = []
    /\ (forall b, card_by_number api (toLowerCase g1) g2 = Answered false b ->
        more = []
        /\ result after = result (state e)
        /\ error after
           = Some (js "Info de rodapé não encontrada no banco. Tentando por nome...")).
Proof.
  intros Hm. unfold Part004b.captureAndScan, Part004b.searchByInfo, Part004b.fetchPTVersion.
  rewrite Hm. async_unfold. cbn -[js toLowerCase app].
  destruct (card_by_number api (toLowerCase g1) g2) as [|[|] [card|]] eqn:Ec;
    cbn -[js toLowerCase app];
    try (destruct (jsstring_eqb (lang card) (js "pt")); cbn -[js toLowerCase app];
         try (destruct (search_pt api (name card)) as [|[|] [[[|first rest]|]|]];
              cbn -[js toLowerCase app]));
    log_norm; do 2 eexists; (split; [reflexivity|]);
    (split; [eauto|]); repeat split; try discriminate;
    try (intros b Hb; injection Hb as _; repeat split; reflexivity).
Qed.

Lemma X20_part004b_footer_witness :
  Part004b.infoMatch (js "LEA 161") = Some (js "LEA", js "161")
  /\ exists after more,
       Part004b.captureAndScan Demo.api (Some (js "Lightning Bolt", js "LEA 161"))
         {| state := Demo.idle; sent := [] |}
       = (Normal tt, {| state := after;
                        sent := [] ++ GetCardByNumber (toLowerCase (js "LEA")) (js "161") :: more |})
       /\ (more = [] \/ exists n, more = [GetSearchPT n]).
Proof.
  assert (Hm : Part004b.infoMatch (js "LEA 161") = Some (js "LEA", js "161"))
    by (vm_compute; reflexivity).
  split; [exact Hm|].
  destruct (@X20_part004b_footer_settles_scan Demo.api (js "Lightning Bolt") (js "LEA 161")
              (js "LEA") (js "161") {| state := Demo.idle; sent := [] |} Hm)
    as (after & more & Heq & Hmore & _).
  exists after, more. split; [exact Heq|exact Hmore].
Defined.

(* --------------------------------------------------------------------- *)
(** ** The scan of part_003 *)
(* --------------------------------------------------------------------- *)

Example ex_part003_scan :
  requests (Part003.captureAndScan Demo.api (Some (js "  Lightning Bolt "))) Demo.idle
  = [GetNamedFuzzy (js "Lightning Bolt"); GetSearchPT (js "Lightning Bolt")].
Proof. vm_compute. reflexivity. Qed.

(** X21.  [captureAndScan] of part_003 never throws and always clears
    the busy flag.  It sends at most two requests, a fuzzy lookup of the
    cleaned text and a search for a Portuguese printing.  When the
    recognition fails, nothing is sent and the OCR message is written;
    when the cleaned text has three code units or fewer, nothing is sent,
    the focus message is written and the cleaned text is left in the
    debug line; in both cases the record stays what it was. *)
Theorem X21_part003_scan (api : Backend) (recognized : option jsstring) (e : Env) :
  exists after more,
    Part003.captureAndScan api recognized e
    = (Normal tt, {| state := after; sent := sent e ++ more |})
    /\ loading after = false
    /\ (more = []
        \/ (exists text, recognized = Some text
              /\ (3 < length (Part003.cleanedText text))%nat
              /\ debugText after = Part003.cleanedText text
              /\ (more = [GetNamedFuzzy (Part003.cleanedText text)]
                  \/ exists n, more = [GetNamedFuzzy (Part003.cleanedText text);
                                       GetSearchPT n])))
    /\ (recognized = None ->
        more = [] /\ result after = result (state e)
        /\ error after = Some (js "Erro no processamento OCR."))
    /\ (forall text, recognized = Some text ->
        (length (Part003.cleanedText text) <= 3)%nat ->
        more = [] /\ result after = result (state e)
        /\ debugText after = Part003.cleanedText text
        /\ error after
           = Some (js "Não foi possível ler o nome da carta. Tente focar melhor no título.")).
Proof.
  unfold Part003.captureAndScan, Part003.searchCard.
  destruct recognized as [text|].
  - destruct (3 <? length (Part003.cleanedText text))%nat eqn:El.
    + apply Nat.ltb_lt in El.
      assert (Hwf : isWellFormed (Part003.cleanedText text) = true)
        by (apply letters_white_wellformed, replace_non_name_chars; reflexivity).
      async_unfold. cbn -[js Part003.cleanedText isWellFormed].
      rewrite Hwf. cbn -[js Part003.cleanedText].
      destruct (named_fuzzy api (Part003.cleanedText text)) as [|[|] [card|]];
        cbn -[js Part003.cleanedText];
        try (destruct (jsstring_eqb (lang card) (js "pt")); cbn -[js Part003.cleanedText];
             try (destruct (search_pt api (name card)) as [|[|] [[[|first rest]|]|]];
                  cbn -[js Part003.cleanedText]));
        log_norm; do 2 eexists; (split; [reflexivity|]); (split; [reflexivity|]);
        (split; [right; exists text; repeat split; eauto|]);
        (split; [discriminate|]); intros t Ht Hle; injection Ht as <-; lia.
    + pose proof El as El'. apply Nat.ltb_ge in El'.
      async_unfold. cbn -[js Part003.cleanedText].
      eexists. exists nil. rewrite app_nil_r.
      split; [reflexivity|]. split; [reflexivity|]. split; [left; reflexivity|].
      split; [discriminate|]. intros t Ht _. injection Ht as <-. repeat split.
  - async_unfold. cbn -[js]. eexists. exists nil. rewrite app_nil_r.
    split; [reflexivity|]. split; [reflexivity|]. split; [left; reflexivity|].
    split; [repeat split|]. intros t Ht. discriminate.
Qed.

(* --------------------------------------------------------------------- *)
(** ** The photo screen against the live screen (part_001, part_006) *)
(* --------------------------------------------------------------------- *)

(** What [fetchPTVersion] shows and sends depends on the card alone. *)
Lemma fetchPTVersion_uniform (api : Backend) (card : CardData) :
  exists shown more, forall e,
    Part000.fetchPTVersion api card e
    = (Normal tt,
       {| state := {| result := Some shown; loading := loading (state e);
                      error := error (state e); debugText := debugText (state e) |};
          sent := sent e ++ more |}).
Proof.
  unfold Part000.fetchPTVersion.
  destruct (jsstring_eqb (lang card) (js "pt")).
  - exists card, []. intros e. rewrite app_nil_r. reflexivity.
  - async_unfold.
    destruct (search_pt api (name card)) as [|[|] [[[|first rest]|]|]];
      eexists _, [_]; intros e; reflexivity.
Qed.

(** Two runs that start with the same log and the same record end
    alike, whatever the other cells hold. *)
Lemma searchByName_agree (api : Backend) (name : jsstring) (e1 e6 : Env) :
  sent e1 = sent e6 -> result (state e1) = result (state e6) ->
  exists log s1 s6,
    Part001.searchByName api name e1 = (Normal tt, {| state := s1; sent := log |})
    /\ Part006.searchByName api name e6 = (Normal tt, {| state := s6; sent := log |})
    /\ result s1 = result s6.
Proof.
  destruct e1 as [[r1 l1 er1 d1] log1], e6 as [[r6 l6 er6 d6] log6]. cbn [sent state result].
  intros <- <-. unfold Part001.searchByName, Part006.searchByName.
  async_unfold.
  destruct (isWellFormed name);
    cbn -[Part001.fetchPTVersion Part006.fetchPTVersion first_or isWellFormed js];
    [|do 3 eexists; repeat split].
  destruct (autocomplete api name) as [|okf [suggestions|]];
    cbn -[Part001.fetchPTVersion Part006.fetchPTVersion first_or isWellFormed js];
    [do 3 eexists; repeat split| |do 3 eexists; repeat split].
  destruct (isWellFormed (first_or suggestions name));
    cbn -[Part001.fetchPTVersion Part006.fetchPTVersion first_or isWellFormed js];
    [|do 3 eexists; repeat split].
  destruct (named_fuzzy api (first_or suggestions name)) as [|[|] [card|]];
    cbn -[Part001.fetchPTVersion Part006.fetchPTVersion first_or isWellFormed js];
    [do 3 eexists; repeat split| |do 3 eexists; repeat split
    |do 3 eexists; repeat split|do 3 eexists; repeat split].
  destruct (fetchPTVersion_uniform api card) as (shown & more & H).
  change (Part001.fetchPTVersion api card) with (Part000.fetchPTVersion api card).
  change (Part006.fetchPTVersion api card) with (Part000.fetchPTVersion api card).
  rewrite !H. cbn. do 3 eexists; repeat split.
Qed.

Lemma searchBySet_agree (api : Backend) (set_code num : jsstring) (e1 e6 : Env) :
  sent e1 = sent e6 -> result (state e1) = result (state e6) ->
  exists log s1 s6,
    Part001.searchBySet api set_code num e1 = (Normal tt, {| state := s1; sent := log |})
    /\ Part006.searchBySet api set_code num e6 = (Normal tt, {| state := s6; sent := log |})
    /\ result s1 = result s6.
Proof.
  destruct e1 as [[r1 l1 er1 d1] log1], e6 as [[r6 l6 er6 d6] log6]. cbn [sent state result].
  intros <- <-. unfold Part001.searchBySet, Part006.searchBySet.
  async_unfold.
  destruct (card_by_number api (toLowerCase set_code) num) as [|[|] [card|]];
    cbn -[Part001.fetchPTVersion Part006.fetchPTVersion Part001.searchByName
          Part006.searchByName js app].
  - do 3 eexists; repeat split.
  - destruct (fetchPTVersion_uniform api card) as (shown & more & H).
    change (Part001.fetchPTVersion api card) with (Part000.fetchPTVersion api card).
    change (Part006.fetchPTVersion api card) with (Part000.fetchPTVersion api card).
    rewrite !H. cbn. do 3 eexists; repeat split.
  - do 3 eexists; repeat split.
  - match goal with
    | |- context [Part001.searchByName _ ?n ?a] =>
        match goal with
        | |- context [Part006.searchByName _ n ?b] =>
            destruct (@searchByName_agree api n a b eq_refl eq_refl)
              as (log & s1 & s6 & E1 & E6 & Hr);
            rewrite E1, E6
        end
    end. do 3 eexists. split; [reflexivity|]. split; [reflexivity|exact Hr].
  - match goal with
    | |- context [Part001.searchByName _ ?n ?a] =>
        match goal with
        | |- context [Part006.searchByName _ n ?b] =>
            destruct (@searchByName_agree api n a b eq_refl eq_refl)
              as (log & s1 & s6 & E1 & E6 & Hr);
            rewrite E1, E6
        end
    end. do 3 eexists. split; [reflexivity|]. split; [reflexivity|exact Hr].
Qed.

(** X22.  On the same recognized text with a footer that matches,
    [processPhoto] of part_001 and [captureAndScan] of part_006 send the
    same requests in the same order and end with the same record, the
    busy flag cleared and the debug line emptied: the two screens differ
    in their messages only. *)
Theorem X22_photo_and_live_lookups_agree (api : Backend) (titleText infoText g1 g2 : jsstring)
    (e : Env) :
  Regex.match_alnum_run infoText = Some (g1, g2) ->
  let photo := snd (Part001.processPhoto api (Some (titleText, infoText)) e) in
  let live := snd (Part006.captureAndScan api (Some (titleText, infoText)) e) in
  sent photo = sent live
  /\ result (state photo) = result (state live)
  /\ loading (state photo) = false /\ loading (state live) = false
  /\ debugText (state photo) = [] /\ debugText (state live) = [].
Proof.
  intros Hm. cbv zeta.
  unfold Part001.processPhoto, Part006.captureAndScan, Part001.codes, Part006.codes.
  rewrite Hm. async_unfold.
  cbn -[Part001.searchBySet Part006.searchBySet js].
  match goal with
  | |- context [Part001.searchBySet _ _ _ ?a] =>
      match goal with
      | |- context [Part006.searchBySet _ _ _ ?b] =>
          destruct (@searchBySet_agree api g1 g2 a b eq_refl eq_refl)
            as (log & s1 & s6 & E1 & E6 & Hr);
          rewrite E1, E6
      end
  end. cbn. repeat split. exact Hr.
Qed.

Lemma X22_photo_and_live_witness :
  Regex.match_alnum_run (js "LEA 161") = Some (js "LEA", js "161")
  /\ sent (snd (Part001.processPhoto Demo.api (Some (js "Lightning Bolt", js "LEA 161"))
                  {| state := Demo.idle; sent := [] |}))
     = sent (snd (Part006.captureAndScan Demo.api (Some (js "Lightning Bolt", js "LEA 161"))
                    {| state := Demo.idle; sent := [] |})).
Proof.
  assert (Hm : Regex.match_alnum_run (js "LEA 161") = Some (js "LEA", js "161"))
    by (vm_compute; reflexivity).
  split; [exact Hm|].
  exact (proj1 (@X22_photo_and_live_lookups_agree Demo.api (js "Lightning Bolt")
                  (js "LEA 161") (js "LEA") (js "161")
                  {| state := Demo.idle; sent := [] |} Hm)).
Defined.

(* --------------------------------------------------------------------- *)
(** ** The guarded translate handlers side by side *)
(* --------------------------------------------------------------------- *)

(** X23.  [translateText] of part_004 (first component) is the handler
    of part_000: same guard, same request, same message.  That of
    part_003 differs from it in the failure message only: on every state
    and against every service the two complete alike, send the same
    requests and leave the same record, busy flag and debug line, and
    either they leave the same error message or each has written its
    own. *)
Theorem X23_guarded_translate_handlers_agree (api : Backend) (e : Env) :
  let here := Part003.translateText api e in
  let there := Part000.translateText api e in
  Part004a.translateText api e = there
  /\ fst here = fst there
  /\ sent (snd here) = sent (snd there)
  /\ result (state (snd here)) = result (state (snd there))
  /\ loading (state (snd here)) = loading (state (snd there))
  /\ debugText (state (snd here)) = debugText (state (snd there))
  /\ (error (state (snd here)) = error (state (snd there))
      \/ (error (state (snd here)) = Some (js "Erro ao traduzir automaticamente.")
          /\ error (state (snd there)) = Some (js "Erro na tradução."))).
Proof.
  cbv zeta. split; [reflexivity|].
  unfold Part003.translateText, Part000.translateText.
  async_unfold. cbn -[js isWellFormed].
  destruct (result (state e)) as [card|]; [|cbn; auto 10].
  destruct (oracle_text card) as [text|]; [|cbn; auto 10].
  cbn -[js isWellFormed]. destruct (truthy text); cbn -[js isWellFormed]; [|auto 10].
  destruct (isWellFormed text); cbn -[js]; [|repeat split; eauto 10].
  destruct (translation api text) as [|okf [[items|]|]] eqn:Et; cbn -[js];
    repeat split; eauto 10.
Qed.
